(** * Service lifecycle of the Aiven Terraform provider

    A shallow embedding of the generic service resource of package
    [aiven] (its schema, its Create, Read, Update, Delete and import
    operations, and the helpers the per-type service resources share with
    it) together with the properties its specification states.

    Go strings are byte strings: they are modelled by [string]
    (lists of 8-bit [ascii]).  A [*schema.ResourceData] is a mutable
    object: it is threaded through every operation as part of the state,
    so that fields written before an error is returned stay written. *)

From Stdlib Require Import ZArith String Ascii List Bool Lia.
From stdpp Require Import base option gmap strings list fin_maps.
Import ListNotations.

Local Open Scope string_scope.
Local Open Scope Z_scope.
Local Open Scope list_scope.

(** ** Go library functions used by the source *)

Module Strings.

(** [strings.Split(s, "/")]: the pieces of [s] between occurrences of the
    separator; an input without separator (also the empty one) gives one
    piece. *)
Fixpoint Split (s : string) : list string :=
  match s with
  | EmptyString => [EmptyString]
  | String c r =>
      if Ascii.eqb c "/"
      then EmptyString :: Split r
      else match Split r with
           | [] => [String c EmptyString]
           | p :: ps => String c p :: ps
           end
  end.

(** [strings.Join(parts, "/")]. *)
Fixpoint Join (parts : list string) : string :=
  match parts with
  | [] => EmptyString
  | [p] => p
  | p :: ps => String.append p (String "/" (Join ps))
  end.

(** No byte of [s] is the separator. *)
Fixpoint sepFree (s : string) : bool :=
  match s with
  | EmptyString => true
  | String c r => negb (Ascii.eqb c "/") && sepFree r
  end.

End Strings.

(** ** Composite identity codec *)

Module Identity.

(** Modelled from the spec: [buildResourceID] and the [splitResourceID]
    family are called by the source but defined in a file that is not part
    of it.  The spec (4.1, 6) fixes the shape
    [part1<SEP>part2[<SEP>part3[<SEP>part4]]], asks for an escaping of
    literal separators by any reversible scheme, applied uniformly, and
    for decoding to fail with MalformedIdentity when the part count does
    not match or the escaping is unbalanced.  The separator is the ["/"]
    the source splits on in [resourceServiceState]; the scheme chosen is
    escape-on-separator with ["%"] as the escape byte: ["/"] is written
    ["%2F"] and ["%"] itself ["%25"]. *)
Fixpoint escapePart (s : string) : string :=
  match s with
  | EmptyString => EmptyString
  | String c r =>
      if Ascii.eqb c "/" then String "%" (String "2" (String "F" (escapePart r)))
      else if Ascii.eqb c "%" then String "%" (String "2" (String "5" (escapePart r)))
      else String c (escapePart r)
  end.

(** Modelled from the spec: the inverse of [escapePart]; an escape byte
    that is not followed by one of the two codes is unbalanced escaping. *)
Fixpoint unescapePart (s : string) : option string :=
  match s with
  | EmptyString => Some EmptyString
  | String c r =>
      if Ascii.eqb c "%" then
        match r with
        | String c1 (String c2 r') =>
            if Ascii.eqb c1 "2" && Ascii.eqb c2 "F"
            then option_map (String "/") (unescapePart r')
            else if Ascii.eqb c1 "2" && Ascii.eqb c2 "5"
            then option_map (String "%") (unescapePart r')
            else None
        | _ => None
        end
      else option_map (String c) (unescapePart r)
  end.

(** Modelled from the spec: every part is unescaped; one part with
    unbalanced escaping makes the identity malformed. *)
Fixpoint unescapeAll (ps : list string) : option (list string) :=
  match ps with
  | [] => Some []
  | p :: ps' =>
      match unescapePart p, unescapeAll ps' with
      | Some q, Some qs => Some (q :: qs)
      | _, _ => None
      end
  end.

(** Modelled from the spec: [encode(parts)]. *)
Definition buildResourceID (parts : list string) : string :=
  Strings.Join (map escapePart parts).

(** Modelled from the spec: [decode(id, expectedPartCount)]; [None] is
    MalformedIdentity. *)
Definition splitResourceID (id : string) (n : nat) : option (list string) :=
  let ps := Strings.Split id in
  if Nat.eqb (length ps) n then unescapeAll ps else None.

(** Modelled from the spec: the decoders for two-part and four-part keys
    the source and its tests call. *)
Definition splitResourceID2 (id : string) : option (string * string) :=
  match splitResourceID id 2 with
  | Some [a; b] => Some (a, b)
  | _ => None
  end.

(** Modelled from the spec: see [splitResourceID2]. *)
Definition splitResourceID4 (id : string) : option (string * string * string * string) :=
  match splitResourceID id 4 with
  | Some [a; b; c; d] => Some (a, b, c, d)
  | _ => None
  end.

End Identity.

(** ** Values of a declarative record *)

(** An [interface{}] as the SDK stores it: a scalar, a list, or a map with
    string keys.  A map literal of the source is written with its keys in
    the order of the source. *)
#[local] Set Warnings "-register-all".
Inductive value : Type :=
| VNil
| VStr (s : string)
| VInt (n : Z)
| VBool (b : bool)
| VList (l : list value)
| VMap (m : list (string * value)).

(** [reflect.DeepEqual] on two values. *)
Fixpoint value_eqb (a b : value) {struct a} : bool :=
  match a, b with
  | VNil, VNil => true
  | VStr s, VStr t => String.eqb s t
  | VInt n, VInt m => Z.eqb n m
  | VBool x, VBool y => Bool.eqb x y
  | VList l, VList l' =>
      (fix go (l l' : list value) {struct l} : bool :=
         match l, l' with
         | [], [] => true
         | x :: xs, y :: ys => value_eqb x y && go xs ys
         | _, _ => false
         end) l l'
  | VMap m, VMap m' =>
      (fix go (m m' : list (string * value)) {struct m} : bool :=
         match m, m' with
         | [], [] => true
         | (k, x) :: xs, (k', y) :: ys =>
             String.eqb k k' && value_eqb x y && go xs ys
         | _, _ => false
         end) m m'
  | _, _ => false
  end.

(** The type assertions of the source ([d.Get(k).(string)] and the like).
    The SDK hands out values of the type the schema declares for the key,
    so the assertions of the source never fail; on any other value the
    projections give the zero value of the target type. *)
Definition asString (v : value) : string :=
  match v with VStr s => s | _ => EmptyString end.

Definition asBool (v : value) : bool :=
  match v with VBool b => b | _ => false end.

Definition asList (v : value) : list value :=
  match v with VList l => l | _ => [] end.

(** [m[k]] on a [map[string]interface{}]. *)
Fixpoint mapIndex (m : list (string * value)) (k : string) : value :=
  match m with
  | [] => VNil
  | (k', v) :: r => if String.eqb k' k then v else mapIndex r k
  end.

Definition asMapIndex (v : value) (k : string) : value :=
  match v with VMap m => mapIndex m k | _ => VNil end.

(** Go's [len] on a string: its number of bytes. *)
Definition len (s : string) : Z := Z.of_nat (String.length s).

(** ** Errors *)

Inductive error : Type :=
| APIError (status : Z) (message : string)
    (** an [aiven.Error] returned by the remote API *)
| InvalidAddress (key : string)
    (** [d.Set] on a key the schema does not declare *)
| Errorf (message : string)
    (** [diag.Errorf] / [fmt.Errorf] without wrapped error *)
| Wrapped (context : string) (cause : error)
    (** [fmt.Errorf(context + "%s", err)] *)
| OperationTimedOut
| OperationFailed (detail : string).

(** [aiven.IsNotFound]: an API error with HTTP status 404. *)
Definition IsNotFound (e : error) : bool :=
  match e with
  | APIError status _ => status =? 404
  | _ => false
  end.

(** ** The remote API's data (package [aiven] of the Go client) *)

Record MaintenanceWindow := {
  DayOfWeek : string;
  TimeOfDay : string }.

Record ServiceComponents := {
  c_Component : string;
  c_Host : string;
  c_KafkaAuthenticationMethod : string;
  c_Port : Z;
  c_Route : string;
  c_Ssl : option bool;
  c_Usage : string }.

Record PostgresParams := {
  pg_DatabaseName : string;
  pg_Host : string;
  pg_Password : string;
  pg_Port : string;
  pg_SSLMode : string;
  pg_User : string }.

Record ConnectionInfo := {
  KafkaAccessCert : string;
  KafkaAccessKey : string;
  KafkaConnectURI : string;
  KafkaRestURI : string;
  SchemaRegistryURI : string;
  PostgresParamsList : list PostgresParams;
  PostgresURIs : list string;
  PostgresReplicaURI : string;
  KibanaURI : string;
  OpensearchDashboardsURI : string;
  InfluxDBDatabaseName : string;
  FlinkHostPorts : list string }.

Record Service := {
  svc_CloudName : string;
  svc_Name : string;
  svc_State : string;
  svc_Plan : string;
  svc_Type : string;
  svc_TerminationProtection : bool;
  svc_MaintenanceWindow : MaintenanceWindow;
  svc_URI : string;
  svc_ProjectVPCID : option string;
  svc_UserConfig : value;
  svc_URIParams : gmap string string;
  svc_Components : list ServiceComponents;
  svc_ConnectionInfo : ConnectionInfo }.

Record NewServiceIntegration := {
  nsi_IntegrationType : string;
  nsi_SourceService : option string;
  nsi_UserConfig : value }.

Record CreateServiceRequest := {
  cr_Cloud : string;
  cr_MaintenanceWindow : option MaintenanceWindow;
  cr_Plan : string;
  cr_ProjectVPCID : option string;
  cr_ServiceIntegrations : list NewServiceIntegration;
  cr_ServiceName : string;
  cr_ServiceType : string;
  cr_TerminationProtection : bool;
  cr_UserConfig : value }.

Record UpdateServiceRequest := {
  ur_Cloud : string;
  ur_MaintenanceWindow : option MaintenanceWindow;
  ur_Plan : string;
  ur_ProjectVPCID : option string;
  ur_Powered : bool;
  ur_TerminationProtection : bool;
  ur_UserConfig : value }.

(** A call on the remote API, as the controller issues it. *)
Inductive Call : Type :=
| CallCreate (project : string) (req : CreateServiceRequest)
| CallGet (project serviceName : string)
| CallUpdate (project serviceName : string) (req : UpdateServiceRequest)
| CallDelete (project serviceName : string).

Definition isGet (c : Call) : bool :=
  match c with CallGet _ _ => true | _ => false end.

(** The handler [client.Services] over a remote system whose state has type
    [W].  Every operation may fail and may change the remote state; nothing
    is assumed about either. *)
Record Client (W : Type) := {
  Services_Create : string -> CreateServiceRequest -> W -> (error + Service) * W;
  Services_Get : string -> string -> W -> (error + Service) * W;
  Services_Update : string -> string -> UpdateServiceRequest -> W -> (error + Service) * W;
  Services_Delete : string -> string -> W -> option error * W }.

Arguments Services_Create {W} _ _ _ _.
Arguments Services_Get {W} _ _ _ _.
Arguments Services_Update {W} _ _ _ _ _.
Arguments Services_Delete {W} _ _ _ _.

(** ** The declarative record ([schema.ResourceData]) *)

Inductive ValueType := TypeString | TypeInt | TypeBool | TypeList.

Definition zeroValue (t : ValueType) : value :=
  match t with
  | TypeString => VStr EmptyString
  | TypeInt => VInt 0
  | TypeBool => VBool false
  | TypeList => VList []
  end.

(** What the SDK keeps for one resource instance: the schema of the
    resource, the attributes of the prior state, the attributes as they
    stand now (configuration merged over the state, then every [d.Set]),
    the identity, and the configured timeouts. *)
Record ResourceData := {
  rd_schema : gmap string ValueType;
  rd_prior : gmap string value;
  rd_attrs : gmap string value;
  rd_id : string;
  rd_timeoutCreate : Z;
  rd_timeoutUpdate : Z }.

Definition readField (sch : gmap string ValueType) (m : gmap string value)
    (k : string) : value :=
  match m !! k with
  | Some v => v
  | None => match sch !! k with
            | Some t => zeroValue t
            | None => VNil
            end
  end.

(** [d.Get(k)]: the current value, the zero value of the key's type when
    nothing is stored. *)
Definition Get (d : ResourceData) (k : string) : value :=
  readField (rd_schema d) (rd_attrs d) k.

Definition isZero (v : value) : bool :=
  match v with
  | VNil => true
  | VStr s => String.eqb s EmptyString
  | VInt n => n =? 0
  | VBool b => negb b
  | VList l => match l with [] => true | _ => false end
  | VMap m => match m with [] => true | _ => false end
  end.

(** [d.GetOk(k)]: the value, and whether it is set to a non-zero value. *)
Definition GetOk (d : ResourceData) (k : string) : value * bool :=
  let v := Get d k in (v, negb (isZero v)).

(** [d.GetChange(k)]: the value in the prior state and the value now. *)
Definition GetChange (d : ResourceData) (k : string) : value * value :=
  (readField (rd_schema d) (rd_prior d) k, Get d k).

(** [d.HasChanges(k)]: old and new are not deeply equal. *)
Definition HasChanges (d : ResourceData) (k : string) : bool :=
  let '(o, n) := GetChange d k in negb (value_eqb o n).

Definition Id (d : ResourceData) : string := rd_id d.

Definition withAttrs (d : ResourceData) (a : gmap string value) : ResourceData :=
  {| rd_schema := rd_schema d; rd_prior := rd_prior d; rd_attrs := a;
     rd_id := rd_id d; rd_timeoutCreate := rd_timeoutCreate d;
     rd_timeoutUpdate := rd_timeoutUpdate d |}.

Definition withId (d : ResourceData) (id : string) : ResourceData :=
  {| rd_schema := rd_schema d; rd_prior := rd_prior d; rd_attrs := rd_attrs d;
     rd_id := id; rd_timeoutCreate := rd_timeoutCreate d;
     rd_timeoutUpdate := rd_timeoutUpdate d |}.

(** [d.Set(k, v)]: refused with an error for a key the schema does not
    declare, stored otherwise.  The value is kept as it was written, and
    that is what [d.Get] returns for a key of a scalar type.  A block (a
    list of maps) the SDK writes through the schema of its elements, which
    this record does not hold: read back, an element there has every key of
    that schema, with the zero value where none was written, and the SDK
    refuses a key the element schema does not declare.  Of a block the
    record here holds what the code wrote. *)
Definition Set_ (d : ResourceData) (k : string) (v : value)
    : option error * ResourceData :=
  match rd_schema d !! k with
  | None => (Some (InvalidAddress k), d)
  | Some _ => (None, withAttrs d (<[k := v]> (rd_attrs d)))
  end.

Inductive TimeoutKey := TimeoutCreate | TimeoutUpdate.

Definition Timeout (d : ResourceData) (k : TimeoutKey) : Z :=
  match k with
  | TimeoutCreate => rd_timeoutCreate d
  | TimeoutUpdate => rd_timeoutUpdate d
  end.

(** ** Effects: the record, the remote system, and the calls made on it *)

Inductive outcome (A : Type) : Type :=
| Ok (a : A)
| Err (e : error)
| Panic (message : string).

Arguments Ok {A} a.
Arguments Err {A} e.
Arguments Panic {A} message.

Record St (W : Type) := {
  data : ResourceData;
  world : W;
  calls : list Call }.

Arguments data {W} _.
Arguments world {W} _.
Arguments calls {W} _.

Definition M (W A : Type) : Type := St W -> outcome A * St W.

Definition ret {W A} (a : A) : M W A := fun st => (Ok a, st).

Definition bind {W A B} (m : M W A) (k : A -> M W B) : M W B :=
  fun st =>
    match m st with
    | (Ok a, st') => k a st'
    | (Err e, st') => (Err e, st')
    | (Panic msg, st') => (Panic msg, st')
    end.

Notation "x <- m ;; k" := (bind m (fun x => k))
  (at level 100, m at next level, right associativity).
Notation "m ;; k" := (bind m (fun _ => k))
  (at level 100, right associativity).

Definition fail {W A} (e : error) : M W A := fun st => (Err e, st).
Definition panic {W A} (msg : string) : M W A := fun st => (Panic msg, st).

(** The record as it stands. *)
Definition getData {W} : M W ResourceData := fun st => (Ok (data st), st).

Definition putData {W} (d : ResourceData) : M W unit :=
  fun st => (Ok tt, {| data := d; world := world st; calls := calls st |}).

(** [if err := d.Set(k, v); err != nil { return err }]. *)
Definition dSet {W} (k : string) (v : value) : M W unit :=
  fun st =>
    match Set_ (data st) k v with
    | (Some e, d') => (Err e, {| data := d'; world := world st; calls := calls st |})
    | (None, d') => (Ok tt, {| data := d'; world := world st; calls := calls st |})
    end.

Definition SetId {W} (id : string) : M W unit :=
  fun st => (Ok tt, {| data := withId (data st) id; world := world st;
                       calls := calls st |}).

(** An error of [m] is replaced by [f] of it. *)
Definition mapErr {W A} (f : error -> error) (m : M W A) : M W A :=
  fun st =>
    match m st with
    | (Err e, st') => (Err (f e), st')
    | r => r
    end.

(** One call on the remote API: the call is recorded, the remote state
    moves on, the answer is returned to the caller as a Go pair. *)
Definition remoteCall {W A} (c : Call) (op : W -> A * W) : M W A :=
  fun st =>
    let '(r, w') := op (world st) in
    (Ok r, {| data := data st; world := w'; calls := calls st ++ [c] |}).

(** ** [strconv] and [validation] *)

Module Strconv.

Definition digitVal (c : ascii) : option Z :=
  let n := Z.of_N (N_of_ascii c) in
  if (48 <=? n) && (n <=? 57) then Some (n - 48) else None.

(** How a conversion fails: [strconv.ErrSyntax] or [strconv.ErrRange]. *)
Inductive NumError : Type := ErrSyntax | ErrRange.

Definition maxUint32 : Z := 2 ^ 32 - 1.

(** The loop of [strconv.ParseUint(s, 10, 32)] over the bytes of [s], from
    the left, [n] being the value read so far: a byte that is no decimal
    digit ends it with a syntax error and 0; the first digit that takes the
    value past [1<<32 - 1] ends it with a range error and that bound,
    whatever follows.  ([n] never reaches the cutoff of the 64-bit
    multiplication, which the bound on [n1] keeps out of reach.) *)
Fixpoint parseUintLoop (s : string) (n : Z) : Z * option NumError :=
  match s with
  | EmptyString => (n, None)
  | String c r =>
      match digitVal c with
      | None => (0, Some ErrSyntax)
      | Some d =>
          let n1 := 10 * n + d in
          if maxUint32 <? n1 then (maxUint32, Some ErrRange)
          else parseUintLoop r n1
      end
  end.

(** [strconv.ParseUint(s, 10, 32)]: the empty string is a syntax error. *)
Definition ParseUint32 (s : string) : Z * option NumError :=
  match s with
  | EmptyString => (0, Some ErrSyntax)
  | String _ _ => parseUintLoop s 0
  end.

(** The second half of [strconv.ParseInt(s, 10, 32)], after the sign has
    been picked off: a syntax error of [ParseUint] gives 0; otherwise the
    unsigned value (the bound [1<<32 - 1] after a range error) is checked
    against [cutoff = 1<<31] and negated under a minus sign.  The boolean
    is [err == nil]. *)
Definition checkRange (neg : bool) (r : Z * option NumError) : Z * bool :=
  match r with
  | (_, Some ErrSyntax) => (0, false)
  | (un, _) =>
      let cutoff := 2 ^ 31 in
      if negb neg && (cutoff <=? un) then (cutoff - 1, false)
      else if neg && (cutoff <? un) then (- cutoff, false)
      else (if neg then - un else un, true)
  end.

(** [strconv.ParseInt(s, 10, 32)]: 0 and an error for the empty string;
    otherwise a leading ["+"] or ["-"] is picked off and the rest converted
    as an unsigned number. *)
Definition ParseInt32 (s : string) : Z * bool :=
  match s with
  | EmptyString => (0, false)
  | String "+" r => checkRange false (ParseUint32 r)
  | String "-" r => checkRange true (ParseUint32 r)
  | String _ _ => checkRange false (ParseUint32 s)
  end.

End Strconv.


(** ** The source: constants and schemas *)

Definition ServiceTypePG := "pg".
Definition ServiceTypeCassandra := "cassandra".
Definition ServiceTypeElasticsearch := "elasticsearch".
Definition ServiceTypeOpensearch := "opensearch".
Definition ServiceTypeGrafana := "grafana".
Definition ServiceTypeInfluxDB := "influxdb".
Definition ServiceTypeRedis := "redis".
Definition ServiceTypeMySQL := "mysql".
Definition ServiceTypeKafka := "kafka".
Definition ServiceTypeKafkaConnect := "kafka_connect".
Definition ServiceTypeKafkaMirrormaker := "kafka_mirrormaker".
Definition ServiceTypeM3 := "m3db".
Definition ServiceTypeM3Aggregator := "m3aggregator".
Definition ServiceTypeFlink := "flink".

Definition availableServiceTypes : list string :=
  [ ServiceTypePG;
    ServiceTypeCassandra;
    ServiceTypeElasticsearch;
    ServiceTypeGrafana;
    ServiceTypeInfluxDB;
    ServiceTypeRedis;
    ServiceTypeMySQL;
    ServiceTypeKafka;
    ServiceTypeKafkaConnect;
    ServiceTypeKafkaMirrormaker;
    ServiceTypeM3;
    ServiceTypeM3Aggregator;
    ServiceTypeOpensearch;
    ServiceTypeFlink ].

(** The keys of [serviceCommonSchema] with their types, in source order. *)
Definition serviceCommonSchemaFields : list (string * ValueType) :=
  [ ("project", TypeString);
    ("cloud_name", TypeString);
    ("plan", TypeString);
    ("service_name", TypeString);
    ("service_type", TypeString);
    ("project_vpc_id", TypeString);
    ("maintenance_window_dow", TypeString);
    ("maintenance_window_time", TypeString);
    ("termination_protection", TypeBool);
    ("service_uri", TypeString);
    ("service_host", TypeString);
    ("service_port", TypeInt);
    ("service_password", TypeString);
    ("service_username", TypeString);
    ("state", TypeString);
    ("service_integrations", TypeList);
    ("components", TypeList) ].

Definition serviceCommonSchema : gmap string ValueType :=
  list_to_map serviceCommonSchemaFields.

(** The keys of a [components] element, as [serviceCommonSchema] and
    [aivenServiceSchema] both declare them. *)
Definition componentSchemaFields : list (string * ValueType) :=
  [ ("component", TypeString);
    ("host", TypeString);
    ("kafka_authentication_method", TypeString);
    ("port", TypeInt);
    ("route", TypeString);
    ("ssl", TypeBool);
    ("usage", TypeString) ].

(** The keys of [aivenServiceSchema], the schema of the generic service
    resource.  [generateServiceUserConfiguration] is not part of the source
    at hand; the user-config blocks it generates are lists. *)
Definition aivenServiceSchemaFields : list (string * ValueType) :=
  [ ("project", TypeString);
    ("cloud_name", TypeString);
    ("plan", TypeString);
    ("service_name", TypeString);
    ("service_type", TypeString);
    ("project_vpc_id", TypeString);
    ("maintenance_window_dow", TypeString);
    ("maintenance_window_time", TypeString);
    ("termination_protection", TypeBool);
    ("service_uri", TypeString);
    ("service_host", TypeString);
    ("service_integrations", TypeList);
    ("components", TypeList);
    ("service_port", TypeInt);
    ("service_password", TypeString);
    ("service_username", TypeString);
    ("state", TypeString);
    ("cassandra", TypeList);
    ("cassandra_user_config", TypeList);
    ("elasticsearch", TypeList);
    ("elasticsearch_user_config", TypeList);
    ("opensearch", TypeList);
    ("opensearch_user_config", TypeList);
    ("grafana", TypeList);
    ("grafana_user_config", TypeList);
    ("influxdb", TypeList);
    ("influxdb_user_config", TypeList);
    ("kafka", TypeList);
    ("kafka_user_config", TypeList);
    ("kafka_connect", TypeList);
    ("kafka_connect_user_config", TypeList);
    ("mysql", TypeList);
    ("mysql_user_config", TypeList);
    ("kafka_mirrormaker", TypeList);
    ("kafka_mirrormaker_user_config", TypeList);
    ("pg", TypeList);
    ("pg_user_config", TypeList);
    ("redis", TypeList);
    ("redis_user_config", TypeList);
    ("flink", TypeList);
    ("flink_user_config", TypeList) ].

Definition aivenServiceSchema : gmap string ValueType :=
  list_to_map aivenServiceSchemaFields.

(** [redisSchema]: the common schema and the two Redis blocks. *)
Definition redisSchema : gmap string ValueType :=
  <[ServiceTypeRedis +:+ "_user_config" := TypeList]>
    (<[ServiceTypeRedis := TypeList]> serviceCommonSchema).


(** ** The source: pure helpers *)

Definition getMaintenanceWindow (d : ResourceData) : option MaintenanceWindow :=
  let dow := asString (Get d "maintenance_window_dow") in
  let t := asString (Get d "maintenance_window_time") in
  if (0 <? len dow) && (0 <? len t)
  then Some {| DayOfWeek := dow; TimeOfDay := t |}
  else None.

Definition flattenServiceComponents (r : Service) : list value :=
  map (fun c =>
         VMap [ ("component", VStr (c_Component c));
                ("host", VStr (c_Host c));
                ("port", VInt (c_Port c));
                ("route", VStr (c_Route c));
                ("usage", VStr (c_Usage c)) ])
      (svc_Components r).

(** Whether a flattened component carries a key. *)
Definition hasKey (v : value) (k : string) : bool :=
  match v with
  | VMap m => existsb (fun kv => String.eqb (fst kv) k) m
  | _ => false
  end.

(** The empty block [[]map[string]interface{}{}]. *)
Definition emptyBlock : value := VList [].

(** ** The source: the lifecycle controller *)

(** Modelled from the spec: the three classes of an observed state
    (4.3). *)
Inductive PollClass : Type :=
| Pending
| TerminalSuccess
| TerminalFailure (detail : string).

(** The fields [resourceServiceWait] fills in, the client apart (it is the
    one of the operation). *)
Record ServiceChangeWaiter := {
  w_Operation : string;
  w_Project : string;
  w_ServiceName : string }.

(** Modelled from the spec: a waiter with its timeout, as [Conf] returns
    it. *)
Record StateChangeConf := {
  sc_waiter : ServiceChangeWaiter;
  sc_Timeout : Z }.

Section Lifecycle.

(** The remote system and the handle on it (the [aiven.Client] every
    operation receives as [m]). *)
Context {W : Type}.
Variable client : Client W.

(** The user-config translator, defined outside the source at hand. *)
Variable ConvertTerraformUserConfigToAPICompatibleFormat :
  string -> string -> bool -> ResourceData -> value.
Variable ConvertAPIUserConfigToTerraformCompatibleFormat :
  string -> string -> value -> value.

(** The waiter's reading of an observed service, per operation, and the
    fixed interval it sleeps between two polls. *)
Variable classify : string -> Service -> PollClass.
Variable pollInterval : Z.

#[local] Abbreviation M := (M W).

(** Modelled from the spec: [splitResourceID2] at its call sites.  The
    source takes two strings from it and no error, so a malformed
    identity cannot be returned: it stops the operation. *)
Definition splitResourceID2 (id : string) : M (string * string) :=
  match Identity.splitResourceID2 id with
  | Some p => ret p
  | None => panic "MalformedIdentity"
  end.

(** Modelled from the spec: [buildResourceID] at its call sites, which all
    pass two parts. *)
Definition buildResourceID (project name : string) : string :=
  Identity.buildResourceID [project; name].

(** Modelled from the spec: [ServiceChangeWaiter] is defined outside the
    source at hand.  Spec 4.3: poll the remote read operation on a fixed
    interval; classify each observed state as pending, terminal success
    or terminal failure; go on polling while pending; return the final
    representation on terminal success; fail with OperationTimedOut when
    the timeout elapses while still pending; fail with OperationFailed
    carrying the remote's detail on terminal failure.  The clock is the
    waiter's own (spec 9): it advances by [pollInterval] at each sleep and
    not otherwise, so the timeout has elapsed when as many polls as
    intervals fit in it have found the operation pending; that number is
    the budget of [pollLoop].  An error of the read operation itself is
    propagated. *)
Definition Conf (w : ServiceChangeWaiter) (timeout : Z) : StateChangeConf :=
  {| sc_waiter := w; sc_Timeout := timeout |}.

(** Modelled from the spec: the number of polls that fit in [timeout],
    one every [pollInterval]. *)
Definition pollBudget (timeout : Z) : nat :=
  Z.to_nat ((timeout + pollInterval - 1) / pollInterval).

(** Modelled from the spec: one poll, its classification, and what
    follows from it. *)
Fixpoint pollLoop (w : ServiceChangeWaiter) (budget : nat) : M Service :=
  match budget with
  | O => fail OperationTimedOut
  | S budget' =>
      r <- remoteCall (CallGet (w_Project w) (w_ServiceName w))
             (Services_Get client (w_Project w) (w_ServiceName w)) ;;
      match r with
      | inl err => fail err
      | inr service =>
          match classify (w_Operation w) service with
          | TerminalSuccess => ret service
          | TerminalFailure detail => fail (OperationFailed detail)
          | Pending => pollLoop w budget'
          end
      end
  end.

(** Modelled from the spec: the blocking wait.  Cancellation of the
    calling context is left out: no operation of the source cancels it. *)
Definition WaitForStateContext (c : StateChangeConf) : M Service :=
  pollLoop (sc_waiter c) (pollBudget (sc_Timeout c)).

(** Modelled from the spec: [resourceReadHandleNotFound] is defined
    outside the source at hand.  Spec 4.2 and 7: a not-found answer of
    the remote is not an error for Read, it signals the caller to drop
    the local record; any other error is propagated.  The signal is the
    SDK's: the identity of the record is cleared. *)
Definition resourceReadHandleNotFound (err : error) : M (option error) :=
  if IsNotFound err
  then SetId EmptyString ;; ret None
  else ret (Some err).

Definition resourceServiceWait (operation : string) : M Service :=
  d <- getData ;;
  let timeout :=
    if String.eqb operation "create"
    then Timeout d TimeoutCreate
    else Timeout d TimeoutUpdate in
  let w := {| w_Operation := operation;
              w_Project := asString (Get d "project");
              w_ServiceName := asString (Get d "service_name") |} in
  mapErr (Wrapped "error waiting for Aiven service to be RUNNING: ")
         (WaitForStateContext (Conf w timeout)).

Definition copyConnectionInfoFromAPIResponseToTerraform
    (serviceType : string) (connectionInfo : ConnectionInfo) : M unit :=
  props <-
    (if String.eqb serviceType "cassandra" then ret []
     else if String.eqb serviceType "opensearch" then
       ret [("opensearch_dashboards_uri",
             VStr (OpensearchDashboardsURI connectionInfo))]
     else if String.eqb serviceType "elasticsearch" then
       ret [("kibana_uri", VStr (KibanaURI connectionInfo))]
     else if String.eqb serviceType "grafana" then ret []
     else if String.eqb serviceType "influxdb" then
       ret [("database_name", VStr (InfluxDBDatabaseName connectionInfo))]
     else if String.eqb serviceType "kafka" then
       ret [("access_cert", VStr (KafkaAccessCert connectionInfo));
            ("access_key", VStr (KafkaAccessKey connectionInfo));
            ("connect_uri", VStr (KafkaConnectURI connectionInfo));
            ("rest_uri", VStr (KafkaRestURI connectionInfo));
            ("schema_registry_uri", VStr (SchemaRegistryURI connectionInfo))]
     else if String.eqb serviceType "kafka_connect" then ret []
     else if String.eqb serviceType "mysql" then ret []
     else if String.eqb serviceType "pg" then
       let uri :=
         match PostgresURIs connectionInfo with
         | u :: _ => [("uri", VStr u)]
         | [] => []
         end in
       let params :=
         match PostgresParamsList connectionInfo with
         | params :: _ =>
             ([("dbname", VStr (pg_DatabaseName params));
               ("host", VStr (pg_Host params));
               ("password", VStr (pg_Password params))]
              ++ (let '(port, ok) := Strconv.ParseInt32 (pg_Port params) in
                  if ok then [("port", VInt port)] else [])
              ++ [("sslmode", VStr (pg_SSLMode params));
                  ("user", VStr (pg_User params))])%list
         | [] => []
         end in
       ret (uri ++ params
            ++ [("replica_uri", VStr (PostgresReplicaURI connectionInfo))])%list
     else if String.eqb serviceType "redis" then ret []
     else if String.eqb serviceType "flink" then
       ret [("host_ports", VList (map VStr (FlinkHostPorts connectionInfo)))]
     else if String.eqb serviceType "kafka_mirrormaker" then ret []
     else if String.eqb serviceType "m3db" then ret []
     else if String.eqb serviceType "m3aggregator" then ret []
     else panic ("Unsupported service type " +:+ serviceType)) ;;
  dSet serviceType (VList [VMap props]).

Definition copyServicePropertiesFromAPIResponseToTerraform
    (service : Service) (project : string) : M unit :=
  d <- getData ;;
  let serviceType :=
    if snd (GetOk d "service_type")
    then asString (Get d "service_type")
    else svc_Type service in
  dSet "cloud_name" (VStr (svc_CloudName service)) ;;
  dSet "service_name" (VStr (svc_Name service)) ;;
  dSet "state" (VStr (svc_State service)) ;;
  dSet "plan" (VStr (svc_Plan service)) ;;
  dSet "service_type" (VStr serviceType) ;;
  dSet "termination_protection" (VBool (svc_TerminationProtection service)) ;;
  dSet "maintenance_window_dow"
       (VStr (DayOfWeek (svc_MaintenanceWindow service))) ;;
  dSet "maintenance_window_time"
       (VStr (TimeOfDay (svc_MaintenanceWindow service))) ;;
  dSet "service_uri" (VStr (svc_URI service)) ;;
  dSet "project" (VStr project) ;;
  match svc_ProjectVPCID service with
  | Some vpc => dSet "project_vpc_id" (VStr (buildResourceID project vpc))
  | None => ret tt
  end ;;
  let userConfig :=
    ConvertAPIUserConfigToTerraformCompatibleFormat
      "service" serviceType (svc_UserConfig service) in
  mapErr (Wrapped ("cannot set `" +:+ serviceType +:+ "_user_config` : "))
         (dSet (serviceType +:+ "_user_config") userConfig) ;;
  let params := svc_URIParams service in
  dSet "service_host" (VStr (default EmptyString (params !! "host"))) ;;
  let port := fst (Strconv.ParseInt32 (default EmptyString (params !! "port"))) in
  dSet "service_port" (VInt port) ;;
  match params !! "password" with
  | Some password => dSet "service_password" (VStr password)
  | None => ret tt
  end ;;
  match params !! "user" with
  | Some username => dSet "service_username" (VStr username)
  | None => ret tt
  end ;;
  mapErr (Wrapped "cannot set `components` : ")
         (dSet "components" (VList (flattenServiceComponents service))) ;;
  copyConnectionInfoFromAPIResponseToTerraform
    serviceType (svc_ConnectionInfo service).

(** [if len(vpcID) > 0 { _, vpcID := splitResourceID2(vpcID); ... }] *)
Definition vpcIDPointerOf (vpcID : string) : M (option string) :=
  if 0 <? len vpcID
  then p <- splitResourceID2 vpcID ;; ret (Some (snd p))
  else ret None.

Definition resourceServiceCreate : M unit :=
  d <- getData ;;
  let serviceType := asString (Get d "service_type") in
  let userConfig :=
    ConvertTerraformUserConfigToAPICompatibleFormat "service" serviceType true d in
  let vpcID := asString (Get d "project_vpc_id") in
  let tfServiceIntegrations := Get d "service_integrations" in
  let apiServiceIntegrations :=
    match tfServiceIntegrations with
    | VNil => []
    | _ =>
        map (fun definition =>
               let sourceService :=
                 asString (asMapIndex definition "source_service_name") in
               {| nsi_IntegrationType :=
                    asString (asMapIndex definition "integration_type");
                  nsi_SourceService := Some sourceService;
                  nsi_UserConfig := VMap [] |})
            (asList tfServiceIntegrations)
    end in
  let project := asString (Get d "project") in
  vpcIDPointer <- vpcIDPointerOf vpcID ;;
  let req :=
    {| cr_Cloud := asString (Get d "cloud_name");
       cr_MaintenanceWindow := getMaintenanceWindow d;
       cr_Plan := asString (Get d "plan");
       cr_ProjectVPCID := vpcIDPointer;
       cr_ServiceIntegrations := apiServiceIntegrations;
       cr_ServiceName := asString (Get d "service_name");
       cr_ServiceType := serviceType;
       cr_TerminationProtection := asBool (Get d "termination_protection");
       cr_UserConfig := userConfig |} in
  r <- remoteCall (CallCreate project req) (Services_Create client project req) ;;
  match r with
  | inl err => fail err
  | inr _ =>
      service <- resourceServiceWait "create" ;;
      d1 <- getData ;;
      SetId (buildResourceID (asString (Get d1 "project")) (svc_Name service)) ;;
      d2 <- getData ;;
      copyServicePropertiesFromAPIResponseToTerraform
        service (asString (Get d2 "project"))
  end.

Definition resourceServiceCreateWrapper (serviceType : string) : M unit :=
  if String.eqb serviceType "service" then
    dSet ServiceTypeCassandra emptyBlock ;;
    dSet ServiceTypeElasticsearch emptyBlock ;;
    dSet ServiceTypeGrafana emptyBlock ;;
    dSet ServiceTypeInfluxDB emptyBlock ;;
    dSet ServiceTypeKafka emptyBlock ;;
    dSet ServiceTypeKafkaConnect emptyBlock ;;
    dSet ServiceTypeKafkaMirrormaker emptyBlock ;;
    dSet ServiceTypeMySQL emptyBlock ;;
    dSet ServiceTypePG emptyBlock ;;
    dSet ServiceTypeRedis emptyBlock ;;
    dSet ServiceTypeOpensearch emptyBlock ;;
    dSet ServiceTypeFlink emptyBlock ;;
    resourceServiceCreate
  else
    dSet "service_type" (VStr serviceType) ;;
    dSet serviceType emptyBlock ;;
    resourceServiceCreate.

Definition resourceServiceRead : M unit :=
  d <- getData ;;
  p <- splitResourceID2 (Id d) ;;
  let '(projectName, serviceName) := p in
  r <- remoteCall (CallGet projectName serviceName)
         (Services_Get client projectName serviceName) ;;
  match r with
  | inl err =>
      e <- resourceReadHandleNotFound err ;;
      match e with
      | Some e' => fail e'
      | None => ret tt
      end
  | inr service =>
      copyServicePropertiesFromAPIResponseToTerraform service projectName
  end.

Definition resourceServiceUpdate : M unit :=
  d <- getData ;;
  if HasChanges d "service_integrations"
     && negb (Nat.eqb (length (asList (Get d "service_integrations"))) 0)
  then fail (Errorf "service_integrations field can only be set during creation of a service")
  else
    p <- splitResourceID2 (Id d) ;;
    let '(projectName, serviceName) := p in
    let userConfig :=
      ConvertTerraformUserConfigToAPICompatibleFormat
        "service" (asString (Get d "service_type")) false d in
    let vpcID := asString (Get d "project_vpc_id") in
    vpcIDPointer <- vpcIDPointerOf vpcID ;;
    let req :=
      {| ur_Cloud := asString (Get d "cloud_name");
         ur_MaintenanceWindow := getMaintenanceWindow d;
         ur_Plan := asString (Get d "plan");
         ur_ProjectVPCID := vpcIDPointer;
         ur_Powered := true;
         ur_TerminationProtection := asBool (Get d "termination_protection");
         ur_UserConfig := userConfig |} in
    r <- remoteCall (CallUpdate projectName serviceName req)
           (Services_Update client projectName serviceName req) ;;
    match r with
    | inl err => fail err
    | inr _ =>
        service <- resourceServiceWait "update" ;;
        copyServicePropertiesFromAPIResponseToTerraform service projectName
    end.

Definition resourceServiceDelete : M unit :=
  d <- getData ;;
  p <- splitResourceID2 (Id d) ;;
  let '(projectName, serviceName) := p in
  err <- remoteCall (CallDelete projectName serviceName)
           (Services_Delete client projectName serviceName) ;;
  match err with
  | Some e => if negb (IsNotFound e) then fail e else ret tt
  | None => ret tt
  end.

Definition resourceServiceState : M (list ResourceData) :=
  d <- getData ;;
  if negb (Nat.eqb (length (Strings.Split (Id d))) 2)
  then fail (Errorf ("invalid identifier " +:+ Id d
                     +:+ ", expected <project_name>/<service_name>"))
  else
    p <- splitResourceID2 (Id d) ;;
    let '(projectName, serviceName) := p in
    r <- remoteCall (CallGet projectName serviceName)
           (Services_Get client projectName serviceName) ;;
    match r with
    | inl err => fail err
    | inr service =>
        copyServicePropertiesFromAPIResponseToTerraform service projectName ;;
        d' <- getData ;;
        ret [d']
    end.

End Lifecycle.

(** ** Observations on runs of the controller *)


(** The state after a successful [d.Set(k, v)]. *)
Definition setAttr {W : Type} (k : string) (v : value) (st : St W) : St W :=
  {| data := withAttrs (data st) (<[k := v]> (rd_attrs (data st)));
     world := world st; calls := calls st |}.

(** The state whose record is [d] with the attributes [a]. *)
Definition mkSt {W : Type} (d : ResourceData) (a : gmap string value)
    (w : W) (c : list Call) : St W :=
  {| data := withAttrs d a; world := w; calls := c |}.

(** [m] leaves the observation [f] of the state as it is, however it ends. *)
Definition preserves {W A X : Type} (f : St W -> X) (m : M W A) : Prop :=
  forall st, f (snd (m st)) = f st.

Definition schemaOf {W : Type} (st : St W) := rd_schema (data st).
Definition attrsOf {W : Type} (st : St W) := rd_attrs (data st).
Definition idOf {W : Type} (st : St W) := rd_id (data st).

(** Postconditions of successful runs: [Q] holds of the result and the
    state whenever [m] returns without error. *)
Definition wp {W A : Type} (m : M W A) (Q : A -> St W -> Prop) (st : St W) : Prop :=
  match m st with
  | (Ok a, st') => Q a st'
  | _ => True
  end.

(** The service type [copyServicePropertiesFromAPIResponseToTerraform]
    works with: the one of the record when it is set, the remote one
    otherwise. *)
Definition resolvedType (d : ResourceData) (service : Service) : string :=
  if snd (GetOk d "service_type")
  then asString (Get d "service_type")
  else svc_Type service.


Definition insertOpt (k : string) (o : option value) (m : gmap string value)
    : gmap string value :=
  match o with
  | Some v => <[k := v]> m
  | None => m
  end.

(** The attributes after a successful copy, write by write. *)
Definition copiedAttrs (toTerraform : string -> string -> value -> value)
    (T : string) (service : Service) (project : string)
    (props : list (string * value)) (m : gmap string value) : gmap string value :=
  let params := svc_URIParams service in
  <[T := VList [VMap props]]>
  (<["components" := VList (flattenServiceComponents service)]>
  (insertOpt "service_username" (VStr <$> params !! "user")
  (insertOpt "service_password" (VStr <$> params !! "password")
  (<["service_port" :=
       VInt (fst (Strconv.ParseInt32 (default EmptyString (params !! "port"))))]>
  (<["service_host" := VStr (default EmptyString (params !! "host"))]>
  (<[T +:+ "_user_config" := toTerraform "service" T (svc_UserConfig service)]>
  (insertOpt "project_vpc_id"
     ((fun vpc => VStr (Identity.buildResourceID [project; vpc]))
        <$> svc_ProjectVPCID service)
  (<["project" := VStr project]>
  (<["service_uri" := VStr (svc_URI service)]>
  (<["maintenance_window_time" := VStr (TimeOfDay (svc_MaintenanceWindow service))]>
  (<["maintenance_window_dow" := VStr (DayOfWeek (svc_MaintenanceWindow service))]>
  (<["termination_protection" := VBool (svc_TerminationProtection service)]>
  (<["service_type" := VStr T]>
  (<["plan" := VStr (svc_Plan service)]>
  (<["state" := VStr (svc_State service)]>
  (<["service_name" := VStr (svc_Name service)]>
  (<["cloud_name" := VStr (svc_CloudName service)]> m))))))))))))))))).

(** The keys the copy writes besides the two that depend on the type. *)
Definition copiedKeys : list string :=
  [ "cloud_name"; "service_name"; "state"; "plan"; "service_type";
    "termination_protection"; "maintenance_window_dow";
    "maintenance_window_time"; "service_uri"; "project"; "project_vpc_id";
    "service_host"; "service_port"; "service_password"; "service_username";
    "components" ].

(** The blocks [resourceServiceCreateWrapper("service")] clears. *)
Definition preseededTypes : list string :=
  [ ServiceTypeCassandra; ServiceTypeElasticsearch; ServiceTypeGrafana;
    ServiceTypeInfluxDB; ServiceTypeKafka; ServiceTypeKafkaConnect;
    ServiceTypeKafkaMirrormaker; ServiceTypeMySQL; ServiceTypePG;
    ServiceTypeRedis; ServiceTypeOpensearch; ServiceTypeFlink ].

(** Every call [m] makes on the remote API satisfies [phi], however [m]
    ends; earlier calls stay recorded. *)
Definition emits {W A : Type} (phi : Call -> Prop) (m : M W A) : Prop :=
  forall st, exists new,
    calls (snd (m st)) = calls st ++ new /\ Forall phi new.

(** The calls made between two states of one run. *)
Definition newCalls {W : Type} (st st' : St W) : list Call :=
  drop (length (calls st)) (calls st').

(** The error [resourceServiceUpdate] rejects a change of integrations
    with. *)
Definition integrationsError : error :=
  Errorf "service_integrations field can only be set during creation of a service".

(** What a call may be during a Create (resp. an Update) started on the
    record [d]: the one create (update) request, carrying the maintenance
    window [getMaintenanceWindow] computes from [d], or a read. *)
Definition createCallOf (d : ResourceData) (c : Call) : Prop :=
  match c with
  | CallCreate _ req => cr_MaintenanceWindow req = getMaintenanceWindow d
  | CallGet _ _ => True
  | _ => False
  end.

Definition updateCallOf (d : ResourceData) (c : Call) : Prop :=
  match c with
  | CallUpdate _ _ req => ur_MaintenanceWindow req = getMaintenanceWindow d
  | CallGet _ _ => True
  | _ => False
  end.

(** What the record [d'] holds after a copy that worked on the attributes
    [a0]: the writes of the copy for the type [T] of the enumeration. *)
Definition copiedOver (toTerraform : string -> string -> value -> value)
    (a0 : gmap string value) (T : string) (d' : ResourceData) : Prop :=
  In T availableServiceTypes
  /\ exists service project props,
       rd_attrs d' = copiedAttrs toTerraform T service project props a0.

(** ** Observations used by the further properties *)

(** The properties [copyConnectionInfoFromAPIResponseToTerraform] puts in
    the block of a service type, case by case as its switch does; [None]
    where the switch has no case. *)
Definition connectionProps (serviceType : string) (connectionInfo : ConnectionInfo)
    : option (list (string * value)) :=
  if String.eqb serviceType "cassandra" then Some []
  else if String.eqb serviceType "opensearch" then
    Some [("opensearch_dashboards_uri",
           VStr (OpensearchDashboardsURI connectionInfo))]
  else if String.eqb serviceType "elasticsearch" then
    Some [("kibana_uri", VStr (KibanaURI connectionInfo))]
  else if String.eqb serviceType "grafana" then Some []
  else if String.eqb serviceType "influxdb" then
    Some [("database_name", VStr (InfluxDBDatabaseName connectionInfo))]
  else if String.eqb serviceType "kafka" then
    Some [("access_cert", VStr (KafkaAccessCert connectionInfo));
          ("access_key", VStr (KafkaAccessKey connectionInfo));
          ("connect_uri", VStr (KafkaConnectURI connectionInfo));
          ("rest_uri", VStr (KafkaRestURI connectionInfo));
          ("schema_registry_uri", VStr (SchemaRegistryURI connectionInfo))]
  else if String.eqb serviceType "kafka_connect" then Some []
  else if String.eqb serviceType "mysql" then Some []
  else if String.eqb serviceType "pg" then
    let uri :=
      match PostgresURIs connectionInfo with
      | u :: _ => [("uri", VStr u)]
      | [] => []
      end in
    let params :=
      match PostgresParamsList connectionInfo with
      | params :: _ =>
          [("dbname", VStr (pg_DatabaseName params));
           ("host", VStr (pg_Host params));
           ("password", VStr (pg_Password params))]
          ++ (let '(port, ok) := Strconv.ParseInt32 (pg_Port params) in
              if ok then [("port", VInt port)] else [])
          ++ [("sslmode", VStr (pg_SSLMode params));
              ("user", VStr (pg_User params))]
      | [] => []
      end in
    Some (uri ++ params
          ++ [("replica_uri", VStr (PostgresReplicaURI connectionInfo))])
  else if String.eqb serviceType "redis" then Some []
  else if String.eqb serviceType "flink" then
    Some [("host_ports", VList (map VStr (FlinkHostPorts connectionInfo)))]
  else if String.eqb serviceType "kafka_mirrormaker" then Some []
  else if String.eqb serviceType "m3db" then Some []
  else if String.eqb serviceType "m3aggregator" then Some []
  else None.

(** A write that happens only when its value is there. *)
Definition optWrite (k : string) (o : option value) : list (string * value) :=
  match o with
  | Some v => [(k, v)]
  | None => []
  end.

(** The writes of the field copy, in the order it makes them. *)
Definition copyWrites (toTerraform : string -> string -> value -> value)
    (T : string) (service : Service) (project : string)
    (props : list (string * value)) : list (string * value) :=
  let params := svc_URIParams service in
  [ ("cloud_name", VStr (svc_CloudName service));
    ("service_name", VStr (svc_Name service));
    ("state", VStr (svc_State service));
    ("plan", VStr (svc_Plan service));
    ("service_type", VStr T);
    ("termination_protection", VBool (svc_TerminationProtection service));
    ("maintenance_window_dow", VStr (DayOfWeek (svc_MaintenanceWindow service)));
    ("maintenance_window_time", VStr (TimeOfDay (svc_MaintenanceWindow service)));
    ("service_uri", VStr (svc_URI service));
    ("project", VStr project) ]
  ++ optWrite "project_vpc_id"
       ((fun vpc => VStr (Identity.buildResourceID [project; vpc]))
          <$> svc_ProjectVPCID service)
  ++ [ (T +:+ "_user_config", toTerraform "service" T (svc_UserConfig service));
       ("service_host", VStr (default EmptyString (params !! "host")));
       ("service_port",
        VInt (fst (Strconv.ParseInt32 (default EmptyString (params !! "port"))))) ]
  ++ optWrite "service_password" (VStr <$> params !! "password")
  ++ optWrite "service_username" (VStr <$> params !! "user")
  ++ [ ("components", VList (flattenServiceComponents service));
       (T, VList [VMap props]) ].

(** A sequence of writes applied to the attributes, first write first. *)
Definition applyWrites (ws : list (string * value)) (m : gmap string value)
    : gmap string value :=
  fold_left (fun m kv => <[fst kv := snd kv]> m) ws m.

(** The value the last write to [k] leaves, if [k] is written at all. *)
Definition lastWrite (k : string) (ws : list (string * value)) : option value :=
  fold_left (fun acc kv => if String.eqb (fst kv) k then Some (snd kv) else acc)
            ws None.

(** The schema of [d] declares every key of [ws]. *)
Definition keysDeclared (d : ResourceData) (ws : list (string * value)) : Prop :=
  Forall (fun kv => is_Some (rd_schema d !! fst kv)) ws.

(** [m] run on [st] returns [a] and leaves [st']. *)
Definition returns {W A : Type} (m : M W A) (st : St W) (a : A) (st' : St W) : Prop :=
  m st = (Ok a, st').

(** The VPC reference a create or update request carries for the stored
    ["project_vpc_id"]: none for the empty string, the second part of the
    identity otherwise; [None] when the identity does not decode. *)
Definition vpcRef (vpcID : string) : option (option string) :=
  if 0 <? len vpcID
  then option_map (fun p => Some (snd p)) (Identity.splitResourceID2 vpcID)
  else Some None.

(** The calls of a Create on the record [d] that sends its request with
    the VPC reference [ptr]: the create request for the project of [d],
    naming the service and the type of [d], then [k] reads of the service
    [d] names, and nothing else. *)
Definition createTrace (d : ResourceData) (ptr : option string) (cs : list Call) : Prop :=
  exists req k,
    cs = CallCreate (asString (Get d "project")) req
           :: repeat (CallGet (asString (Get d "project"))
                              (asString (Get d "service_name"))) k
    /\ cr_ServiceName req = asString (Get d "service_name")
    /\ cr_ServiceType req = asString (Get d "service_type")
    /\ cr_ProjectVPCID req = ptr.

(** The calls of an Update on the record [d] that sends its request for the
    service [projectName]/[serviceName] with the VPC reference [ptr]: the
    update request, powered on, then [k] reads of the service the fields of
    [d] name, and nothing else. *)
Definition updateTrace (d : ResourceData) (projectName serviceName : string)
    (ptr : option string) (cs : list Call) : Prop :=
  exists req k,
    cs = CallUpdate projectName serviceName req
           :: repeat (CallGet (asString (Get d "project"))
                              (asString (Get d "service_name"))) k
    /\ ur_Powered req = true
    /\ ur_ProjectVPCID req = ptr.

(** The guard of [resourceServiceUpdate]: the list of service integrations
    has changed and the new list is not empty. *)
Definition addsIntegrations (d : ResourceData) : bool :=
  HasChanges d "service_integrations"
  && negb (Nat.eqb (length (asList (Get d "service_integrations"))) 0).

(** The record with the twelve blocks of the generic resource cleared. *)
Definition preseeded (a : gmap string value) : gmap string value :=
  <[ServiceTypeFlink := emptyBlock]>
  (<[ServiceTypeOpensearch := emptyBlock]>
  (<[ServiceTypeRedis := emptyBlock]>
  (<[ServiceTypePG := emptyBlock]>
  (<[ServiceTypeMySQL := emptyBlock]>
  (<[ServiceTypeKafkaMirrormaker := emptyBlock]>
  (<[ServiceTypeKafkaConnect := emptyBlock]>
  (<[ServiceTypeKafka := emptyBlock]>
  (<[ServiceTypeInfluxDB := emptyBlock]>
  (<[ServiceTypeGrafana := emptyBlock]>
  (<[ServiceTypeElasticsearch := emptyBlock]>
  (<[ServiceTypeCassandra := emptyBlock]> a))))))))))).

(** The error of [resourceServiceState] for an identity that is not of the
    form [<project_name>/<service_name>]. *)
Definition invalidIdentifier (id : string) : error :=
  Errorf ("invalid identifier " +:+ id
          +:+ ", expected <project_name>/<service_name>").

(** ** A scripted remote, for running the controller on concrete inputs *)

Module Fake.

Definition connectionInfo : ConnectionInfo :=
  {| KafkaAccessCert := ""; KafkaAccessKey := ""; KafkaConnectURI := "";
     KafkaRestURI := ""; SchemaRegistryURI := "";
     PostgresParamsList := []; PostgresURIs := ["postgres://db:5432/defaultdb"];
     PostgresReplicaURI := ""; KibanaURI := ""; OpensearchDashboardsURI := "";
     InfluxDBDatabaseName := ""; FlinkHostPorts := [] |}.

(** The service [project/name] of type [type], observed in state [state]. *)
Definition service (name type state : string) : Service :=
  {| svc_CloudName := "google-europe-west1";
     svc_Name := name;
     svc_State := state;
     svc_Plan := "startup-4";
     svc_Type := type;
     svc_TerminationProtection := false;
     svc_MaintenanceWindow := {| DayOfWeek := "monday"; TimeOfDay := "10:00:00" |};
     svc_URI := "postgres://db:5432/defaultdb";
     svc_ProjectVPCID := None;
     svc_UserConfig := VMap [];
     svc_URIParams := {[ "host" := "db"; "port" := "5432" ]};
     svc_Components :=
       [ {| c_Component := "kafka"; c_Host := "db"; c_KafkaAuthenticationMethod := "sasl";
            c_Port := 9092; c_Route := "dynamic"; c_Ssl := Some false;
            c_Usage := "primary" |} ];
     svc_ConnectionInfo := connectionInfo |}.

(** The remote state is the number of reads answered so far: the n-th
    read is answered by [script n].  Create and update are accepted,
    delete answers [deleteAnswer]. *)
Definition client (script : nat -> error + Service) (deleteAnswer : option error)
    : Client nat :=
  {| Services_Create := fun _ req n =>
       (inr (service (cr_ServiceName req) (cr_ServiceType req) "REBUILDING"), n);
     Services_Get := fun _ _ n => (script n, S n);
     Services_Update := fun _ name _ n => (inr (service name "" "REBUILDING"), n);
     Services_Delete := fun _ _ n => (deleteAnswer, n) |}.

(** The state after [k] reads of [project/name]. *)
Definition polled (project name : string) (k : nat) (st : St nat) : St nat :=
  {| data := data st; world := (k + world st)%nat;
     calls := calls st ++ repeat (CallGet project name) k |}.

Definition toAPI (_ _ : string) (_ : bool) (_ : ResourceData) : value := VMap [].
Definition toTerraform (_ _ : string) (_ : value) : value := VList [].

(** RUNNING is the target; a service that is being rebuilt or rebalanced
    is on its way; anything else is a failure, reported by its name. *)
Definition classify (_ : string) (s : Service) : PollClass :=
  if String.eqb (svc_State s) "RUNNING" then TerminalSuccess
  else if String.eqb (svc_State s) "REBUILDING"
          || String.eqb (svc_State s) "REBALANCING" then Pending
  else TerminalFailure (svc_State s).

(** A record of the given schema, with prior state and configuration. *)
Definition record (sch : gmap string ValueType) (prior attrs : list (string * value))
    (id : string) : ResourceData :=
  {| rd_schema := sch; rd_prior := list_to_map prior; rd_attrs := list_to_map attrs;
     rd_id := id; rd_timeoutCreate := 1200; rd_timeoutUpdate := 1200 |}.

Definition start (d : ResourceData) : St nat :=
  {| data := d; world := 0%nat; calls := [] |}.

(** Provisioning takes two polls, then the service runs. *)
Definition provisioning (name type : string) (n : nat) : error + Service :=
  if Nat.ltb n 2 then inr (service name type "REBUILDING")
  else inr (service name type "RUNNING").

Definition pgConfig : list (string * value) :=
  [ ("project", VStr "prj"); ("service_name", VStr "db1");
    ("service_type", VStr "pg"); ("plan", VStr "startup-4");
    ("maintenance_window_dow", VStr "monday") ].

(** The waiter [resourceServiceWait] builds for [prj/db1]. *)
Definition waiter (operation : string) : ServiceChangeWaiter :=
  {| w_Operation := operation; w_Project := "prj"; w_ServiceName := "db1" |}.

Definition notFound : error := APIError 404 "Service does not exist".

Definition readReplica : value :=
  VMap [ ("source_service_name", VStr "src");
         ("integration_type", VStr "read_replica") ].

(** The remote for the service [prj/db1] of type pg. *)
Definition pgClient : Client nat := client (provisioning "db1" "pg") None.

(** The record of the generic resource before Create. *)
Definition pgPlanned : St nat :=
  start (record aivenServiceSchema [] pgConfig "").

(** The record of the generic resource once the service exists. *)
Definition pgExisting : St nat :=
  start (record aivenServiceSchema pgConfig pgConfig "prj/db1").

(** An update that removes the only integration of the prior state. *)
Definition pgIntegrationRemoved : St nat :=
  start (record aivenServiceSchema
           (("service_integrations", VList [readReplica]) :: pgConfig)
           pgConfig "prj/db1").

(** An update that adds an integration. *)
Definition pgIntegrationAdded : St nat :=
  start (record aivenServiceSchema pgConfig
           (("service_integrations", VList [readReplica]) :: pgConfig)
           "prj/db1").

(** A record with both halves of the maintenance window. *)
Definition pgWindowed : St nat :=
  start (record aivenServiceSchema []
           (("maintenance_window_time", VStr "10:00:00") :: pgConfig) "prj/db1").

(** A record that holds a VPC reference. *)
Definition pgInVpc : St nat :=
  start (record aivenServiceSchema []
           (("project_vpc_id", VStr "prj/vpc1") :: pgConfig) "prj/db1").

(** A remote that refuses every create and update with [e]. *)
Definition refusing (e : error) : Client nat :=
  {| Services_Create := fun _ _ n => (inl e, n);
     Services_Get := fun _ name n => (inr (service name "pg" "RUNNING"), S n);
     Services_Update := fun _ _ _ n => (inl e, n);
     Services_Delete := fun _ _ n => (None, n) |}.

(** A remote on which [prj/db1] is a running pg service. *)
Definition steady : Client nat :=
  client (fun _ => inr (service "db1" "pg" "RUNNING")) None.

(** An empty record of the generic resource with the identity [id], as
    an import starts from. *)
Definition imported (id : string) : St nat :=
  start (record aivenServiceSchema [] [] id).

(** The record of the Redis resource before Create. *)
Definition redisPlanned : St nat :=
  start (record redisSchema []
           [ ("project", VStr "prj"); ("service_name", VStr "db1") ] "").

(** What the remote reports for a pg service with one parameter set. *)
Definition pgConnection : ConnectionInfo :=
  {| KafkaAccessCert := ""; KafkaAccessKey := ""; KafkaConnectURI := "";
     KafkaRestURI := ""; SchemaRegistryURI := "";
     PostgresParamsList :=
       [ {| pg_DatabaseName := "defaultdb"; pg_Host := "db";
            pg_Password := "secret"; pg_Port := "5432";
            pg_SSLMode := "require"; pg_User := "avnadmin" |} ];
     PostgresURIs := ["postgres://db:5432/defaultdb"];
     PostgresReplicaURI := ""; KibanaURI := ""; OpensearchDashboardsURI := "";
     InfluxDBDatabaseName := ""; FlinkHostPorts := [] |}.

End Fake.

(** * Properties *)

(** ** Deep equality decides equality *)

Section value_induction.

Variable P : value -> Prop.
Hypothesis HNil : P VNil.
Hypothesis HStr : forall s, P (VStr s).
Hypothesis HInt : forall n, P (VInt n).
Hypothesis HBool : forall b, P (VBool b).
Hypothesis HList : forall l, Forall P l -> P (VList l).
Hypothesis HMap : forall m, Forall (fun kv => P (snd kv)) m -> P (VMap m).

Lemma value_nested_ind (v : value) : P v.
Proof.
  revert v. fix value_nested_ind 1. intros v.
  refine (match v with
  | VNil => HNil
  | VStr s => HStr s
  | VInt n => HInt n
  | VBool b => HBool b
  | VList l =>
      HList l
        ((fix go (l : list value) : Forall P l :=
            match l with
            | [] => @List.Forall_nil _ P
            | x :: xs => @List.Forall_cons _ P x xs (value_nested_ind x) (go xs)
            end) l)
  | VMap m =>
      HMap m
        ((fix go (m : list (string * value)) : Forall (fun kv => P (snd kv)) m :=
            match m with
            | [] => @List.Forall_nil _ _
            | (k, x) :: xs =>
                @List.Forall_cons _ (fun kv => P (snd kv)) (k, x) xs
                  (value_nested_ind x) (go xs)
            end) m)
  end).
Qed.

End value_induction.

Lemma value_eqb_eq (a b : value) : value_eqb a b = true <-> a = b.
Proof.
  revert b. induction a as [| s | n | x | l IH | m IH] using value_nested_ind;
    intros b; destruct b as [| s' | n' | y | l' | m']; simpl;
    try (split; intros H; discriminate H); try (split; reflexivity).
  - rewrite String.eqb_eq. split; congruence.
  - rewrite Z.eqb_eq. split; congruence.
  - rewrite Bool.eqb_true_iff. split; congruence.
  - revert l'. induction IH as [| x xs Hx _ IHxs]; intros [| y ys];
      try (split; intros H; discriminate H); try (split; reflexivity).
    rewrite andb_true_iff, Hx, IHxs. split.
    + intros [-> H]. congruence.
    + intros H. injection H as -> ->. split; reflexivity.
  - revert m'. induction IH as [| [k x] xs Hx _ IHxs]; intros [| [k' y] ys];
      try (split; intros H; discriminate H); try (split; reflexivity).
    simpl in Hx.
    rewrite !andb_true_iff, String.eqb_eq, Hx, IHxs. split.
    + intros [[-> ->] H]. congruence.
    + intros H. injection H as -> -> ->. repeat split; reflexivity.
Qed.

Lemma HasChanges_true_iff (d : ResourceData) (k : string) :
  HasChanges d k = true <-> fst (GetChange d k) <> snd (GetChange d k).
Proof.
  unfold HasChanges. simpl. rewrite negb_true_iff.
  destruct (value_eqb _ _) eqn:E.
  - apply value_eqb_eq in E. split; [discriminate | intros H; contradiction].
  - split; [|reflexivity]. intros _ H. apply value_eqb_eq in H. congruence.
Qed.

(** ** Reasoning on the effects *)

Section Effects.

Context {W : Type}.

#[local] Abbreviation M := (M W).

Lemma preserves_ret {A X} (f : St W -> X) (a : A) : preserves f (ret a).
Proof. intros st. reflexivity. Qed.

Lemma preserves_fail {A X} (f : St W -> X) e : preserves f (@fail W A e).
Proof. intros st. reflexivity. Qed.

Lemma preserves_panic {A X} (f : St W -> X) msg : preserves f (@panic W A msg).
Proof. intros st. reflexivity. Qed.

Lemma preserves_getData {X} (f : St W -> X) : preserves f getData.
Proof. intros st. reflexivity. Qed.

Lemma preserves_bind {A B X} (f : St W -> X) (m : M A) (k : A -> M B) :
  preserves f m -> (forall a, preserves f (k a)) -> preserves f (bind m k).
Proof.
  intros Hm Hk st. unfold bind. specialize (Hm st).
  destruct (m st) as [[a | e | msg] st1]; simpl in *; [|exact Hm..].
  rewrite Hk. exact Hm.
Qed.

Lemma preserves_mapErr {A X} (f : St W -> X) g (m : M A) :
  preserves f m -> preserves f (mapErr g m).
Proof.
  intros Hm st. unfold mapErr. specialize (Hm st).
  destruct (m st) as [[a | e | msg] st1]; exact Hm.
Qed.

Lemma dSet_cases (k : string) (v : value) (st : St W) :
  (rd_schema (data st) !! k = None /\ dSet k v st = (Err (InvalidAddress k), st))
  \/ (is_Some (rd_schema (data st) !! k) /\ dSet k v st = (Ok tt, setAttr k v st)).
Proof.
  unfold dSet, Set_, setAttr. destruct (rd_schema (data st) !! k) eqn:E.
  - right. split; [eauto | reflexivity].
  - left. split; [reflexivity|]. destruct st; reflexivity.
Qed.

Lemma preserves_dSet_world k v : preserves (W:=W) world (dSet k v).
Proof. intros st. destruct (dSet_cases k v st) as [[_ ->] | [_ ->]]; reflexivity. Qed.

Lemma preserves_dSet_calls k v : preserves (W:=W) calls (dSet k v).
Proof. intros st. destruct (dSet_cases k v st) as [[_ ->] | [_ ->]]; reflexivity. Qed.

Lemma preserves_dSet_schema k v : preserves (W:=W) schemaOf (dSet k v).
Proof. intros st. destruct (dSet_cases k v st) as [[_ ->] | [_ ->]]; reflexivity. Qed.

Lemma preserves_dSet_id k v : preserves (W:=W) idOf (dSet k v).
Proof. intros st. destruct (dSet_cases k v st) as [[_ ->] | [_ ->]]; reflexivity. Qed.

Lemma preserves_SetId_world id : preserves (W:=W) world (SetId id).
Proof. intros st. reflexivity. Qed.

Lemma preserves_SetId_calls id : preserves (W:=W) calls (SetId id).
Proof. intros st. reflexivity. Qed.

Lemma preserves_SetId_attrs id : preserves (W:=W) attrsOf (SetId id).
Proof. intros st. reflexivity. Qed.

Lemma preserves_remoteCall_data {A} c (op : W -> A * W) : preserves (W:=W) data (remoteCall c op).
Proof. intros st. unfold remoteCall. destruct (op (world st)). reflexivity. Qed.

Lemma wp_elim {A} (m : M A) Q st a st' :
  wp m Q st -> m st = (Ok a, st') -> Q a st'.
Proof. unfold wp. intros H E. rewrite E in H. exact H. Qed.

Lemma wp_ret {A} (a : A) (Q : A -> St W -> Prop) st : Q a st -> wp (ret a) Q st.
Proof. intros H. exact H. Qed.

Lemma wp_fail {A} e (Q : A -> St W -> Prop) st : wp (fail e) Q st.
Proof. exact I. Qed.

Lemma wp_panic {A} msg (Q : A -> St W -> Prop) st : wp (panic msg) Q st.
Proof. exact I. Qed.

Lemma wp_getData (Q : ResourceData -> St W -> Prop) st :
  Q (data st) st -> wp getData Q st.
Proof. intros H. exact H. Qed.

Lemma wp_bind {A B} (m : M A) (k : A -> M B) Q st :
  wp m (fun a st' => wp (k a) Q st') st -> wp (bind m k) Q st.
Proof.
  unfold wp, bind. destruct (m st) as [[a | e | msg] st1]; intros H; exact H.
Qed.

Lemma wp_mapErr {A} g (m : M A) Q st : wp m Q st -> wp (mapErr g m) Q st.
Proof.
  unfold wp, mapErr. destruct (m st) as [[a | e | msg] st1]; intros H; exact H.
Qed.

Lemma wp_dSet k v (Q : unit -> St W -> Prop) st :
  (is_Some (rd_schema (data st) !! k) -> Q tt (setAttr k v st)) ->
  wp (dSet k v) Q st.
Proof.
  intros H. unfold wp.
  destruct (dSet_cases k v st) as [[_ ->] | [Hk ->]]; [exact I | exact (H Hk)].
Qed.

Lemma wp_dSet_mk k v (Q : unit -> St W -> Prop) d a w c :
  (is_Some (rd_schema d !! k) -> Q tt (mkSt d (<[k := v]> a) w c)) ->
  wp (dSet k v) Q (mkSt d a w c).
Proof. intros H. apply wp_dSet. exact H. Qed.

Lemma St_eta (st : St W) :
  st = mkSt (data st) (rd_attrs (data st)) (world st) (calls st).
Proof. destruct st as [[? ? ? ? ? ?] ? ?]. reflexivity. Qed.

Lemma wp_consequence {A} (m : M A) (Q Q' : A -> St W -> Prop) st :
  wp m Q st -> (forall a st', Q a st' -> Q' a st') -> wp m Q' st.
Proof.
  unfold wp. destruct (m st) as [[a | e | msg] st1]; intros H HQ;
    [exact (HQ _ _ H) | exact I | exact I].
Qed.

Lemma wp_of_preserves_data {A} (m : M A) (Q : A -> St W -> Prop) st :
  preserves data m ->
  (forall a st', data st' = data st -> Q a st') ->
  wp m Q st.
Proof.
  intros Hm HQ. unfold wp. specialize (Hm st).
  destruct (m st) as [[a | e | msg] st1]; [exact (HQ _ _ Hm) | exact I | exact I].
Qed.

Lemma wp_SetId id (Q : unit -> St W -> Prop) st :
  Q tt {| data := withId (data st) id; world := world st; calls := calls st |} ->
  wp (SetId id) Q st.
Proof. intros H. exact H. Qed.

End Effects.

Ltac preserves_step :=
  lazymatch goal with
  | |- preserves _ (bind _ _) => apply preserves_bind; [| intros ?]
  | |- preserves _ (ret _) => apply preserves_ret
  | |- preserves _ (fail _) => apply preserves_fail
  | |- preserves _ (panic _) => apply preserves_panic
  | |- preserves _ getData => apply preserves_getData
  | |- preserves _ (mapErr _ _) => apply preserves_mapErr
  | |- preserves _ (dSet _ _) =>
      first [ apply preserves_dSet_world
            | apply preserves_dSet_calls
            | apply preserves_dSet_schema
            | apply preserves_dSet_id ]
  | |- preserves _ (SetId _) =>
      first [ apply preserves_SetId_world
            | apply preserves_SetId_calls
            | apply preserves_SetId_attrs ]
  | |- preserves _ (remoteCall _ _) => apply preserves_remoteCall_data
  | |- preserves _ (match ?x with _ => _ end) => destruct x
  end.

Ltac preserves_tac := repeat preserves_step.

(** One step of a postcondition proof, chosen by the shape of the
    computation. *)
Ltac wp_step :=
  cbv beta;
  lazymatch goal with
  | |- wp (bind _ _) _ _ => apply wp_bind
  | |- wp (dSet _ _) _ (mkSt _ _ _ _) => apply wp_dSet_mk; intros _
  | |- wp (dSet _ _) _ _ => apply wp_dSet; intros _
  | |- wp (ret _) _ _ => apply wp_ret
  | |- wp (mapErr _ _) _ _ => apply wp_mapErr
  | |- wp getData _ _ => apply wp_getData
  | |- wp (SetId _) _ _ => apply wp_SetId
  | |- wp (fail _) _ _ => apply wp_fail
  | |- wp (panic _) _ _ => apply wp_panic
  end.
(** *** Properties of the codec *)

Lemma Split_nonempty (s : string) : Strings.Split s <> [].
Proof.
  destruct s as [|c r]; simpl; [discriminate|].
  destruct (Ascii.eqb c "/"); [discriminate|].
  destruct (Strings.Split r); discriminate.
Qed.

Lemma Split_sepFree (s : string) :
  Strings.sepFree s = true -> Strings.Split s = [s].
Proof.
  induction s as [|c r IH]; simpl; [reflexivity|].
  destruct (Ascii.eqb c "/"); simpl; [discriminate|].
  intros H. rewrite (IH H). reflexivity.
Qed.

Lemma Split_append_sep (p rest : string) :
  Strings.sepFree p = true ->
  Strings.Split (String.append p (String "/" rest)) = p :: Strings.Split rest.
Proof.
  induction p as [|c r IH]; simpl; [reflexivity|].
  destruct (Ascii.eqb c "/"); simpl; [discriminate|].
  intros H. rewrite (IH H). reflexivity.
Qed.

Lemma Split_Join (ps : list string) :
  ps <> [] ->
  Forall (fun p => Strings.sepFree p = true) ps ->
  Strings.Split (Strings.Join ps) = ps.
Proof.
  induction ps as [|p ps IH]; [congruence|].
  intros _ HF. inversion HF as [|? ? Hp Hps]; subst.
  destruct ps as [|q qs].
  - simpl. apply Split_sepFree, Hp.
  - change (Strings.Join (p :: q :: qs))
      with (String.append p (String "/" (Strings.Join (q :: qs)))).
    rewrite Split_append_sep by exact Hp.
    rewrite IH; [reflexivity|discriminate|exact Hps].
Qed.

Lemma escapePart_sepFree (s : string) :
  Strings.sepFree (Identity.escapePart s) = true.
Proof.
  induction s as [|c r IH]; simpl; [reflexivity|].
  destruct (Ascii.eqb c "/") eqn:E1; simpl; [exact IH|].
  destruct (Ascii.eqb c "%") eqn:E2; simpl; [exact IH|].
  rewrite E1. simpl. exact IH.
Qed.

Lemma unescape_escape (s : string) :
  Identity.unescapePart (Identity.escapePart s) = Some s.
Proof.
  induction s as [|c r IH]; simpl; [reflexivity|].
  destruct (Ascii.eqb c "/") eqn:E1.
  - apply Ascii.eqb_eq in E1. subst c. simpl. rewrite IH. reflexivity.
  - destruct (Ascii.eqb c "%") eqn:E2.
    + apply Ascii.eqb_eq in E2. subst c. simpl. rewrite IH. reflexivity.
    + simpl. rewrite E2, IH. reflexivity.
Qed.

Lemma unescapeAll_escape (ps : list string) :
  Identity.unescapeAll (map Identity.escapePart ps) = Some ps.
Proof.
  induction ps as [|p ps IH]; simpl; [reflexivity|].
  rewrite unescape_escape, IH. reflexivity.
Qed.

Lemma split_build (parts : list string) :
  parts <> [] ->
  Identity.splitResourceID (Identity.buildResourceID parts) (length parts)
  = Some parts.
Proof.
  intros Hne. unfold Identity.splitResourceID, Identity.buildResourceID.
  rewrite Split_Join.
  - rewrite length_map, Nat.eqb_refl. apply unescapeAll_escape.
  - destruct parts; [congruence|discriminate].
  - clear Hne. induction parts as [|p ps IH]; simpl; constructor;
      [apply escapePart_sepFree | exact IH].
Qed.

Lemma splitResourceID2_build (a b : string) :
  Identity.splitResourceID2 (Identity.buildResourceID [a; b]) = Some (a, b).
Proof.
  unfold Identity.splitResourceID2.
  pose proof (split_build [a; b]) as H. simpl length in H.
  rewrite H by discriminate. reflexivity.
Qed.

Lemma Split_build_length (parts : list string) :
  parts <> [] ->
  length (Strings.Split (Identity.buildResourceID parts)) = length parts.
Proof.
  intros Hne. unfold Identity.buildResourceID. rewrite Split_Join.
  - apply length_map.
  - destruct parts; [congruence|discriminate].
  - clear Hne. induction parts as [|p ps IH]; simpl; constructor;
      [apply escapePart_sepFree | exact IH].
Qed.

(** C1: for every sequence of 2 to 4 string parts, whatever bytes they hold
    (separators, escape bytes, nothing at all), decoding the encoded
    identity with the matching part count gives back exactly the parts; and
    the encoded identity has as many pieces between separators as there are
    parts, which is what the import of the source checks before it
    decodes. *)
Theorem identity_round_trip (parts : list string) :
  (2 <= length parts <= 4)%nat ->
  Identity.splitResourceID (Identity.buildResourceID parts) (length parts)
  = Some parts
  /\ length (Strings.Split (Identity.buildResourceID parts)) = length parts.
Proof.
  intros [Hlo _].
  assert (Hne : parts <> []) by (destruct parts; simpl in Hlo; [lia|discriminate]).
  split; [apply split_build, Hne | apply Split_build_length, Hne].
Qed.

Lemma identity_round_trip_witness :
  (2 <= length ["my/project"; ""; "50%"] <= 4)%nat /\
  Identity.splitResourceID
    (Identity.buildResourceID ["my/project"; ""; "50%"]) 3
  = Some ["my/project"; ""; "50%"].
Proof.
  split; [simpl; lia|].
  apply (identity_round_trip ["my/project"; ""; "50%"]). simpl; lia.
Defined.

(** What the identities look like. *)
Example identity_escapes_separator :
  Identity.buildResourceID ["my/project"; ""; "50%"] = "my%2Fproject//50%25".
Proof. reflexivity. Qed.

Example identity_rejects_malformed :
  Identity.splitResourceID "prj/db1/extra" 2 = None
  /\ Identity.splitResourceID "prj/db%1" 2 = None.
Proof. split; reflexivity. Qed.

(** ** The connection-info projection *)

Section ProjectionFacts.

Context {W : Type}.

Lemma copyConnectionInfo_cases (t : string) (ci : ConnectionInfo) (st : St W) :
  (In t availableServiceTypes /\
   exists props,
     copyConnectionInfoFromAPIResponseToTerraform t ci st
     = dSet t (VList [VMap props]) st)
  \/ (~ In t availableServiceTypes /\
      copyConnectionInfoFromAPIResponseToTerraform t ci st
      = (Panic ("Unsupported service type " +:+ t), st)).
Proof.
  unfold copyConnectionInfoFromAPIResponseToTerraform.
  repeat
    match goal with
    | |- context [if String.eqb t ?lit then _ else _] =>
        let E := fresh "E" in
        destruct (String.eqb t lit) eqn:E;
        [ apply String.eqb_eq in E; subst t; left; split;
          [ unfold availableServiceTypes, In;
            repeat (first [left; reflexivity | right])
          | eexists; reflexivity ]
        | ]
    end.
  right. split; [|reflexivity].
  unfold availableServiceTypes, In.
  intros H.
  repeat match goal with
         | H : _ \/ _ |- _ => destruct H as [H | H]
         end;
    try contradiction; subst t;
    match goal with
    | E : String.eqb _ _ = false |- _ => vm_compute in E; discriminate E
    end.
Qed.





End ProjectionFacts.



(** ** Components *)

(** C9, as the code has it: every entry of the flattened components list
    carries component, host, port, route and usage as observed remotely, and
    never the keys ["ssl"] and ["kafka_authentication_method"] that the
    schema of a component declares, whatever the remote reports for
    them. *)
Theorem flattenServiceComponents_omits_ssl_and_auth (r : Service) :
  flattenServiceComponents r
  = map (fun c => VMap [ ("component", VStr (c_Component c));
                         ("host", VStr (c_Host c));
                         ("port", VInt (c_Port c));
                         ("route", VStr (c_Route c));
                         ("usage", VStr (c_Usage c)) ])
        (svc_Components r)
  /\ Forall (fun v => hasKey v "ssl" = false
                      /\ hasKey v "kafka_authentication_method" = false)
            (flattenServiceComponents r)
  /\ In ("ssl", TypeBool) componentSchemaFields
  /\ In ("kafka_authentication_method", TypeString) componentSchemaFields
  /\ flattenServiceComponents (Fake.service "events" "kafka" "RUNNING")
     = [ VMap [ ("component", VStr "kafka"); ("host", VStr "db");
                ("port", VInt 9092); ("route", VStr "dynamic");
                ("usage", VStr "primary") ] ].
Proof.
  split; [reflexivity|]. split; [|split; [|split]].
  - unfold flattenServiceComponents.
    induction (svc_Components r) as [|c cs IH]; simpl; constructor;
      [split; reflexivity | exact IH].
  - unfold componentSchemaFields, In. auto 10.
  - unfold componentSchemaFields, In. auto 10.
  - reflexivity.
Qed.

(** ** The keys of a service record do not collide *)

Lemma type_keys_apart (T k : string) :
  In T availableServiceTypes -> In k copiedKeys ->
  T <> k /\ T +:+ "_user_config" <> k.
Proof.
  intros HT Hk.
  assert (E : forallb (fun T => forallb (fun k =>
                negb (String.eqb T k) && negb (String.eqb (T +:+ "_user_config") k))
              copiedKeys) availableServiceTypes = true) by (vm_compute; reflexivity).
  rewrite forallb_forall in E. specialize (E T HT).
  rewrite forallb_forall in E. specialize (E k Hk).
  apply andb_true_iff in E. destruct E as [E1 E2].
  apply negb_true_iff in E1, E2. apply String.eqb_neq in E1, E2. split; assumption.
Qed.

Lemma block_not_user_config (Y T : string) :
  In Y availableServiceTypes -> In T availableServiceTypes ->
  T +:+ "_user_config" <> Y.
Proof.
  intros HY HT.
  assert (E : forallb (fun T => forallb (fun Y =>
                negb (String.eqb (T +:+ "_user_config") Y))
              availableServiceTypes) availableServiceTypes = true)
    by (vm_compute; reflexivity).
  rewrite forallb_forall in E. specialize (E T HT).
  rewrite forallb_forall in E. specialize (E Y HY).
  apply negb_true_iff in E. apply String.eqb_neq in E. exact E.
Qed.

Lemma block_not_copied (Y : string) :
  In Y availableServiceTypes -> ~ In Y copiedKeys.
Proof.
  intros HY Hk. destruct (type_keys_apart Y Y HY Hk) as [H _]. congruence.
Qed.

Lemma preseeded_available (Y : string) :
  In Y preseededTypes -> In Y availableServiceTypes.
Proof.
  unfold preseededTypes, availableServiceTypes, In. intuition (subst; auto 20).
Qed.

Lemma lookup_insertOpt_ne (k k' : string) o (m : gmap string value) :
  k <> k' -> insertOpt k o m !! k' = m !! k'.
Proof. intros H. destruct o; simpl; [apply lookup_insert_ne, H | reflexivity]. Qed.

(** Looking a key up below the writes of other keys. *)
Ltac through_writes :=
  repeat first
    [ rewrite lookup_insert_ne by (first [assumption | discriminate])
    | rewrite lookup_insertOpt_ne by (first [assumption | discriminate]) ].

Section CopiedAttrs.

Variable toTerraform : string -> string -> value -> value.
Variables (T : string) (service : Service) (project : string).
Variables (props : list (string * value)) (m : gmap string value).
Hypothesis HT : In T availableServiceTypes.

#[local] Abbreviation after := (copiedAttrs toTerraform T service project props m).

Ltac apart k :=
  let H1 := fresh "HTk" in
  let H2 := fresh "HTk" in
  destruct (type_keys_apart T k HT ltac:(unfold copiedKeys, In; auto 20))
    as [H1 H2].

Lemma copiedAttrs_block : after !! T = Some (VList [VMap props]).
Proof. unfold copiedAttrs. apply lookup_insert_eq. Qed.


Lemma copiedAttrs_service_name : after !! "service_name" = Some (VStr (svc_Name service)).
Proof. apart "service_name". unfold copiedAttrs. through_writes. apply lookup_insert_eq. Qed.



Lemma copiedAttrs_service_type : after !! "service_type" = Some (VStr T).
Proof. apart "service_type". unfold copiedAttrs. through_writes. apply lookup_insert_eq. Qed.





Lemma copiedAttrs_project : after !! "project" = Some (VStr project).
Proof. apart "project". unfold copiedAttrs. through_writes. apply lookup_insert_eq. Qed.


Lemma copiedAttrs_vpc_nil :
  svc_ProjectVPCID service = None ->
  after !! "project_vpc_id" = m !! "project_vpc_id".
Proof.
  intros Hnil. apart "project_vpc_id". unfold copiedAttrs. rewrite Hnil. simpl.
  through_writes. reflexivity.
Qed.


Lemma copiedAttrs_other_block (Y : string) :
  In Y availableServiceTypes -> Y <> T -> after !! Y = m !! Y.
Proof.
  intros HY Hne.
  assert (HTY : T <> Y) by congruence.
  pose proof (block_not_user_config Y T HY HT) as Huc.
  pose proof (block_not_copied Y HY) as Hk.
  unfold copiedKeys, In in Hk.
  repeat match goal with
         | H : ~ (_ \/ _) |- _ => apply Decidable.not_or in H; destruct H as [? H]
         end.
  unfold copiedAttrs. through_writes. reflexivity.
Qed.

End CopiedAttrs.

(** ** Runs of the field copy *)

Section CopyRun.

Context {W : Type}.
Variable toTerraform : string -> string -> value -> value.

#[local] Abbreviation copy :=
  (copyServicePropertiesFromAPIResponseToTerraform (W:=W) toTerraform).

Lemma copyConnectionInfo_preserves_world t ci :
  preserves (W:=W) world (copyConnectionInfoFromAPIResponseToTerraform t ci).
Proof. unfold copyConnectionInfoFromAPIResponseToTerraform. preserves_tac. Qed.

Lemma copyConnectionInfo_preserves_calls t ci :
  preserves (W:=W) calls (copyConnectionInfoFromAPIResponseToTerraform t ci).
Proof. unfold copyConnectionInfoFromAPIResponseToTerraform. preserves_tac. Qed.

Lemma copy_preserves_world service project : preserves world (copy service project).
Proof.
  unfold copyServicePropertiesFromAPIResponseToTerraform.
  repeat first
    [ preserves_step
    | lazymatch goal with
      | |- preserves _ (copyConnectionInfoFromAPIResponseToTerraform _ _) =>
          apply copyConnectionInfo_preserves_world
      end ].
Qed.

Lemma copy_preserves_calls service project : preserves calls (copy service project).
Proof.
  unfold copyServicePropertiesFromAPIResponseToTerraform.
  repeat first
    [ preserves_step
    | lazymatch goal with
      | |- preserves _ (copyConnectionInfoFromAPIResponseToTerraform _ _) =>
          apply copyConnectionInfo_preserves_calls
      end ].
Qed.

(** A successful copy worked with a type of the enumeration, and its
    effect is the sequence of writes of [copiedAttrs]. *)
Lemma copy_wp_mk (service : Service) (project : string)
    (d : ResourceData) (a : gmap string value) (w : W) (c : list Call) :
  wp (copy service project)
     (fun _ st' =>
        In (resolvedType (withAttrs d a) service) availableServiceTypes
        /\ exists props,
             st' = mkSt d (copiedAttrs toTerraform
                             (resolvedType (withAttrs d a) service)
                             service project props a) w c)
     (mkSt d a w c).
Proof.
  unfold copyServicePropertiesFromAPIResponseToTerraform.
  apply wp_bind, wp_getData.
  change (data (mkSt d a w c)) with (withAttrs d a).
  change (if snd (GetOk (withAttrs d a) "service_type")
          then asString (Get (withAttrs d a) "service_type")
          else svc_Type service)
    with (resolvedType (withAttrs d a) service).
  generalize (resolvedType (withAttrs d a) service). intros T.
  cbv beta zeta. unfold copiedAttrs, insertOpt, buildResourceID. cbv zeta.
  destruct (svc_ProjectVPCID service) as [vpc|];
    destruct (svc_URIParams service !! "password") as [password|];
    destruct (svc_URIParams service !! "user") as [username|];
    cbn [fmap option_fmap option_map];
    repeat wp_step;
    (match goal with
     | |- wp (copyConnectionInfoFromAPIResponseToTerraform _ _) _ ?s =>
         set (stn := s)
     end;
     unfold wp;
     destruct (copyConnectionInfo_cases T (svc_ConnectionInfo service) stn)
       as [[HIn [props E]] | [_ E]]; rewrite E; [|exact I];
     destruct (dSet_cases T (VList [VMap props]) stn) as [[_ E'] | [_ E']];
     rewrite E'; [exact I|];
     split; [exact HIn|]; exists props;
     subst stn; reflexivity).
Qed.

Lemma copy_wp (service : Service) (project : string) (st : St W) :
  wp (copy service project)
     (fun _ st' =>
        In (resolvedType (data st) service) availableServiceTypes
        /\ exists props,
             st' = {| data := withAttrs (data st)
                                (copiedAttrs toTerraform
                                   (resolvedType (data st) service)
                                   service project props (rd_attrs (data st)));
                      world := world st; calls := calls st |})
     st.
Proof.
  destruct st as [[sch prior attrs id tc tu] w c].
  exact (copy_wp_mk service project
           {| rd_schema := sch; rd_prior := prior; rd_attrs := attrs; rd_id := id;
              rd_timeoutCreate := tc; rd_timeoutUpdate := tu |} attrs w c).
Qed.

Lemma copy_ok_inv (service : Service) (project : string) (st st' : St W) u :
  copy service project st = (Ok u, st') ->
  In (resolvedType (data st) service) availableServiceTypes
  /\ exists props,
       st' = {| data := withAttrs (data st)
                          (copiedAttrs toTerraform (resolvedType (data st) service)
                             service project props (rd_attrs (data st)));
                world := world st; calls := calls st |}.
Proof. intros H. exact (wp_elim _ _ _ _ _ (copy_wp service project st) H). Qed.

End CopyRun.

(** ** The calls a computation makes *)

Section Emits.

Context {W : Type}.

Lemma emits_of_preserves {A} phi (m : M W A) : preserves calls m -> emits phi m.
Proof.
  intros H st. exists []. rewrite H, app_nil_r. split; [reflexivity | constructor].
Qed.

Lemma emits_bind {A B} phi (m : M W A) (k : A -> M W B) :
  emits phi m -> (forall a, emits phi (k a)) -> emits phi (bind m k).
Proof.
  intros Hm Hk st. unfold bind. destruct (Hm st) as (n1 & E1 & F1).
  destruct (m st) as [[a | e | msg] st1]; simpl in *;
    try (exists n1; split; assumption).
  destruct (Hk a st1) as (n2 & E2 & F2).
  exists (n1 ++ n2). rewrite E2, E1, app_assoc. split; [reflexivity|].
  apply Forall_app. split; assumption.
Qed.

Lemma emits_remoteCall {A} (phi : Call -> Prop) c (op : W -> A * W) :
  phi c -> emits phi (remoteCall c op).
Proof.
  intros Hc st. exists [c]. unfold remoteCall. destruct (op (world st)).
  simpl. split; [reflexivity | repeat constructor; exact Hc].
Qed.

Lemma emits_mapErr {A} phi g (m : M W A) : emits phi m -> emits phi (mapErr g m).
Proof.
  intros Hm st. unfold mapErr. destruct (Hm st) as (n1 & E1 & F1).
  exists n1. destruct (m st) as [[a | e | msg] st1]; split; assumption.
Qed.

Lemma emits_weaken {A} (phi psi : Call -> Prop) (m : M W A) :
  (forall c, phi c -> psi c) -> emits phi m -> emits psi m.
Proof.
  intros Himp Hm st. destruct (Hm st) as (n1 & E1 & F1). exists n1.
  split; [exact E1|]. eapply Forall_impl; eassumption.
Qed.

Lemma emits_newCalls {A} phi (m : M W A) st :
  emits phi m -> Forall phi (newCalls st (snd (m st))).
Proof.
  intros Hm. destruct (Hm st) as (n1 & E1 & F1). unfold newCalls.
  rewrite E1, drop_app_length. exact F1.
Qed.

Lemma splitResourceID2_preserves {X} (f : St W -> X) id :
  preserves f (splitResourceID2 id).
Proof.
  unfold splitResourceID2. destruct (Identity.splitResourceID2 id); intros st; reflexivity.
Qed.

Lemma vpcIDPointerOf_preserves {X} (f : St W -> X) vpcID :
  preserves f (vpcIDPointerOf vpcID).
Proof.
  unfold vpcIDPointerOf. destruct (0 <? len vpcID).
  - apply preserves_bind; [apply splitResourceID2_preserves|].
    intros p. apply preserves_ret.
  - apply preserves_ret.
Qed.

Lemma splitResourceID2_build_run (project name : string) (st : St W) :
  splitResourceID2 (buildResourceID project name) st = (Ok (project, name), st).
Proof.
  unfold splitResourceID2, buildResourceID.
  rewrite splitResourceID2_build. reflexivity.
Qed.

End Emits.

Lemma Get_of_lookup (d : ResourceData) (k : string) (v : value) :
  rd_attrs d !! k = Some v -> Get d k = v.
Proof. intros H. unfold Get, readField. rewrite H. reflexivity. Qed.

Lemma available_nonempty (T : string) :
  In T availableServiceTypes -> String.eqb T EmptyString = false.
Proof.
  intros HT.
  assert (E : forallb (fun T => negb (String.eqb T EmptyString)) availableServiceTypes
              = true) by (vm_compute; reflexivity).
  rewrite forallb_forall in E. specialize (E T HT).
  apply negb_true_iff in E. exact E.
Qed.

Lemma resolvedType_recorded (d : ResourceData) (service : Service) (T : string) :
  In T availableServiceTypes ->
  rd_attrs d !! "service_type" = Some (VStr T) ->
  resolvedType d service = T.
Proof.
  intros HT Hl. unfold resolvedType, GetOk.
  rewrite (Get_of_lookup d "service_type" (VStr T) Hl). simpl.
  rewrite (available_nonempty T HT). reflexivity.
Qed.


(** ** The lifecycle operations *)

Section LifecycleFacts.

Context {W : Type}.
Variable client : Client W.
Variable toAPI : string -> string -> bool -> ResourceData -> value.
Variable toTerraform : string -> string -> value -> value.
Variable classify : string -> Service -> PollClass.
Variable pollInterval : Z.

#[local] Abbreviation copy :=
  (copyServicePropertiesFromAPIResponseToTerraform (W:=W) toTerraform).
#[local] Abbreviation Create :=
  (resourceServiceCreate client toAPI toTerraform classify pollInterval).
#[local] Abbreviation CreateWrapper :=
  (resourceServiceCreateWrapper client toAPI toTerraform classify pollInterval).
#[local] Abbreviation Read := (resourceServiceRead client toTerraform).
#[local] Abbreviation Update :=
  (resourceServiceUpdate client toAPI toTerraform classify pollInterval).
#[local] Abbreviation Delete := (resourceServiceDelete client).
#[local] Abbreviation Wait := (resourceServiceWait client classify pollInterval).

(** *** The waiter only reads *)

Lemma pollLoop_preserves_data w budget :
  preserves data (pollLoop client classify w budget).
Proof.
  induction budget as [|b IH]; simpl; [apply preserves_fail|].
  apply preserves_bind; [apply preserves_remoteCall_data|].
  intros [e | service]; [apply preserves_fail|].
  destruct (classify (w_Operation w) service);
    [exact IH | apply preserves_ret | apply preserves_fail].
Qed.

Lemma pollLoop_emits w budget :
  emits (fun c => isGet c = true) (pollLoop client classify w budget).
Proof.
  induction budget as [|b IH]; simpl.
  - apply emits_of_preserves, preserves_fail.
  - apply emits_bind; [apply emits_remoteCall; reflexivity|].
    intros [e | service]; [apply emits_of_preserves, preserves_fail|].
    destruct (classify (w_Operation w) service);
      [ exact IH
      | apply emits_of_preserves, preserves_ret
      | apply emits_of_preserves, preserves_fail ].
Qed.

Lemma Wait_preserves_data operation : preserves data (Wait operation).
Proof.
  unfold resourceServiceWait.
  apply preserves_bind; [apply preserves_getData|]. intros d.
  apply preserves_mapErr. unfold WaitForStateContext.
  apply pollLoop_preserves_data.
Qed.

Lemma Wait_emits operation : emits (fun c => isGet c = true) (Wait operation).
Proof.
  unfold resourceServiceWait.
  apply emits_bind; [apply emits_of_preserves, preserves_getData|]. intros d.
  apply emits_mapErr. unfold WaitForStateContext. apply pollLoop_emits.
Qed.

Lemma Wait_wraps (operation : string) (st : St W) :
  let d := data st in
  let timeout := if String.eqb operation "create"
                 then Timeout d TimeoutCreate else Timeout d TimeoutUpdate in
  let w := {| w_Operation := operation;
              w_Project := asString (Get d "project");
              w_ServiceName := asString (Get d "service_name") |} in
  Wait operation st
  = mapErr (Wrapped "error waiting for Aiven service to be RUNNING: ")
      (WaitForStateContext client classify pollInterval (Conf w timeout)) st.
Proof. reflexivity. Qed.

(** *** Delete *)

(** C4: whatever the identity, Delete issues one delete request; it
    succeeds when the remote accepts it and when the remote answers
    not-found, and returns any other error of the remote as it is. *)
Theorem delete_not_found_is_success
    (project name : string) (st : St W) (answer : option error) (w' : W) :
  Id (data st) = buildResourceID project name ->
  Services_Delete client project name (world st) = (answer, w') ->
  Delete st
  = (match answer with
     | None => Ok tt
     | Some e => if IsNotFound e then Ok tt else Err e
     end,
     {| data := data st; world := w';
        calls := calls st ++ [CallDelete project name] |}).
Proof.
  intros Hid Hdel. unfold resourceServiceDelete, bind, getData.
  rewrite Hid, splitResourceID2_build_run.
  unfold remoteCall. rewrite Hdel.
  destruct answer as [e|]; [|reflexivity].
  destruct (IsNotFound e); reflexivity.
Qed.

(** *** Read *)

Lemma Read_emits : emits (fun c => isGet c = true) Read.
Proof.
  unfold resourceServiceRead.
  apply emits_bind; [apply emits_of_preserves, preserves_getData|]. intros d.
  apply emits_bind; [apply emits_of_preserves, splitResourceID2_preserves|].
  intros [projectName serviceName].
  apply emits_bind; [apply emits_remoteCall; reflexivity|].
  intros [e | service].
  - apply emits_of_preserves. unfold resourceReadHandleNotFound.
    preserves_tac.
  - apply emits_of_preserves, copy_preserves_calls.
Qed.


(** *** Update *)

(** C3, as the code has it: when the list of service integrations has
    changed and the new list is not empty, Update fails with its
    validation error, calls nothing and leaves record and remote state as
    they were. *)
Theorem update_rejects_new_integrations (st : St W) :
  fst (GetChange (data st) "service_integrations")
  <> snd (GetChange (data st) "service_integrations") ->
  asList (Get (data st) "service_integrations") <> [] ->
  Update st = (Err integrationsError, st).
Proof.
  intros Hch Hne. apply HasChanges_true_iff in Hch.
  unfold resourceServiceUpdate, bind, getData. rewrite Hch.
  destruct (asList (Get (data st) "service_integrations")) as [|x xs];
    [congruence | reflexivity].
Qed.

End LifecycleFacts.

(** ** Requests and the maintenance window *)

Lemma getMaintenanceWindow_spec (d : ResourceData) :
  let dow := asString (Get d "maintenance_window_dow") in
  let t := asString (Get d "maintenance_window_time") in
  (dow <> EmptyString /\ t <> EmptyString
   -> getMaintenanceWindow d = Some {| DayOfWeek := dow; TimeOfDay := t |})
  /\ (dow = EmptyString \/ t = EmptyString -> getMaintenanceWindow d = None).
Proof.
  intros dow t. unfold getMaintenanceWindow. fold dow. fold t.
  assert (Hlen : forall s, (0 <? len s) = true <-> s <> EmptyString).
  { intros s. unfold len. rewrite Z.ltb_lt. destruct s; simpl; split; intros H;
      try lia; try congruence. }
  split.
  - intros [H1 H2]. apply Hlen in H1, H2. rewrite H1, H2. reflexivity.
  - intros [H | H]; rewrite H; simpl; [reflexivity|].
    destruct (0 <? len dow); reflexivity.
Qed.

Section RequestFacts.

Context {W : Type}.
Variable client : Client W.
Variable toAPI : string -> string -> bool -> ResourceData -> value.
Variable toTerraform : string -> string -> value -> value.
Variable classify : string -> Service -> PollClass.
Variable pollInterval : Z.

#[local] Abbreviation Create :=
  (resourceServiceCreate client toAPI toTerraform classify pollInterval).
#[local] Abbreviation Update :=
  (resourceServiceUpdate client toAPI toTerraform classify pollInterval).

Lemma isGet_createCallOf d c : isGet c = true -> createCallOf d c.
Proof. destruct c; simpl; intros H; try discriminate H; exact I. Qed.

Lemma isGet_updateCallOf d c : isGet c = true -> updateCallOf d c.
Proof. destruct c; simpl; intros H; try discriminate H; exact I. Qed.

Lemma Create_calls (st : St W) :
  Forall (createCallOf (data st)) (newCalls st (snd (Create st))).
Proof.
  unfold resourceServiceCreate.
  match goal with
  | |- context [bind getData ?k] =>
      change (bind getData k st) with (k (data st) st)
  end.
  cbv beta zeta.
  match goal with
  | |- context [bind (vpcIDPointerOf ?v) ?k] =>
      set (kont := k);
      pose proof (vpcIDPointerOf_preserves (W:=W) (fun s => s) v st) as Hsame;
      unfold bind at 1;
      destruct (vpcIDPointerOf v st) as [[ptr | e | msg] st1]
  end; cbn [snd] in Hsame; subst st1; cbn [fst snd];
    try (unfold newCalls; rewrite drop_all; constructor).
  subst kont. cbv beta.
  apply emits_newCalls.
  apply emits_bind; [apply emits_remoteCall; reflexivity|].
  intros [e | created]; [apply emits_of_preserves, preserves_fail|].
  apply emits_bind;
    [eapply emits_weaken; [apply isGet_createCallOf | apply Wait_emits]|].
  intros service. apply emits_of_preserves.
  repeat first
    [ preserves_step
    | lazymatch goal with
      | |- preserves _ (copyServicePropertiesFromAPIResponseToTerraform _ _ _) =>
          apply copy_preserves_calls
      end ].
Qed.

Lemma Update_calls (st : St W) :
  Forall (updateCallOf (data st)) (newCalls st (snd (Update st))).
Proof.
  unfold resourceServiceUpdate.
  match goal with
  | |- context [bind getData ?k] =>
      change (bind getData k st) with (k (data st) st)
  end.
  cbv beta zeta.
  destruct (HasChanges (data st) "service_integrations"
            && negb (Nat.eqb (length (asList (Get (data st) "service_integrations"))) 0)).
  { cbn [fst snd fail]. unfold newCalls. rewrite drop_all. constructor. }
  match goal with
  | |- context [bind (splitResourceID2 ?v) ?k] =>
      set (kont := k);
      pose proof (splitResourceID2_preserves (W:=W) (fun s => s) v st) as Hsame;
      unfold bind at 1;
      destruct (splitResourceID2 v st) as [[[projectName serviceName] | e | msg] st1]
  end; cbn [snd] in Hsame; subst st1; cbn [fst snd];
    try (unfold newCalls; rewrite drop_all; constructor).
  subst kont. cbv beta iota.
  match goal with
  | |- context [bind (vpcIDPointerOf ?v) ?k] =>
      set (kont := k);
      pose proof (vpcIDPointerOf_preserves (W:=W) (fun s => s) v st) as Hsame;
      unfold bind at 1;
      destruct (vpcIDPointerOf v st) as [[ptr | e | msg] st1]
  end; cbn [snd] in Hsame; subst st1; cbn [fst snd];
    try (unfold newCalls; rewrite drop_all; constructor).
  subst kont. cbv beta.
  apply emits_newCalls.
  apply emits_bind; [apply emits_remoteCall; reflexivity|].
  intros [e | updated]; [apply emits_of_preserves, preserves_fail|].
  apply emits_bind;
    [eapply emits_weaken; [apply isGet_updateCallOf | apply Wait_emits]|].
  intros service. apply emits_of_preserves, copy_preserves_calls.
Qed.

End RequestFacts.

(** ** The VPC reference *)

Lemma string_length_append (s t : string) :
  String.length (s +:+ t) = (String.length s + String.length t)%nat.
Proof.
  induction s as [|c r IH]; simpl; [reflexivity|]. rewrite IH. reflexivity.
Qed.

Section VpcFrame.

Context {W : Type}.
Variable toTerraform : string -> string -> value -> value.

#[local] Abbreviation copy :=
  (copyServicePropertiesFromAPIResponseToTerraform (W:=W) toTerraform).





End VpcFrame.

(** ** The change waiter on a scripted remote *)

Section WaiterFacts.

Variable classify : string -> Service -> PollClass.
Variable pollInterval : Z.
Variable script : nat -> error + Service.
Variable deleteAnswer : option error.
Variable w : ServiceChangeWaiter.

#[local] Abbreviation remote := (Fake.client script deleteAnswer).
#[local] Abbreviation get := (CallGet (w_Project w) (w_ServiceName w)).

#[local] Abbreviation polled := (Fake.polled (w_Project w) (w_ServiceName w)).

Lemma polled_S (k : nat) (st : St nat) :
  polled k (polled 1 st) = polled (S k) st.
Proof.
  unfold Fake.polled. cbn [data world calls]. f_equal; [lia|].
  rewrite <- app_assoc. reflexivity.
Qed.

Lemma polled_0 (st : St nat) : polled 0 st = st.
Proof.
  unfold Fake.polled. cbn [repeat Nat.add]. rewrite app_nil_r.
  destruct st; reflexivity.
Qed.

Lemma pollLoop_step (budget : nat) (st : St nat) :
  pollLoop remote classify w (S budget) st
  = match script (world st) with
    | inl err => (Err err, polled 1 st)
    | inr service =>
        match classify (w_Operation w) service with
        | Pending => pollLoop remote classify w budget (polled 1 st)
        | TerminalSuccess => (Ok service, polled 1 st)
        | TerminalFailure detail => (Err (OperationFailed detail), polled 1 st)
        end
    end.
Proof.
  cbn [pollLoop]. unfold bind, remoteCall. cbn [Services_Get Fake.client].
  change {| data := data st; world := S (world st); calls := calls st ++ [get] |}
    with (polled 1 st).
  destruct (script (world st)) as [err | service]; [reflexivity|].
  destruct (classify (w_Operation w) service); reflexivity.
Qed.

Lemma pollLoop_pending_forever (budget : nat) (st : St nat) :
  (forall n, exists s, script n = inr s /\ classify (w_Operation w) s = Pending) ->
  pollLoop remote classify w budget st = (Err OperationTimedOut, polled budget st).
Proof.
  intros Hp. revert st. induction budget as [|b IH]; intros st.
  - rewrite polled_0. reflexivity.
  - rewrite pollLoop_step. destruct (Hp (world st)) as (s & -> & ->).
    rewrite IH, polled_S. reflexivity.
Qed.

Lemma pollBudget_ge (k : nat) (timeout : Z) :
  0 < pollInterval -> Z.of_nat k * pollInterval <= timeout ->
  (k <= pollBudget pollInterval timeout)%nat.
Proof.
  intros Hi Hk. unfold pollBudget.
  assert (Z.of_nat k <= (timeout + pollInterval - 1) / pollInterval).
  { apply Z.div_le_lower_bound; [exact Hi | lia]. }
  lia.
Qed.

Lemma pollBudget_exact (k : nat) :
  0 < pollInterval -> pollBudget pollInterval (Z.of_nat k * pollInterval) = k.
Proof.
  intros Hi. unfold pollBudget.
  replace (Z.of_nat k * pollInterval + pollInterval - 1)
    with (Z.of_nat k * pollInterval + (pollInterval - 1)) by lia.
  rewrite Z.div_add_l by lia. rewrite Z.div_small by lia. lia.
Qed.

(** C8: on a remote that answers the successive polls by a script, with
    a positive poll interval:
    - pending, pending, then a terminal success, within a timeout of at
      least three intervals: the waiter returns the third representation
      after exactly three polls;
    - pending for ever, with a timeout of two intervals: the waiter fails
      with OperationTimedOut after two polls;
    - pending, then a terminal failure: the waiter fails with
      OperationFailed carrying the detail of the failure, after two
      polls. *)
Theorem waiter_terminal_classification (st : St nat) :
  0 < pollInterval ->
  let n0 := world st in
  let wait timeout :=
    WaitForStateContext remote classify pollInterval (Conf w timeout) st in
  (forall s1 s2 s3 timeout,
      script n0 = inr s1 -> script (1 + n0)%nat = inr s2 ->
      script (2 + n0)%nat = inr s3 ->
      classify (w_Operation w) s1 = Pending ->
      classify (w_Operation w) s2 = Pending ->
      classify (w_Operation w) s3 = TerminalSuccess ->
      3 * pollInterval <= timeout ->
      wait timeout = (Ok s3, polled 3 st))
  /\ ((forall n, exists s,
          script n = inr s /\ classify (w_Operation w) s = Pending) ->
      wait (2 * pollInterval) = (Err OperationTimedOut, polled 2 st))
  /\ (forall s1 s2 detail timeout,
        script n0 = inr s1 -> script (1 + n0)%nat = inr s2 ->
        classify (w_Operation w) s1 = Pending ->
        classify (w_Operation w) s2 = TerminalFailure detail ->
        2 * pollInterval <= timeout ->
        wait timeout = (Err (OperationFailed detail), polled 2 st)).
Proof.
  intros Hi n0 wait. subst wait. unfold WaitForStateContext, Conf.
  cbn [sc_waiter sc_Timeout]. split; [|split].
  - intros s1 s2 s3 timeout E1 E2 E3 C1 C2 C3 Ht.
    pose proof (pollBudget_ge 3 timeout Hi ltac:(lia)) as Hb.
    destruct (pollBudget pollInterval timeout) as [|[|[|b]]]; try lia.
    rewrite pollLoop_step. fold n0. rewrite E1, C1.
    rewrite pollLoop_step. cbn [Fake.polled world]. fold n0. rewrite E2, C2.
    rewrite pollLoop_step. cbn [Fake.polled world]. fold n0.
    change (1 + (1 + n0))%nat with (2 + n0)%nat. rewrite E3, C3.
    rewrite !polled_S. reflexivity.
  - intros Hp.
    change (2 * pollInterval) with (Z.of_nat 2 * pollInterval).
    rewrite (pollBudget_exact 2 Hi).
    apply pollLoop_pending_forever, Hp.
  - intros s1 s2 detail timeout E1 E2 C1 C2 Ht.
    pose proof (pollBudget_ge 2 timeout Hi ltac:(lia)) as Hb.
    destruct (pollBudget pollInterval timeout) as [|[|b]]; try lia.
    rewrite pollLoop_step. fold n0. rewrite E1, C1.
    rewrite pollLoop_step. cbn [Fake.polled world]. fold n0. rewrite E2, C2.
    rewrite !polled_S. reflexivity.
Qed.

End WaiterFacts.

(** ** Create and its pre-seeding *)

Lemma resolvedType_withId (d : ResourceData) (id : string) (service : Service) :
  resolvedType (withId d id) service = resolvedType d service.
Proof. unfold resolvedType, GetOk, Get. reflexivity. Qed.

Lemma resolvedType_data (d d' : ResourceData) (service : Service) :
  rd_schema d' = rd_schema d -> rd_attrs d' = rd_attrs d ->
  resolvedType d' service = resolvedType d service.
Proof. intros Hs Ha. unfold resolvedType, GetOk, Get. rewrite Hs, Ha. reflexivity. Qed.

Section CreateFacts.

Context {W : Type}.
Variable client : Client W.
Variable toAPI : string -> string -> bool -> ResourceData -> value.
Variable toTerraform : string -> string -> value -> value.
Variable classify : string -> Service -> PollClass.
Variable pollInterval : Z.

#[local] Abbreviation copy :=
  (copyServicePropertiesFromAPIResponseToTerraform (W:=W) toTerraform).
#[local] Abbreviation Create :=
  (resourceServiceCreate client toAPI toTerraform classify pollInterval).
#[local] Abbreviation CreateWrapper :=
  (resourceServiceCreateWrapper client toAPI toTerraform classify pollInterval).
#[local] Abbreviation Read := (resourceServiceRead client toTerraform).

#[local] Abbreviation copiedOver := (copiedOver toTerraform).

Lemma Create_wp (st : St W) :
  wp Create
     (fun _ st' => exists T, copiedOver (rd_attrs (data st)) T (data st'))
     st.
Proof.
  unfold resourceServiceCreate.
  apply wp_bind, wp_getData. cbv beta zeta.
  apply wp_bind, wp_of_preserves_data; [apply vpcIDPointerOf_preserves|].
  intros ptr st1 Hd1.
  apply wp_bind, wp_of_preserves_data; [apply preserves_remoteCall_data|].
  intros [e | created] st2 Hd2; [apply wp_fail|].
  apply wp_bind, wp_of_preserves_data; [apply Wait_preserves_data|].
  intros service st3 Hd3.
  apply wp_bind, wp_getData. apply wp_bind, wp_SetId.
  apply wp_bind, wp_getData.
  eapply wp_consequence; [apply copy_wp|].
  cbn [data world calls]. intros _ st' (HT & props & ->).
  rewrite resolvedType_withId in *.
  cbn [data withAttrs withId rd_attrs].
  rewrite Hd3, Hd2, Hd1 in *.
  eexists. split; [exact HT|]. do 3 eexists. reflexivity.
Qed.

Lemma Read_wp (st : St W) :
  wp Read
     (fun _ st' =>
        rd_attrs (data st') = rd_attrs (data st)
        \/ exists service,
             copiedOver (rd_attrs (data st)) (resolvedType (data st) service)
               (data st'))
     st.
Proof.
  unfold resourceServiceRead.
  apply wp_bind, wp_getData. cbv beta.
  apply wp_bind, wp_of_preserves_data; [apply splitResourceID2_preserves|].
  intros [projectName serviceName] st1 Hd1.
  apply wp_bind, wp_of_preserves_data; [apply preserves_remoteCall_data|].
  intros [e | service] st2 Hd2.
  - unfold resourceReadHandleNotFound.
    destruct (IsNotFound e).
    + apply wp_bind, wp_bind, wp_SetId. apply wp_ret, wp_ret.
      left. cbn [data withId rd_attrs]. rewrite Hd2, Hd1. reflexivity.
    + apply wp_bind, wp_ret. apply wp_fail.
  - eapply wp_consequence; [apply copy_wp|].
    intros _ st' (HT & props & ->).
    right. exists service. cbn [data withAttrs rd_attrs].
    rewrite Hd2, Hd1 in *.
    split; [exact HT|]. do 3 eexists. reflexivity.
Qed.

Lemma preseed_wp (st : St W) :
  wp (CreateWrapper "service")
     (fun _ st' =>
        exists T a0,
          copiedOver a0 T (data st')
          /\ forall Y, In Y preseededTypes -> a0 !! Y = Some emptyBlock)
     st.
Proof.
  unfold resourceServiceCreateWrapper.
  change (String.eqb "service" "service") with true. cbv iota.
  rewrite (St_eta st).
  do 12 (apply wp_bind, wp_dSet_mk; intros _).
  eapply wp_consequence; [apply Create_wp|].
  intros _ st' [T HT]. exists T. eexists. split; [exact HT|].
  cbn [data mkSt withAttrs rd_attrs].
  unfold preseededTypes, In. intros Y HY.
  unfold ServiceTypeCassandra, ServiceTypeElasticsearch, ServiceTypeGrafana,
    ServiceTypeInfluxDB, ServiceTypeKafka, ServiceTypeKafkaConnect,
    ServiceTypeKafkaMirrormaker, ServiceTypeMySQL, ServiceTypePG,
    ServiceTypeRedis, ServiceTypeOpensearch, ServiceTypeFlink in *.
  repeat match type of HY with
         | _ \/ _ => destruct HY as [HY | HY]
         end;
    try contradiction; subst Y; through_writes; apply lookup_insert_eq.
Qed.

(** C2, as the code has it: after a successful Create through the
    generic service resource, the record holds a service type [X] of the
    enumeration, the block of [X] holds one element, and the block of
    every other type among the twelve the wrapper clears is present and
    empty; a successful Read that follows leaves each of those blocks
    present and empty. *)
Theorem create_preseeds_cleared_blocks (st st1 : St W) :
  CreateWrapper "service" st = (Ok tt, st1) ->
  let X := asString (Get (data st1) "service_type") in
  In X availableServiceTypes
  /\ (exists props, rd_attrs (data st1) !! X = Some (VList [VMap props]))
  /\ (forall Y, In Y preseededTypes -> Y <> X ->
        rd_attrs (data st1) !! Y = Some emptyBlock)
  /\ (forall st2, Read st1 = (Ok tt, st2) ->
      forall Y, In Y preseededTypes -> Y <> X ->
        rd_attrs (data st2) !! Y = Some emptyBlock).
Proof.
  intros Hc.
  pose proof (wp_elim _ _ _ _ _ (preseed_wp st) Hc) as HQ. cbv beta in HQ.
  destruct HQ as (T & a0 & (HT & service & project & props & Ha) & Hseed).
  assert (Htype : rd_attrs (data st1) !! "service_type" = Some (VStr T)).
  { rewrite Ha. apply copiedAttrs_service_type, HT. }
  assert (HX : asString (Get (data st1) "service_type") = T).
  { rewrite (Get_of_lookup _ _ _ Htype). reflexivity. }
  assert (Hother : forall Y, In Y preseededTypes -> Y <> T ->
                             rd_attrs (data st1) !! Y = Some emptyBlock).
  { intros Y HY Hne. rewrite Ha.
    rewrite copiedAttrs_other_block;
      [apply Hseed, HY | exact HT | apply preseeded_available, HY | exact Hne]. }
  intros X. subst X. rewrite HX.
  split; [exact HT|]. split; [|split].
  - exists props. rewrite Ha. apply copiedAttrs_block.
  - exact Hother.
  - intros st2 Hr Y HY Hne.
    pose proof (wp_elim _ _ _ _ _ (Read_wp st1) Hr) as HR. cbv beta in HR.
    destruct HR as [Hsame | (service' & HT' & service2 & project2 & props2 & Ha2)].
    + rewrite Hsame. apply Hother; assumption.
    + rewrite (resolvedType_recorded _ _ T HT Htype) in *.
      rewrite Ha2. rewrite copiedAttrs_other_block;
        [apply Hother; assumption | exact HT
        | apply preseeded_available, HY | exact Hne].
Qed.

End CreateFacts.

(** ** The properties on the scripted remote *)

Lemma create_preseeds_cleared_blocks_witness :
  let r := resourceServiceCreateWrapper Fake.pgClient Fake.toAPI Fake.toTerraform
             Fake.classify 10 "service" Fake.pgPlanned in
  fst r = Ok tt /\ rd_attrs (data (snd r)) !! "kafka" = Some emptyBlock.
Proof.
  intros r. split; [vm_compute; reflexivity|].
  assert (H : resourceServiceCreateWrapper Fake.pgClient Fake.toAPI Fake.toTerraform
                Fake.classify 10 "service" Fake.pgPlanned = (Ok tt, snd r))
    by (vm_compute; reflexivity).
  destruct (create_preseeds_cleared_blocks _ _ _ _ _ _ _ H) as (_ & _ & Hother & _).
  apply Hother;
    [ unfold preseededTypes, In; auto 20
    | vm_compute; intros E; discriminate E ].
Defined.

(** C2 as stated fails on the code: after a successful Create of a pg
    service through the generic resource, the block of the supported type
    m3db is absent from the record. *)
Lemma create_preseeding_counterexample :
  let r := resourceServiceCreateWrapper Fake.pgClient Fake.toAPI Fake.toTerraform
             Fake.classify 10 "service" Fake.pgPlanned in
  fst r = Ok tt
  /\ ~ (forall Y, In Y availableServiceTypes ->
          Y <> asString (Get (data (snd r)) "service_type") ->
          rd_attrs (data (snd r)) !! Y = Some emptyBlock).
Proof.
  intros r. split; [vm_compute; reflexivity|].
  intros H. specialize (H "m3db").
  assert (E : rd_attrs (data (snd r)) !! "m3db" = None) by (vm_compute; reflexivity).
  rewrite E in H. discriminate H.
  - unfold availableServiceTypes, In. auto 20.
  - vm_compute. intros E'. discriminate E'.
Qed.

Lemma update_rejects_new_integrations_witness :
  resourceServiceUpdate Fake.pgClient Fake.toAPI Fake.toTerraform Fake.classify 10
    Fake.pgIntegrationAdded
  = (Err integrationsError, Fake.pgIntegrationAdded).
Proof.
  apply (update_rejects_new_integrations Fake.pgClient Fake.toAPI Fake.toTerraform
           Fake.classify 10 Fake.pgIntegrationAdded).
  - vm_compute. intros E. discriminate E.
  - vm_compute. intros E. discriminate E.
Defined.

(** C3 as stated fails on the code: an update that removes the only
    service integration changes the list, yet it is not rejected: the
    update request is sent and the update succeeds. *)
Lemma update_integrations_counterexample :
  let st := Fake.pgIntegrationRemoved in
  let r := resourceServiceUpdate Fake.pgClient Fake.toAPI Fake.toTerraform
             Fake.classify 10 st in
  fst (GetChange (data st) "service_integrations")
  <> snd (GetChange (data st) "service_integrations")
  /\ fst r = Ok tt
  /\ exists req rest, calls (snd r) = CallUpdate "prj" "db1" req :: rest.
Proof.
  intros st r. split; [|split].
  - vm_compute. intros E. discriminate E.
  - vm_compute. reflexivity.
  - vm_compute. do 2 eexists. reflexivity.
Qed.

Lemma delete_not_found_is_success_witness :
  resourceServiceDelete (Fake.client (Fake.provisioning "db1" "pg") (Some Fake.notFound))
    Fake.pgExisting
  = (Ok tt, {| data := data Fake.pgExisting; world := 0%nat;
               calls := [CallDelete "prj" "db1"] |}).
Proof.
  apply (delete_not_found_is_success
           (Fake.client (Fake.provisioning "db1" "pg") (Some Fake.notFound))
           "prj" "db1" Fake.pgExisting (Some Fake.notFound) 0%nat);
    reflexivity.
Defined.


Lemma waiter_terminal_classification_witness :
  0 < 10
  /\ WaitForStateContext Fake.pgClient Fake.classify 10
       (Conf (Fake.waiter "create") 1200) Fake.pgExisting
     = (Ok (Fake.service "db1" "pg" "RUNNING"),
        Fake.polled "prj" "db1" 3 Fake.pgExisting).
Proof.
  split; [lia|].
  destruct (waiter_terminal_classification Fake.classify 10
              (Fake.provisioning "db1" "pg") None (Fake.waiter "create")
              Fake.pgExisting ltac:(lia)) as (H & _ & _).
  eapply H; try reflexivity. lia.
Defined.


(** The waiter on a remote that stays pending, and on one that fails. *)
Example waiter_times_out :
  WaitForStateContext (Fake.client (fun _ => inr (Fake.service "db1" "pg" "REBUILDING")) None)
    Fake.classify 10 (Conf (Fake.waiter "update") 20) Fake.pgExisting
  = (Err OperationTimedOut, Fake.polled "prj" "db1" 2 Fake.pgExisting).
Proof. vm_compute. reflexivity. Qed.

Example waiter_reports_failure :
  WaitForStateContext
    (Fake.client (fun n => inr (Fake.service "db1" "pg"
                                  (if Nat.eqb n 0 then "REBUILDING" else "POWEROFF")))
       None)
    Fake.classify 10 (Conf (Fake.waiter "update") 1200) Fake.pgExisting
  = (Err (OperationFailed "POWEROFF"), Fake.polled "prj" "db1" 2 Fake.pgExisting).
Proof. vm_compute. reflexivity. Qed.

(** A delete that fails for another reason than not-found fails. *)
Example delete_propagates_other_errors :
  fst (resourceServiceDelete
         (Fake.client (Fake.provisioning "db1" "pg") (Some (APIError 403 "forbidden")))
         Fake.pgExisting)
  = Err (APIError 403 "forbidden").
Proof. vm_compute. reflexivity. Qed.

(** The generic resource cannot hold a service of type m3db: its schema
    declares no block for it, and the field copy fails on the first of
    them. *)
Example generic_resource_rejects_m3db :
  fst (resourceServiceCreateWrapper (Fake.client (Fake.provisioning "db1" "m3db") None)
         Fake.toAPI Fake.toTerraform Fake.classify 10 "service"
         (Fake.start (Fake.record aivenServiceSchema []
                        [ ("project", VStr "prj"); ("service_name", VStr "db1");
                          ("service_type", VStr "m3db") ] "")))
  = Err (Wrapped "cannot set `m3db_user_config` : " (InvalidAddress "m3db_user_config")).
Proof. vm_compute. reflexivity. Qed.

(** * Further properties of the source *)

(** ** The field copy, exactly *)

Lemma lastWrite_acc (k : string) (ws : list (string * value)) (acc : option value) :
  fold_left (fun acc kv => if String.eqb (fst kv) k then Some (snd kv) else acc) ws acc
  = match lastWrite k ws with
    | Some v => Some v
    | None => acc
    end.
Proof.
  unfold lastWrite. revert acc. induction ws as [|[k' v] ws IH]; intros acc.
  - reflexivity.
  - cbn [fold_left fst snd]. rewrite IH. rewrite (IH (if String.eqb k' k then _ else _)).
    destruct (fold_left _ ws None); [reflexivity|].
    destruct (String.eqb k' k); reflexivity.
Qed.

Lemma lookup_applyWrites (ws : list (string * value)) (m : gmap string value)
    (k : string) :
  applyWrites ws m !! k
  = match lastWrite k ws with
    | Some v => Some v
    | None => m !! k
    end.
Proof.
  revert m. induction ws as [|[k' v] ws IH]; intros m.
  - reflexivity.
  - unfold applyWrites. cbn [fold_left fst snd]. fold (applyWrites ws (<[k':=v]> m)).
    rewrite IH. unfold lastWrite at 2. cbn [fold_left fst snd].
    rewrite lastWrite_acc.
    destruct (lastWrite k ws); [reflexivity|].
    destruct (String.eqb k' k) eqn:E.
    + apply String.eqb_eq in E. subst k'. apply lookup_insert_eq.
    + apply String.eqb_neq in E. apply lookup_insert_ne, E.
Qed.

Lemma lastWrite_none (k : string) (ws : list (string * value)) :
  Forall (fun kv => fst kv <> k) ws -> lastWrite k ws = None.
Proof.
  intros Hall. unfold lastWrite.
  assert (G : forall acc : option value,
             fold_left (fun acc kv => if String.eqb (fst kv) k then Some (snd kv) else acc)
                       ws acc = acc).
  { induction Hall as [|kv l Hne _ IH]; intros acc; cbn [fold_left]; [reflexivity|].
    destruct (String.eqb_spec (fst kv) k) as [E | _]; [contradiction|].
    apply IH. }
  apply G.
Qed.

Lemma applyWrites_idempotent (ws : list (string * value)) (m : gmap string value) :
  applyWrites ws (applyWrites ws m) = applyWrites ws m.
Proof.
  apply map_eq. intros k. rewrite !lookup_applyWrites.
  destruct (lastWrite k ws); reflexivity.
Qed.

Lemma copiedAttrs_applyWrites toTerraform T service project props
    (m : gmap string value) :
  copiedAttrs toTerraform T service project props m
  = applyWrites (copyWrites toTerraform T service project props) m.
Proof.
  unfold copiedAttrs, copyWrites, insertOpt, optWrite. cbv zeta.
  destruct (svc_ProjectVPCID service);
    destruct (svc_URIParams service !! "password");
    destruct (svc_URIParams service !! "user"); reflexivity.
Qed.

Section CopyExact.

Context {W : Type}.
Variable toTerraform : string -> string -> value -> value.

#[local] Abbreviation copy :=
  (copyServicePropertiesFromAPIResponseToTerraform (W:=W) toTerraform).

Lemma copyConnectionInfo_eq (T : string) (ci : ConnectionInfo) (st : St W) :
  copyConnectionInfoFromAPIResponseToTerraform T ci st
  = match connectionProps T ci with
    | Some props => dSet T (VList [VMap props]) st
    | None => (Panic ("Unsupported service type " +:+ T), st)
    end.
Proof.
  unfold copyConnectionInfoFromAPIResponseToTerraform, connectionProps.
  repeat
    match goal with
    | |- context [if String.eqb T ?lit then _ else _] =>
        destruct (String.eqb T lit); [reflexivity|]
    end.
  reflexivity.
Qed.

Lemma connectionProps_enumeration (T : string) (ci : ConnectionInfo) :
  is_Some (connectionProps T ci) <-> In T availableServiceTypes.
Proof.
  unfold connectionProps.
  split.
  - intros Hs.
    repeat
      match type of Hs with
      | context [if String.eqb T ?lit then _ else _] =>
          let E := fresh "E" in
          destruct (String.eqb T lit) eqn:E;
          [ apply String.eqb_eq in E; subst T;
            unfold availableServiceTypes, In;
            repeat (first [left; reflexivity | right]) | ]
      end.
    destruct Hs as [? Hs]. discriminate Hs.
  - intros HIn. unfold availableServiceTypes, In in HIn.
    repeat match type of HIn with
           | _ \/ _ => destruct HIn as [HIn | HIn]
           end;
      try contradiction; subst T; eexists; reflexivity.
Qed.

Lemma returns_bind {A B} (m : M W A) (k : A -> M W B) st a st1 b st2 :
  returns m st a st1 -> returns (k a) st1 b st2 -> returns (bind m k) st b st2.
Proof. unfold returns, bind. intros -> H. exact H. Qed.

Lemma returns_getData (st : St W) : returns getData st (data st) st.
Proof. reflexivity. Qed.

Lemma returns_ret {A} (a : A) (st : St W) : returns (ret a) st a st.
Proof. reflexivity. Qed.

Lemma returns_mapErr {A} g (m : M W A) st a st' :
  returns m st a st' -> returns (mapErr g m) st a st'.
Proof. unfold returns, mapErr. intros ->. reflexivity. Qed.

Lemma returns_dSet_mk k v d a (w : W) c :
  is_Some (rd_schema d !! k) ->
  returns (dSet k v) (mkSt d a w c) tt (mkSt d (<[k := v]> a) w c).
Proof.
  intros Hk. unfold returns.
  destruct (dSet_cases k v (mkSt d a w c)) as [[Hn _] | [_ E]]; [|exact E].
  cbn [mkSt data withAttrs rd_schema] in Hn. rewrite Hn in Hk.
  destruct Hk as [? Hk]. discriminate Hk.
Qed.

(** A copy that returns has found every key it writes declared, worked
    with a type the switch knows, and made exactly its writes. *)
Lemma copy_wp_declared (service : Service) (project : string)
    (d : ResourceData) (a : gmap string value) (w : W) (c : list Call) :
  wp (copy service project)
     (fun _ st' =>
        exists props,
          connectionProps (resolvedType (withAttrs d a) service)
            (svc_ConnectionInfo service) = Some props
          /\ keysDeclared d
               (copyWrites toTerraform (resolvedType (withAttrs d a) service)
                  service project props)
          /\ st' = mkSt d (copiedAttrs toTerraform
                             (resolvedType (withAttrs d a) service)
                             service project props a) w c)
     (mkSt d a w c).
Proof.
  unfold copyServicePropertiesFromAPIResponseToTerraform.
  apply wp_bind, wp_getData.
  change (data (mkSt d a w c)) with (withAttrs d a).
  change (if snd (GetOk (withAttrs d a) "service_type")
          then asString (Get (withAttrs d a) "service_type")
          else svc_Type service)
    with (resolvedType (withAttrs d a) service).
  generalize (resolvedType (withAttrs d a) service). intros T.
  cbv beta zeta.
  unfold keysDeclared, copiedAttrs, copyWrites, insertOpt, optWrite, buildResourceID.
  cbv zeta.
  destruct (svc_ProjectVPCID service) as [vpc|];
    destruct (svc_URIParams service !! "password") as [password|];
    destruct (svc_URIParams service !! "user") as [username|];
    cbn [fmap option_fmap option_map app];
    repeat
      (cbv beta;
       lazymatch goal with
       | |- wp (bind _ _) _ _ => apply wp_bind
       | |- wp (dSet _ _) _ (mkSt _ _ _ _) => apply wp_dSet_mk; intros ?
       | |- wp (ret _) _ _ => apply wp_ret
       | |- wp (mapErr _ _) _ _ => apply wp_mapErr
       end);
    (match goal with
     | |- wp (copyConnectionInfoFromAPIResponseToTerraform _ _) _ ?s =>
         set (stn := s)
     end;
     unfold wp; rewrite copyConnectionInfo_eq;
     destruct (connectionProps T (svc_ConnectionInfo service)) as [props|];
     [|exact I];
     destruct (dSet_cases T (VList [VMap props]) stn) as [[_ E'] | [HT E']];
     rewrite E'; [exact I|];
     exists props; split; [reflexivity|]; split;
     [ subst stn; cbn [mkSt data withAttrs rd_schema] in HT;
       repeat (apply List.Forall_cons; [cbn [fst]; assumption|]);
       apply List.Forall_nil
     | subst stn; reflexivity ]).
Qed.

(** And the other way round: with every key declared and a type the switch
    knows, the copy returns, having made exactly its writes. *)
Lemma copy_returns (service : Service) (project : string)
    (d : ResourceData) (a : gmap string value) (w : W) (c : list Call) props :
  connectionProps (resolvedType (withAttrs d a) service)
    (svc_ConnectionInfo service) = Some props ->
  keysDeclared d
    (copyWrites toTerraform (resolvedType (withAttrs d a) service)
       service project props) ->
  returns (copy service project) (mkSt d a w c) tt
    (mkSt d (copiedAttrs toTerraform (resolvedType (withAttrs d a) service)
               service project props a) w c).
Proof.
  unfold copyServicePropertiesFromAPIResponseToTerraform.
  intros Hp Hk.
  eapply returns_bind; [apply returns_getData|].
  change (data (mkSt d a w c)) with (withAttrs d a).
  change (if snd (GetOk (withAttrs d a) "service_type")
          then asString (Get (withAttrs d a) "service_type")
          else svc_Type service)
    with (resolvedType (withAttrs d a) service).
  revert Hp Hk.
  generalize (resolvedType (withAttrs d a) service). intros T Hp Hk.
  cbv beta zeta.
  unfold keysDeclared, copiedAttrs, copyWrites, insertOpt, optWrite, buildResourceID
    in *.
  cbv zeta in *.
  destruct (svc_ProjectVPCID service) as [vpc|];
    destruct (svc_URIParams service !! "password") as [password|];
    destruct (svc_URIParams service !! "user") as [username|];
    cbn [fmap option_fmap option_map app] in *;
    repeat match goal with
           | H : Forall _ (_ :: _) |- _ =>
               apply List.Forall_cons_iff in H;
               let H1 := fresh "Hkey" in destruct H as [H1 H];
               cbn [fst] in H1
           end;
    repeat
      (cbv beta;
       lazymatch goal with
       | |- returns (bind (dSet _ _) _) _ _ _ =>
           eapply returns_bind; [apply returns_dSet_mk; assumption|]
       | |- returns (bind (mapErr _ (dSet _ _)) _) _ _ _ =>
           eapply returns_bind; [apply returns_mapErr, returns_dSet_mk; assumption|]
       | |- returns (bind (ret _) _) _ _ _ =>
           eapply returns_bind; [apply returns_ret|]
       end);
    cbv beta; unfold returns; rewrite copyConnectionInfo_eq, Hp;
    apply returns_dSet_mk; assumption.
Qed.

End CopyExact.

Lemma copyWrites_keys toTerraform T service project props :
  Forall (fun kv => In (fst kv) (copiedKeys ++ [T +:+ "_user_config"; T]))
         (copyWrites toTerraform T service project props).
Proof.
  unfold copyWrites, optWrite, copiedKeys. cbv zeta.
  destruct (svc_ProjectVPCID service);
    destruct (svc_URIParams service !! "password");
    destruct (svc_URIParams service !! "user");
    cbn [fmap option_fmap option_map app];
    repeat (apply List.Forall_cons;
            [cbn [fst In]; repeat (first [left; reflexivity | right])|]);
    apply List.Forall_nil.
Qed.

Lemma generic_schema_declares (T k : string) :
  In T preseededTypes ->
  In k (copiedKeys ++ [T +:+ "_user_config"; T]) ->
  is_Some (aivenServiceSchema !! k).
Proof.
  intros HT Hk.
  assert (E : forallb (fun T =>
                forallb (fun k => bool_decide (is_Some (aivenServiceSchema !! k)))
                        (copiedKeys ++ [T +:+ "_user_config"; T]))
              preseededTypes = true) by (vm_compute; reflexivity).
  rewrite forallb_forall in E. specialize (E T HT).
  rewrite forallb_forall in E. specialize (E k Hk).
  apply bool_decide_eq_true in E. exact E.
Qed.

Lemma user_config_not_type (T : string) : T +:+ "_user_config" <> T.
Proof.
  intros H. apply (f_equal String.length) in H.
  rewrite string_length_append in H. simpl in H. lia.
Qed.

Lemma copiedAttrs_user_config toTerraform T service project props
    (m : gmap string value) :
  In T availableServiceTypes ->
  copiedAttrs toTerraform T service project props m !! (T +:+ "_user_config")
  = Some (toTerraform "service" T (svc_UserConfig service)).
Proof.
  intros HT. rewrite copiedAttrs_applyWrites, lookup_applyWrites.
  assert (Hk : forall k, In k copiedKeys -> String.eqb k (T +:+ "_user_config") = false).
  { intros k Hk. apply String.eqb_neq. intros E.
    destruct (type_keys_apart T k HT Hk) as [_ H]. congruence. }
  assert (HTT : String.eqb T (T +:+ "_user_config") = false).
  { apply String.eqb_neq. intros E. symmetry in E. exact (user_config_not_type T E). }
  unfold lastWrite, copyWrites, optWrite. cbv zeta.
  destruct (svc_ProjectVPCID service);
    destruct (svc_URIParams service !! "password");
    destruct (svc_URIParams service !! "user");
    cbn [fmap option_fmap option_map app fold_left fst snd];
    rewrite ?String.eqb_refl, ?HTT;
    rewrite !Hk by (unfold copiedKeys, In; repeat (first [left; reflexivity | right]));
    reflexivity.
Qed.

Lemma copiedAttrs_credential toTerraform T service project props
    (m : gmap string value) (key field : string) :
  In T availableServiceTypes ->
  (key = "service_password" /\ field = "password")
  \/ (key = "service_username" /\ field = "user") ->
  copiedAttrs toTerraform T service project props m !! key
  = match svc_URIParams service !! field with
    | Some v => Some (VStr v)
    | None => m !! key
    end.
Proof.
  intros HT Hkey.
  assert (In key copiedKeys) as Hin
    by (destruct Hkey as [[-> _] | [-> _]]; unfold copiedKeys, In; auto 20).
  destruct (type_keys_apart T key HT Hin) as [H1 H2].
  unfold copiedAttrs. cbv zeta.
  destruct Hkey as [[-> ->] | [-> ->]].
  - destruct (svc_URIParams service !! "password") as [pw|];
      cbn [fmap option_fmap option_map insertOpt].
    + through_writes. apply lookup_insert_eq.
    + through_writes. reflexivity.
  - destruct (svc_URIParams service !! "user") as [us|];
      cbn [fmap option_fmap option_map insertOpt].
    + through_writes. apply lookup_insert_eq.
    + through_writes. reflexivity.
Qed.

Lemma copiedAttrs_host_port toTerraform T service project props
    (m : gmap string value) :
  In T availableServiceTypes ->
  copiedAttrs toTerraform T service project props m !! "service_host"
  = Some (VStr (default EmptyString (svc_URIParams service !! "host")))
  /\ copiedAttrs toTerraform T service project props m !! "service_port"
     = Some (VInt (fst (Strconv.ParseInt32
                          (default EmptyString (svc_URIParams service !! "port"))))).
Proof.
  intros HT.
  destruct (type_keys_apart T "service_host" HT
              ltac:(unfold copiedKeys, In; auto 20)) as [H1 H2].
  destruct (type_keys_apart T "service_port" HT
              ltac:(unfold copiedKeys, In; auto 20)) as [H3 H4].
  unfold copiedAttrs. cbv zeta.
  split; through_writes; apply lookup_insert_eq.
Qed.

(** ** [strconv.ParseInt] stays within 32 bits *)

Lemma digitVal_range (c : ascii) (d : Z) :
  Strconv.digitVal c = Some d -> 0 <= d <= 9.
Proof.
  unfold Strconv.digitVal.
  destruct ((48 <=? Z.of_N (N_of_ascii c)) && (Z.of_N (N_of_ascii c) <=? 57)) eqn:E;
    [|discriminate].
  apply andb_true_iff in E. destruct E as [E1 E2].
  apply Z.leb_le in E1, E2. intros H. injection H as <-. lia.
Qed.

Lemma parseUintLoop_range (s : string) (n : Z) :
  0 <= n <= Strconv.maxUint32 ->
  0 <= fst (Strconv.parseUintLoop s n) <= Strconv.maxUint32.
Proof.
  revert n. induction s as [|c r IH]; intros n Hn; cbn [Strconv.parseUintLoop].
  - exact Hn.
  - destruct (Strconv.digitVal c) as [d|] eqn:Ed.
    + apply digitVal_range in Ed. cbv zeta.
      destruct (Strconv.maxUint32 <? 10 * n + d) eqn:E.
      * cbn [fst]. unfold Strconv.maxUint32. lia.
      * apply Z.ltb_ge in E. apply IH. lia.
    + cbn [fst]. unfold Strconv.maxUint32. lia.
Qed.

Lemma ParseUint32_range (s : string) :
  0 <= fst (Strconv.ParseUint32 s) <= Strconv.maxUint32.
Proof.
  destruct s as [|c r].
  - cbn [Strconv.ParseUint32 fst]. unfold Strconv.maxUint32. lia.
  - apply parseUintLoop_range. unfold Strconv.maxUint32. lia.
Qed.

Lemma checkRange_bounds (neg : bool) (r : Z * option Strconv.NumError) :
  0 <= fst r ->
  - 2 ^ 31 <= fst (Strconv.checkRange neg r) <= 2 ^ 31 - 1.
Proof.
  destruct r as [un [[|]|]]; cbn [fst]; intros Hun; unfold Strconv.checkRange;
    try (cbn [fst]; lia); cbv zeta;
    destruct neg; cbn [negb andb];
    repeat match goal with
           | |- context [?a <=? ?b] => destruct (Z.leb_spec a b)
           | |- context [?a <? ?b] => destruct (Z.ltb_spec a b)
           end; cbn [fst]; lia.
Qed.

Lemma ParseInt32_cases (s : string) :
  s = EmptyString
  \/ exists (neg : bool) (body : string),
       Strconv.ParseInt32 s = Strconv.checkRange neg (Strconv.ParseUint32 body).
Proof.
  destruct s as [|c r]; [left; reflexivity|right].
  destruct c as [[] [] [] [] [] [] [] []];
    match goal with
    | |- context [Strconv.ParseInt32 (String ?c r)] =>
        first [ exists false, (String c r); reflexivity
              | exists false, r; reflexivity
              | exists true, r; reflexivity ]
    end.
Qed.

Lemma ParseInt32_bounds (s : string) :
  - 2 ^ 31 <= fst (Strconv.ParseInt32 s) <= 2 ^ 31 - 1.
Proof.
  destruct (ParseInt32_cases s) as [-> | (neg & body & ->)].
  - cbn [Strconv.ParseInt32 fst]. lia.
  - apply checkRange_bounds, ParseUint32_range.
Qed.

Section CopyTheorems.

Context {W : Type}.
Variable toTerraform : string -> string -> value -> value.

#[local] Abbreviation copy :=
  (copyServicePropertiesFromAPIResponseToTerraform (W:=W) toTerraform).

(** X1: what a successful field copy needed and what it left alone: when
    the field copy returns without error, the service type it worked with
    has a case in the projection switch, the schema of the record declares
    every key the copy writes for that type and that remote
    representation, every key the copy does not write holds what it held,
    and schema, prior state and identity of the record, remote state and
    call log are as before. *)
Theorem copy_success_requires (service : Service) (project : string) (st st' : St W) :
  copy service project st = (Ok tt, st') ->
  let T := resolvedType (data st) service in
  In T availableServiceTypes
  /\ (exists props,
        connectionProps T (svc_ConnectionInfo service) = Some props
        /\ keysDeclared (data st) (copyWrites toTerraform T service project props))
  /\ (forall k, ~ In k (copiedKeys ++ [T +:+ "_user_config"; T]) ->
                rd_attrs (data st') !! k = rd_attrs (data st) !! k)
  /\ rd_schema (data st') = rd_schema (data st)
  /\ rd_prior (data st') = rd_prior (data st)
  /\ Id (data st') = Id (data st)
  /\ world st' = world st
  /\ calls st' = calls st.
Proof.
  destruct st as [[sch prior attrs id tc tu] w c].
  set (d := {| rd_schema := sch; rd_prior := prior; rd_attrs := attrs; rd_id := id;
               rd_timeoutCreate := tc; rd_timeoutUpdate := tu |}).
  cbv zeta. cbn [data world calls].
  change {| data := d; world := w; calls := c |} with (mkSt d attrs w c).
  change (resolvedType d service) with (resolvedType (withAttrs d attrs) service).
  intros H.
  pose proof (wp_elim _ _ _ _ _ (copy_wp_declared toTerraform service project
                                   d attrs w c) H) as (props & Hp & Hk & ->).
  set (T := resolvedType (withAttrs d attrs) service) in *.
  split.
  { apply (connectionProps_enumeration T (svc_ConnectionInfo service)). eauto. }
  split; [exists props; split; [exact Hp | exact Hk]|].
  split; [|repeat split].
  intros k Hnot. cbn [mkSt data withAttrs rd_attrs].
  rewrite copiedAttrs_applyWrites, lookup_applyWrites.
  rewrite (lastWrite_none k (copyWrites toTerraform T service project props));
    [reflexivity|].
  eapply Forall_impl; [apply copyWrites_keys|].
  intros kv Hin E. cbv beta in Hin. apply Hnot. rewrite <- E. exact Hin.
Qed.

(** Run again on the record a successful copy left, whatever the remote
    state and the call log have become, the copy of the same representation
    succeeds and changes nothing. *)
Lemma copy_again (service : Service) (project : string) (st st1 : St W) :
  copy service project st = (Ok tt, st1) ->
  forall (w : W) (c : list Call),
    copy service project {| data := data st1; world := w; calls := c |}
    = (Ok tt, {| data := data st1; world := w; calls := c |}).
Proof.
  destruct st as [[sch prior attrs id tc tu] w0 c0].
  set (d := {| rd_schema := sch; rd_prior := prior; rd_attrs := attrs; rd_id := id;
               rd_timeoutCreate := tc; rd_timeoutUpdate := tu |}).
  change {| data := d; world := w0; calls := c0 |} with (mkSt d attrs w0 c0).
  intros H w c.
  pose proof (wp_elim _ _ _ _ _ (copy_wp_declared toTerraform service project
                                   d attrs w0 c0) H) as (props & Hp & Hk & ->).
  set (T := resolvedType (withAttrs d attrs) service) in *.
  assert (HT : In T availableServiceTypes).
  { apply (connectionProps_enumeration T (svc_ConnectionInfo service)). eauto. }
  set (a1 := copiedAttrs toTerraform T service project props attrs).
  change {| data := data (mkSt d a1 w0 c0); world := w; calls := c |}
    with (mkSt d a1 w c).
  assert (HT1 : resolvedType (withAttrs d a1) service = T).
  { apply resolvedType_recorded; [exact HT|].
    cbn [withAttrs rd_attrs]. apply copiedAttrs_service_type, HT. }
  pose proof (copy_returns toTerraform service project d a1 w c props) as H2.
  rewrite HT1 in H2. specialize (H2 Hp Hk). unfold returns in H2.
  rewrite H2. f_equal. f_equal.
  unfold a1. rewrite !copiedAttrs_applyWrites. apply applyWrites_idempotent.
Qed.

(** X2: the field copy is idempotent: run again on the record a successful
    copy of the same remote representation left, it succeeds and changes
    nothing. *)
Theorem copy_idempotent (service : Service) (project : string) (st st1 : St W) :
  copy service project st = (Ok tt, st1) ->
  copy service project st1 = (Ok tt, st1).
Proof.
  intros H. pose proof (copy_again service project st st1 H (world st1) (calls st1)) as E.
  destruct st1 as [d1 w1 c1]. exact E.
Qed.

(** X3: the service type of the record decides: the copy works with the
    type the record holds when that is non-empty and with the type the
    remote reports otherwise; after a successful copy that type is a type
    of the enumeration, the record holds it as its service type, and the
    block of that type holds exactly one element. *)
Theorem copy_records_type (service : Service) (project : string) (st st' : St W) :
  copy service project st = (Ok tt, st') ->
  let T := resolvedType (data st) service in
  (forall s, Get (data st) "service_type" = VStr s ->
             T = if String.eqb s EmptyString then svc_Type service else s)
  /\ In T availableServiceTypes
  /\ Get (data st') "service_type" = VStr T
  /\ exists element, Get (data st') T = VList [element].
Proof.
  intros H. cbv zeta. split.
  { intros s Hs. unfold resolvedType, GetOk. cbn [snd]. rewrite Hs.
    cbn [isZero asString]. destruct (String.eqb s EmptyString); reflexivity. }
  destruct st as [[sch prior attrs id tc tu] w c].
  set (d := {| rd_schema := sch; rd_prior := prior; rd_attrs := attrs; rd_id := id;
               rd_timeoutCreate := tc; rd_timeoutUpdate := tu |}) in *.
  change {| data := d; world := w; calls := c |} with (mkSt d attrs w c) in *.
  pose proof (wp_elim _ _ _ _ _ (copy_wp_declared toTerraform service project
                                   d attrs w c) H) as (props & Hp & Hk & ->).
  change (data (mkSt d attrs w c)) with (withAttrs d attrs).
  set (T := resolvedType (withAttrs d attrs) service) in *.
  assert (HT : In T availableServiceTypes).
  { apply (connectionProps_enumeration T (svc_ConnectionInfo service)). eauto. }
  split; [exact HT|].
  split; [apply Get_of_lookup; cbn [mkSt data withAttrs rd_attrs];
          apply copiedAttrs_service_type, HT|].
  exists (VMap props).
  apply Get_of_lookup. cbn [mkSt data withAttrs rd_attrs]. apply copiedAttrs_block.
Qed.

(** X4: password and user name are copied when the remote's URI
    parameters hold them and left as stored when they do not; host and port
    are always written: the host is empty when the parameters have none,
    the port is a 32-bit integer, 0 when the parameters have none. *)
Theorem copy_uri_params (service : Service) (project : string) (st st' : St W) :
  copy service project st = (Ok tt, st') ->
  let params := svc_URIParams service in
  rd_attrs (data st') !! "service_password"
  = match params !! "password" with
    | Some v => Some (VStr v)
    | None => rd_attrs (data st) !! "service_password"
    end
  /\ rd_attrs (data st') !! "service_username"
     = match params !! "user" with
       | Some v => Some (VStr v)
       | None => rd_attrs (data st) !! "service_username"
       end
  /\ Get (data st') "service_host" = VStr (default EmptyString (params !! "host"))
  /\ exists port,
       Get (data st') "service_port" = VInt port
       /\ - 2 ^ 31 <= port <= 2 ^ 31 - 1
       /\ (params !! "port" = None -> port = 0).
Proof.
  intros H params. apply copy_ok_inv in H. destruct H as (HT & props & ->).
  cbn [data withAttrs rd_attrs].
  split; [apply copiedAttrs_credential; [exact HT | left; split; reflexivity]|].
  split; [apply copiedAttrs_credential; [exact HT | right; split; reflexivity]|].
  destruct (copiedAttrs_host_port toTerraform
              (resolvedType (data st) service) service project props
              (rd_attrs (data st)) HT) as [Hh Hp].
  split; [apply Get_of_lookup; exact Hh|].
  eexists. split; [apply Get_of_lookup; exact Hp|].
  split; [apply ParseInt32_bounds|].
  intros Hnone. fold params. rewrite Hnone. reflexivity.
Qed.

(** X5: on a record of the generic service resource, for each of the
    twelve types whose blocks its schema declares, the field copy always
    succeeds; for m3db and m3aggregator, which the validation of the
    resource accepts too, it always fails on the user configuration, whose
    key the schema does not declare. *)
Theorem generic_schema_copy (service : Service) (project : string) (st : St W) :
  rd_schema (data st) = aivenServiceSchema ->
  let T := resolvedType (data st) service in
  (In T preseededTypes -> fst (copy service project st) = Ok tt)
  /\ (T = ServiceTypeM3 \/ T = ServiceTypeM3Aggregator ->
      fst (copy service project st)
      = Err (Wrapped ("cannot set `" +:+ T +:+ "_user_config` : ")
               (InvalidAddress (T +:+ "_user_config")))).
Proof.
  intros Hs T. split.
  - intros HT.
    destruct (proj2 (connectionProps_enumeration T (svc_ConnectionInfo service))
                (preseeded_available T HT)) as [props Hp].
    assert (Hk : keysDeclared (data st)
                   (copyWrites toTerraform T service project props)).
    { unfold keysDeclared. rewrite Hs.
      eapply Forall_impl; [apply copyWrites_keys|].
      intros kv Hkv. cbv beta in Hkv. eapply generic_schema_declares; eassumption. }
    assert (E : copy service project st
                = (Ok tt, {| data := withAttrs (data st)
                                       (applyWrites
                                          (copyWrites toTerraform T service project props)
                                          (rd_attrs (data st)));
                             world := world st; calls := calls st |})).
    { destruct st as [[sch prior attrs id tc tu] w c].
      rewrite <- copiedAttrs_applyWrites.
      exact (copy_returns toTerraform service project _ attrs w c props Hp Hk). }
    rewrite E. reflexivity.
  - intros HT.
    destruct st as [[sch prior attrs id tc tu] w c].
    cbn [data rd_schema] in Hs. subst sch.
    set (d := {| rd_schema := aivenServiceSchema; rd_prior := prior;
                 rd_attrs := attrs; rd_id := id;
                 rd_timeoutCreate := tc; rd_timeoutUpdate := tu |}) in *.
    change {| data := d; world := w; calls := c |} with (mkSt d attrs w c) in *.
    unfold copyServicePropertiesFromAPIResponseToTerraform.
    unfold bind at 1. cbn [getData].
    change (data (mkSt d attrs w c)) with (withAttrs d attrs).
    change (if snd (GetOk (withAttrs d attrs) "service_type")
            then asString (Get (withAttrs d attrs) "service_type")
            else svc_Type service)
      with (resolvedType (withAttrs d attrs) service).
    change (resolvedType (withAttrs d attrs) service) with T.
    clearbody T. cbv beta zeta.
    assert (Hdecl : forall k, In k copiedKeys -> is_Some (rd_schema d !! k)).
    { intros k Hk. apply (generic_schema_declares "pg" k).
      - unfold preseededTypes, In. auto 20.
      - apply in_or_app. left. exact Hk. }
    assert (Hstep : forall A k v (f : unit -> M W A) a,
               In k copiedKeys ->
               bind (dSet k v) f (mkSt d a w c) = f tt (mkSt d (<[k := v]> a) w c)).
    { intros A k v f a Hk. unfold bind.
      rewrite (returns_dSet_mk k v d a w c (Hdecl k Hk)). reflexivity. }
    assert (Hmiss : forall a,
               dSet (T +:+ "_user_config")
                 (toTerraform "service" T (svc_UserConfig service)) (mkSt d a w c)
               = (Err (InvalidAddress (T +:+ "_user_config")), mkSt d a w c)).
    { intros a.
      destruct (dSet_cases (T +:+ "_user_config")
                  (toTerraform "service" T (svc_UserConfig service))
                  (mkSt d a w c)) as [[_ E] | [Hk _]]; [exact E|].
      cbn [mkSt data withAttrs rd_schema d] in Hk.
      destruct HT as [-> | ->]; vm_compute in Hk;
        destruct Hk as [? Hk]; discriminate Hk. }
    do 10 (rewrite Hstep
             by (unfold copiedKeys, In; repeat (first [left; reflexivity | right]))).
    destruct (svc_ProjectVPCID service) as [vpc|].
    + rewrite Hstep
        by (unfold copiedKeys, In; repeat (first [left; reflexivity | right])).
      unfold bind at 1, mapErr. rewrite Hmiss. reflexivity.
    + unfold bind at 1. cbn [ret].
      unfold bind at 1, mapErr. rewrite Hmiss. reflexivity.
Qed.

End CopyTheorems.

(** ** The operations, call by call *)

Lemma newCalls_app {W : Type} (st st' : St W) (cs : list Call) :
  calls st' = calls st ++ cs -> newCalls st st' = cs.
Proof. intros E. unfold newCalls. rewrite E. apply drop_app_length. Qed.

Lemma vpcRef_build (project vpc : string) :
  vpcRef (Identity.buildResourceID [project; vpc]) = Some (Some vpc).
Proof.
  unfold vpcRef. rewrite splitResourceID2_build.
  assert (H : (0 <? len (Identity.buildResourceID [project; vpc])) = true).
  { apply Z.ltb_lt. unfold len, Identity.buildResourceID. cbn [map Strings.Join].
    rewrite string_length_append. cbn [String.length]. lia. }
  rewrite H. reflexivity.
Qed.

Section Traces.

Context {W : Type}.
Variable client : Client W.
Variable toAPI : string -> string -> bool -> ResourceData -> value.
Variable toTerraform : string -> string -> value -> value.
Variable classify : string -> Service -> PollClass.
Variable pollInterval : Z.

#[local] Abbreviation copy :=
  (copyServicePropertiesFromAPIResponseToTerraform (W:=W) toTerraform).
#[local] Abbreviation Create :=
  (resourceServiceCreate client toAPI toTerraform classify pollInterval).
#[local] Abbreviation CreateWrapper :=
  (resourceServiceCreateWrapper client toAPI toTerraform classify pollInterval).
#[local] Abbreviation Read := (resourceServiceRead client toTerraform).
#[local] Abbreviation Update :=
  (resourceServiceUpdate client toAPI toTerraform classify pollInterval).
#[local] Abbreviation Import := (resourceServiceState client toTerraform).
#[local] Abbreviation Wait := (resourceServiceWait client classify pollInterval).

Lemma vpcIDPointerOf_run (vpcID : string) (st : St W) :
  vpcIDPointerOf vpcID st
  = match vpcRef vpcID with
    | Some ptr => (Ok ptr, st)
    | None => (Panic "MalformedIdentity", st)
    end.
Proof.
  unfold vpcIDPointerOf, vpcRef. destruct (0 <? len vpcID); [|reflexivity].
  unfold bind, splitResourceID2.
  destruct (Identity.splitResourceID2 vpcID) as [[a b]|]; reflexivity.
Qed.

Lemma bind_calls_tail {A B} (m : M W A) (k : A -> M W B) (st : St W) :
  (forall a, preserves calls (k a)) ->
  calls (snd (bind m k st)) = calls (snd (m st)).
Proof.
  intros Hk. unfold bind. destruct (m st) as [[a | e | msg] st1];
    [apply Hk | reflexivity | reflexivity].
Qed.

Lemma pollLoop_trace (w : ServiceChangeWaiter) (budget : nat) (st : St W) :
  exists k,
    calls (snd (pollLoop client classify w budget st))
    = calls st ++ repeat (CallGet (w_Project w) (w_ServiceName w)) k.
Proof.
  revert st. induction budget as [|b IH]; intros st.
  - exists 0%nat. cbn [pollLoop fail snd repeat]. rewrite app_nil_r. reflexivity.
  - cbn [pollLoop]. unfold bind, remoteCall.
    destruct (Services_Get client (w_Project w) (w_ServiceName w) (world st))
      as [[e | service] w1].
    + exists 1%nat. reflexivity.
    + destruct (classify (w_Operation w) service).
      * match goal with
        | |- context [pollLoop client classify w b ?s] =>
            destruct (IH s) as [k Hk]; exists (S k); rewrite Hk
        end.
        cbn [calls repeat]. rewrite <- app_assoc. reflexivity.
      * exists 1%nat. reflexivity.
      * exists 1%nat. reflexivity.
Qed.

Lemma Wait_trace (operation : string) (st : St W) :
  exists k,
    calls (snd (Wait operation st))
    = calls st ++ repeat (CallGet (asString (Get (data st) "project"))
                                  (asString (Get (data st) "service_name"))) k.
Proof.
  unfold resourceServiceWait, bind, getData, mapErr. cbv beta zeta.
  unfold WaitForStateContext, Conf. cbn [sc_waiter sc_Timeout].
  match goal with
  | |- context [pollLoop client classify ?w ?b st] =>
      destruct (pollLoop_trace w b st) as [k Hk]; exists k;
      cbn [w_Project w_ServiceName] in Hk; rewrite <- Hk;
      destruct (pollLoop client classify w b st) as [[a | e | msg] st1]
  end; reflexivity.
Qed.

(** X6: waiting for a service never writes to the record, and the only
    calls it makes are reads of the service the record names by its
    project and service name. *)
Theorem wait_only_reads (operation : string) (st : St W) :
  data (snd (Wait operation st)) = data st
  /\ exists k,
       newCalls st (snd (Wait operation st))
       = repeat (CallGet (asString (Get (data st) "project"))
                         (asString (Get (data st) "service_name"))) k.
Proof.
  split; [apply Wait_preserves_data|].
  destruct (Wait_trace operation st) as [k Hk]. exists k.
  apply newCalls_app, Hk.
Qed.



Lemma create_tail_preserves_calls (service : Service) :
  preserves (W:=W) calls
    (d1 <- getData ;;
     SetId (buildResourceID (asString (Get d1 "project")) (svc_Name service)) ;;
     d2 <- getData ;;
     copy service (asString (Get d2 "project"))).
Proof.
  repeat first
    [ preserves_step
    | lazymatch goal with
      | |- preserves _ (copyServicePropertiesFromAPIResponseToTerraform _ _ _) =>
          apply copy_preserves_calls
      end ].
Qed.

Lemma Create_sends (st : St W) (ptr : option string) :
  vpcRef (asString (Get (data st) "project_vpc_id")) = Some ptr ->
  exists req k,
    newCalls st (snd (Create st))
    = CallCreate (asString (Get (data st) "project")) req
        :: repeat (CallGet (asString (Get (data st) "project"))
                           (asString (Get (data st) "service_name"))) k
    /\ cr_ServiceName req = asString (Get (data st) "service_name")
    /\ cr_ServiceType req = asString (Get (data st) "service_type")
    /\ cr_ProjectVPCID req = ptr
    /\ cr_MaintenanceWindow req = getMaintenanceWindow (data st).
Proof.
  intros Ev. unfold resourceServiceCreate.
  match goal with
  | |- context [bind getData ?k] =>
      change (bind getData k st) with (k (data st) st)
  end.
  cbv beta zeta.
  match goal with
  | |- context [bind (vpcIDPointerOf ?v) ?k] =>
      set (kont := k); unfold bind at 1; rewrite (vpcIDPointerOf_run v st), Ev
  end.
  subst kont. cbv beta.
  match goal with
  | |- context [remoteCall (CallCreate ?p ?r) ?op] =>
      exists r; set (req := r); set (c := CallCreate p req)
  end.
  unfold bind at 1, remoteCall.
  destruct (Services_Create client (asString (Get (data st) "project")) req (world st))
    as [[e | created] w1].
  - exists 0%nat. cbn [snd fail repeat].
    split; [apply newCalls_app; reflexivity|].
    repeat split; reflexivity.
  - cbv beta iota.
    match goal with
    | |- context [bind (Wait "create") ?k ?s] =>
        pose proof (bind_calls_tail (Wait "create") k s
                      (fun service => create_tail_preserves_calls service)) as Ht;
        destruct (Wait_trace "create" s) as [n Hn]
    end.
    rewrite Hn in Ht. cbn [data calls] in Ht. exists n.
    split; [apply newCalls_app; rewrite Ht, <- app_assoc; reflexivity|].
    repeat split; reflexivity.
Qed.


(** X7: a Create whose stored VPC reference is empty or decodes sends one
    create request, first, for the project of the record, naming the
    service and the type of the record and carrying that VPC reference
    (none for the empty string), and after it makes only reads of that
    service of that project: never a second create, an update or a
    delete. *)
Theorem create_calls_shape (st : St W) (ptr : option string) :
  vpcRef (asString (Get (data st) "project_vpc_id")) = Some ptr ->
  createTrace (data st) ptr (newCalls st (snd (Create st))).
Proof.
  intros Ev. destruct (Create_sends st ptr Ev) as (req & k & E & Hn & Ht & Hp & _).
  exists req, k. repeat split; assumption.
Qed.

(** X8: when the remote refuses the create request, Create returns the
    remote's error as it is after that one call: it does not start to
    wait, assigns no identity and writes nothing to the record. *)
Theorem create_remote_failure (st : St W) (ptr : option string) (e : error) (w' : W) :
  vpcRef (asString (Get (data st) "project_vpc_id")) = Some ptr ->
  (forall req, Services_Create client (asString (Get (data st) "project")) req (world st)
               = (inl e, w')) ->
  exists req,
    cr_ProjectVPCID req = ptr
    /\ Create st
       = (Err e, {| data := data st; world := w';
                    calls := calls st
                             ++ [CallCreate (asString (Get (data st) "project")) req] |}).
Proof.
  intros Hv Hfail. unfold resourceServiceCreate.
  match goal with
  | |- context [bind getData ?k] =>
      change (bind getData k st) with (k (data st) st)
  end.
  cbv beta zeta.
  match goal with
  | |- context [bind (vpcIDPointerOf ?v) ?k] =>
      set (kont := k); unfold bind at 1; rewrite (vpcIDPointerOf_run v st), Hv
  end.
  subst kont. cbv beta.
  match goal with
  | |- context [remoteCall (CallCreate ?p ?r) ?op] => exists r
  end.
  split; [reflexivity|].
  unfold bind at 1, remoteCall. rewrite Hfail. reflexivity.
Qed.

Lemma Update_unguarded (st : St W) :
  addsIntegrations (data st) = false ->
  forall projectName serviceName,
    Identity.splitResourceID2 (Id (data st)) = Some (projectName, serviceName) ->
    forall ptr,
      vpcRef (asString (Get (data st) "project_vpc_id")) = Some ptr ->
      exists req,
        ur_Powered req = true /\ ur_ProjectVPCID req = ptr
        /\ ur_MaintenanceWindow req = getMaintenanceWindow (data st)
        /\ Update st
           = bind (remoteCall (CallUpdate projectName serviceName req)
                     (Services_Update client projectName serviceName req))
                  (fun r =>
                     match r with
                     | inl err => fail err
                     | inr _ =>
                         service <- Wait "update" ;;
                         copy service projectName
                     end) st.
Proof.
  intros Hg projectName serviceName Hid ptr Hv.
  unfold addsIntegrations in Hg.
  unfold resourceServiceUpdate.
  match goal with
  | |- context [bind getData ?k] =>
      change (bind getData k st) with (k (data st) st)
  end.
  cbv beta zeta. rewrite Hg.
  match goal with
  | |- context [bind (splitResourceID2 ?v) ?k] =>
      set (kont := k); unfold bind at 1; unfold splitResourceID2 at 1; rewrite Hid
  end.
  cbn [ret]. subst kont. cbv beta iota.
  match goal with
  | |- context [bind (vpcIDPointerOf ?v) ?k] =>
      set (kont := k); unfold bind at 1; rewrite (vpcIDPointerOf_run v st), Hv
  end.
  subst kont. cbv beta.
  match goal with
  | |- context [remoteCall (CallUpdate _ _ ?r) ?op] => exists r
  end.
  repeat split; reflexivity.
Qed.

Lemma Update_sends (st : St W) (projectName serviceName : string)
    (ptr : option string) :
  addsIntegrations (data st) = false ->
  Identity.splitResourceID2 (Id (data st)) = Some (projectName, serviceName) ->
  vpcRef (asString (Get (data st) "project_vpc_id")) = Some ptr ->
  exists req k,
    newCalls st (snd (Update st))
    = CallUpdate projectName serviceName req
        :: repeat (CallGet (asString (Get (data st) "project"))
                           (asString (Get (data st) "service_name"))) k
    /\ ur_Powered req = true
    /\ ur_ProjectVPCID req = ptr
    /\ ur_MaintenanceWindow req = getMaintenanceWindow (data st).
Proof.
  intros Hg Hid Hv.
  destruct (Update_unguarded st Hg projectName serviceName Hid ptr Hv)
    as (req & Hpow & Hptr & Hwin & ->).
  exists req.
  unfold bind at 1, remoteCall.
  destruct (Services_Update client projectName serviceName req (world st))
    as [[e | updated] w1].
  - exists 0%nat. cbn [snd fail repeat].
    split; [apply newCalls_app; reflexivity|].
    split; [exact Hpow|]. split; [exact Hptr | exact Hwin].
  - cbv beta iota.
    match goal with
    | |- context [bind (Wait "update") ?k ?s] =>
        pose proof (bind_calls_tail (Wait "update") k s
                      (fun service => copy_preserves_calls toTerraform service
                                        projectName)) as Ht;
        destruct (Wait_trace "update" s) as [n Hn]
    end.
    rewrite Hn in Ht. cbn [data calls] in Ht. exists n.
    split; [apply newCalls_app; rewrite Ht, <- app_assoc; reflexivity|].
    split; [exact Hpow|]. split; [exact Hptr | exact Hwin].
Qed.

(** X9: an Update that does not add service integrations, on a record
    whose identity decodes to a project and a service and whose stored VPC
    reference is empty or decodes, sends one update request, first, for
    that project and service, with the service powered on and that VPC
    reference, and after it makes only reads of the service the fields of
    the record name: never a create or a delete. *)
Theorem update_calls_shape (st : St W) (projectName serviceName : string)
    (ptr : option string) :
  addsIntegrations (data st) = false ->
  Identity.splitResourceID2 (Id (data st)) = Some (projectName, serviceName) ->
  vpcRef (asString (Get (data st) "project_vpc_id")) = Some ptr ->
  updateTrace (data st) projectName serviceName ptr (newCalls st (snd (Update st))).
Proof.
  intros Hg Hid Hv.
  destruct (Update_sends st projectName serviceName ptr Hg Hid Hv)
    as (req & k & E & Hpow & Hptr & _).
  exists req, k. repeat split; assumption.
Qed.

(** X10: when the remote refuses the update request, Update returns the
    remote's error as it is after that one call: it does not start to wait
    and writes nothing to the record. *)
Theorem update_remote_failure
    (st : St W) (projectName serviceName : string) (ptr : option string)
    (e : error) (w' : W) :
  HasChanges (data st) "service_integrations" = false ->
  Id (data st) = buildResourceID projectName serviceName ->
  vpcRef (asString (Get (data st) "project_vpc_id")) = Some ptr ->
  (forall req, Services_Update client projectName serviceName req (world st)
               = (inl e, w')) ->
  exists req,
    Update st
    = (Err e, {| data := data st; world := w';
                 calls := calls st ++ [CallUpdate projectName serviceName req] |}).
Proof.
  intros Hch Hid Hv Hfail.
  assert (Hs : Identity.splitResourceID2 (Id (data st)) = Some (projectName, serviceName)).
  { rewrite Hid. apply splitResourceID2_build. }
  destruct (Update_unguarded st ltac:(unfold addsIntegrations; rewrite Hch; reflexivity)
              projectName serviceName Hs ptr Hv) as (req & _ & _ & _ & ->).
  exists req. unfold bind at 1, remoteCall. rewrite Hfail. reflexivity.
Qed.

(** C6: a maintenance window is computed from the record exactly when
    day of week and time of day are both non-empty, and it then holds the
    two; every create request and every update request sent for the
    record carries what that computation gives; and the request is sent:
    a Create whose VPC reference is empty or decodes issues, as its first
    call, a create request that carries it, and an Update that does not
    add integrations, on an identity and a VPC reference that decode,
    issues, as its first call, an update request that carries it. *)
Theorem maintenance_window_pairing (st : St W) :
  let d := data st in
  let dow := asString (Get d "maintenance_window_dow") in
  let t := asString (Get d "maintenance_window_time") in
  (dow <> EmptyString /\ t <> EmptyString ->
   getMaintenanceWindow d = Some {| DayOfWeek := dow; TimeOfDay := t |})
  /\ (dow = EmptyString \/ t = EmptyString -> getMaintenanceWindow d = None)
  /\ (forall project req,
        In (CallCreate project req) (newCalls st (snd (Create st))) ->
        cr_MaintenanceWindow req = getMaintenanceWindow d)
  /\ (forall project name req,
        In (CallUpdate project name req) (newCalls st (snd (Update st))) ->
        ur_MaintenanceWindow req = getMaintenanceWindow d)
  /\ (forall ptr,
        vpcRef (asString (Get d "project_vpc_id")) = Some ptr ->
        exists req rest,
          newCalls st (snd (Create st))
          = CallCreate (asString (Get d "project")) req :: rest
          /\ cr_MaintenanceWindow req = getMaintenanceWindow d)
  /\ (forall projectName serviceName ptr,
        addsIntegrations d = false ->
        Identity.splitResourceID2 (Id d) = Some (projectName, serviceName) ->
        vpcRef (asString (Get d "project_vpc_id")) = Some ptr ->
        exists req rest,
          newCalls st (snd (Update st))
          = CallUpdate projectName serviceName req :: rest
          /\ ur_MaintenanceWindow req = getMaintenanceWindow d).
Proof.
  intros d dow t.
  destruct (getMaintenanceWindow_spec d) as [H1 H2].
  split; [exact H1|]. split; [exact H2|]. split; [|split; [|split]].
  - intros project req HIn.
    pose proof (Create_calls client toAPI toTerraform classify pollInterval st) as HF.
    rewrite List.Forall_forall in HF. exact (HF _ HIn).
  - intros project name req HIn.
    pose proof (Update_calls client toAPI toTerraform classify pollInterval st) as HF.
    rewrite List.Forall_forall in HF. exact (HF _ HIn).
  - intros ptr Hv.
    destruct (Create_sends st ptr Hv) as (req & k & E & _ & _ & _ & Hw).
    exists req. eexists. split; [exact E | exact Hw].
  - intros projectName serviceName ptr Hg Hid Hv.
    destruct (Update_sends st projectName serviceName ptr Hg Hid Hv)
      as (req & k & E & _ & _ & Hw).
    exists req. eexists. split; [exact E | exact Hw].
Qed.

End Traces.

(** ** Import, identity, and the wrappers *)

Lemma Get_withId (d : ResourceData) (id k : string) : Get (withId d id) k = Get d k.
Proof. reflexivity. Qed.


Section ImportFacts.

Context {W : Type}.
Variable client : Client W.
Variable toAPI : string -> string -> bool -> ResourceData -> value.
Variable toTerraform : string -> string -> value -> value.
Variable classify : string -> Service -> PollClass.
Variable pollInterval : Z.

#[local] Abbreviation copy :=
  (copyServicePropertiesFromAPIResponseToTerraform (W:=W) toTerraform).
#[local] Abbreviation Create :=
  (resourceServiceCreate client toAPI toTerraform classify pollInterval).
#[local] Abbreviation CreateWrapper :=
  (resourceServiceCreateWrapper client toAPI toTerraform classify pollInterval).
#[local] Abbreviation Read := (resourceServiceRead client toTerraform).
#[local] Abbreviation Import := (resourceServiceState client toTerraform).

Lemma Read_on (project name : string) (st : St W) (answer : error + Service) (w' : W) :
  Id (data st) = buildResourceID project name ->
  Services_Get client project name (world st) = (answer, w') ->
  Read st
  = match answer with
    | inl e =>
        if IsNotFound e
        then (Ok tt, {| data := withId (data st) EmptyString; world := w';
                        calls := calls st ++ [CallGet project name] |})
        else (Err e, {| data := data st; world := w';
                        calls := calls st ++ [CallGet project name] |})
    | inr service =>
        copy service project {| data := data st; world := w';
                                calls := calls st ++ [CallGet project name] |}
    end.
Proof.
  intros Hid Hget. unfold resourceServiceRead, bind, getData.
  rewrite Hid, splitResourceID2_build_run.
  unfold remoteCall. rewrite Hget.
  destruct answer as [e | service]; [|reflexivity].
  unfold resourceReadHandleNotFound. destruct (IsNotFound e); reflexivity.
Qed.

Lemma Import_on (project name : string) (st : St W) (answer : error + Service) (w' : W) :
  Id (data st) = buildResourceID project name ->
  Services_Get client project name (world st) = (answer, w') ->
  Import st
  = match answer with
    | inl e => (Err e, {| data := data st; world := w';
                          calls := calls st ++ [CallGet project name] |})
    | inr service =>
        match copy service project {| data := data st; world := w';
                                      calls := calls st ++ [CallGet project name] |} with
        | (Ok _, st') => (Ok [data st'], st')
        | (Err e, st') => (Err e, st')
        | (Panic msg, st') => (Panic msg, st')
        end
    end.
Proof.
  intros Hid Hget. unfold resourceServiceState, bind, getData.
  assert (Hlen : length (Strings.Split (Id (data st))) = 2%nat).
  { rewrite Hid. exact (Split_build_length [project; name] ltac:(discriminate)). }
  rewrite Hlen. cbn [Nat.eqb negb].
  rewrite Hid, splitResourceID2_build_run.
  unfold remoteCall. rewrite Hget.
  destruct answer as [e | service]; [reflexivity|].
  destruct (copy service project _) as [[u | e | msg] st']; reflexivity.
Qed.

(** X11: import refuses, before any call and without touching the record,
    every identity that does not consist of exactly two pieces separated by
    one ["/"]. *)
Theorem import_rejects_other_shapes (st : St W) :
  length (Strings.Split (Id (data st))) <> 2%nat ->
  Import st = (Err (invalidIdentifier (Id (data st))), st).
Proof.
  intros Hlen. unfold resourceServiceState, bind, getData.
  destruct (Nat.eqb (length (Strings.Split (Id (data st)))) 2) eqn:E.
  - apply Nat.eqb_eq in E. contradiction.
  - reflexivity.
Qed.

(** X12: import returns every error of the remote read as it is, the
    not-found error too, after that one call; unlike Read it keeps the
    identity of the record and does not turn not-found into success. *)
Theorem import_propagates_read_errors
    (project name : string) (st : St W) (e : error) (w' : W) :
  Id (data st) = buildResourceID project name ->
  Services_Get client project name (world st) = (inl e, w') ->
  Import st = (Err e, {| data := data st; world := w';
                         calls := calls st ++ [CallGet project name] |}).
Proof. intros Hid Hget. rewrite (Import_on project name st (inl e) w' Hid Hget). reflexivity. Qed.


Lemma Create_wp_full (st : St W) :
  wp Create
     (fun _ st' =>
        exists service props,
          In (resolvedType (data st) service) availableServiceTypes
          /\ data st'
             = withAttrs
                 (withId (data st)
                    (buildResourceID (asString (Get (data st) "project"))
                                     (svc_Name service)))
                 (copiedAttrs toTerraform (resolvedType (data st) service) service
                    (asString (Get (data st) "project")) props
                    (rd_attrs (data st))))
     st.
Proof.
  unfold resourceServiceCreate.
  apply wp_bind, wp_getData. cbv beta zeta.
  apply wp_bind, wp_of_preserves_data; [apply vpcIDPointerOf_preserves|].
  intros ptr st1 Hd1.
  apply wp_bind, wp_of_preserves_data; [apply preserves_remoteCall_data|].
  intros [e | created] st2 Hd2; [apply wp_fail|].
  apply wp_bind, wp_of_preserves_data; [apply Wait_preserves_data|].
  intros service st3 Hd3.
  apply wp_bind, wp_getData. apply wp_bind, wp_SetId.
  apply wp_bind, wp_getData.
  eapply wp_consequence; [apply copy_wp|].
  cbn [data world calls]. intros _ st' (HT & props & ->).
  rewrite resolvedType_withId, Get_withId in *.
  cbn [data withAttrs withId rd_attrs].
  rewrite Hd3, Hd2, Hd1 in *.
  exists service, props. split; [exact HT|]. reflexivity.
Qed.

(** X14: Create assigns the identity built from the project of the record
    and the name the remote reports, which are then the project and the
    service name the record holds; a Read that follows therefore asks the
    remote for exactly that service. *)
Theorem create_assigns_identity (st st1 : St W) :
  Create st = (Ok tt, st1) ->
  let project := asString (Get (data st1) "project") in
  let name := asString (Get (data st1) "service_name") in
  project = asString (Get (data st) "project")
  /\ Id (data st1) = buildResourceID project name
  /\ newCalls st1 (snd (Read st1)) = [CallGet project name].
Proof.
  intros Hc.
  pose proof (wp_elim _ _ _ _ _ (Create_wp_full st) Hc) as (service & props & HT & Hd).
  cbv beta in HT, Hd.
  assert (Hp : Get (data st1) "project" = VStr (asString (Get (data st) "project"))).
  { apply Get_of_lookup. rewrite Hd. cbn [withAttrs rd_attrs].
    apply copiedAttrs_project, HT. }
  assert (Hn : Get (data st1) "service_name" = VStr (svc_Name service)).
  { apply Get_of_lookup. rewrite Hd. cbn [withAttrs rd_attrs].
    apply copiedAttrs_service_name, HT. }
  assert (Hid : Id (data st1)
                = buildResourceID (asString (Get (data st) "project")) (svc_Name service)).
  { unfold Id. rewrite Hd. reflexivity. }
  cbv zeta. rewrite Hp, Hn. cbn [asString].
  split; [reflexivity|]. split; [exact Hid|].
  destruct (Services_Get client (asString (Get (data st) "project")) (svc_Name service)
              (world st1)) as [answer w'] eqn:Hget.
  rewrite (Read_on _ _ st1 answer w' Hid Hget).
  apply newCalls_app.
  destruct answer as [e | service'].
  - destruct (IsNotFound e); reflexivity.
  - rewrite copy_preserves_calls. reflexivity.
Qed.




Lemma generic_blocks_declared (T : string) :
  In T availableServiceTypes ->
  (is_Some (aivenServiceSchema !! T) <-> In T preseededTypes).
Proof.
  intros HT. unfold availableServiceTypes, In in HT.
  repeat match type of HT with
         | _ \/ _ => destruct HT as [HT | HT]
         end;
    try contradiction; subst T; split; intros H;
    first [ solve [unfold preseededTypes, In;
                   repeat (first [left; reflexivity | right])]
          | solve [vm_compute; eexists; reflexivity]
          | solve [vm_compute in H; destruct H as [? H]; discriminate H]
          | solve [unfold preseededTypes, In in H;
                   repeat match type of H with
                          | _ \/ _ => destruct H as [H | H]
                          end; try contradiction; discriminate H] ].
Qed.

(** X16: the generic resource clears exactly the blocks its schema
    declares: a type of the enumeration has a block in the schema exactly
    when the wrapper clears it, so on a record of that schema the clearing
    cannot fail, and Create through the wrapper is Create on the record
    with the twelve blocks cleared. *)
Theorem preseeding_matches_schema (st : St W) :
  (forall T, In T availableServiceTypes ->
     (is_Some (aivenServiceSchema !! T) <-> In T preseededTypes))
  /\ (rd_schema (data st) = aivenServiceSchema ->
      CreateWrapper "service" st
      = Create {| data := withAttrs (data st) (preseeded (rd_attrs (data st)));
                  world := world st; calls := calls st |}).
Proof.
  split; [exact generic_blocks_declared|].
  intros Hs. destruct st as [[sch prior attrs id tc tu] w c].
  cbn [data rd_schema] in Hs. subst sch.
  set (d := {| rd_schema := aivenServiceSchema; rd_prior := prior;
               rd_attrs := attrs; rd_id := id;
               rd_timeoutCreate := tc; rd_timeoutUpdate := tu |}).
  change {| data := d; world := w; calls := c |} with (mkSt d attrs w c).
  cbn [data world calls rd_attrs].
  change {| data := withAttrs d (preseeded (rd_attrs d)); world := w; calls := c |}
    with (mkSt d (preseeded attrs) w c).
  assert (Hstep : forall A k (f : unit -> M W A) a,
             In k preseededTypes ->
             bind (dSet k emptyBlock) f (mkSt d a w c)
             = f tt (mkSt d (<[k := emptyBlock]> a) w c)).
  { intros A k f a Hk. unfold bind.
    rewrite (returns_dSet_mk k emptyBlock d a w c); [reflexivity|].
    apply generic_blocks_declared; [apply preseeded_available, Hk | exact Hk]. }
  unfold resourceServiceCreateWrapper.
  change (String.eqb "service" "service") with true. cbv iota.
  do 12 (rewrite Hstep
           by (unfold preseededTypes, In; repeat (first [left; reflexivity | right]))).
  reflexivity.
Qed.

(** X17: reading twice is stable: when the remote answers two successive
    reads of the service with the same representation and the first Read
    succeeds, the second succeeds too and leaves the record exactly as the
    first left it. *)
Theorem read_twice_is_stable
    (project name : string) (st st1 : St W) (service : Service) (w1 w2 : W) :
  Id (data st) = buildResourceID project name ->
  Services_Get client project name (world st) = (inr service, w1) ->
  Services_Get client project name w1 = (inr service, w2) ->
  Read st = (Ok tt, st1) ->
  exists st2, Read st1 = (Ok tt, st2) /\ data st2 = data st1.
Proof.
  intros Hid Hg1 Hg2 Hr.
  rewrite (Read_on project name st (inr service) w1 Hid Hg1) in Hr.
  assert (Hw : world st1 = w1).
  { pose proof (copy_preserves_world toTerraform service project
                  {| data := data st; world := w1;
                     calls := calls st ++ [CallGet project name] |}) as Hp.
    rewrite Hr in Hp. exact Hp. }
  assert (Hi : Id (data st1) = buildResourceID project name).
  { pose proof (copy_ok_inv toTerraform service project _ _ _ Hr) as (_ & props & ->).
    exact Hid. }
  rewrite <- Hw in Hg2.
  rewrite (Read_on project name st1 (inr service) w2 Hi Hg2).
  eexists. split; [eapply copy_again; exact Hr | reflexivity].
Qed.

End ImportFacts.

(** ** Identity, projection for PostgreSQL, and the Redis resource *)

Lemma preserves_of_data {W A X : Type} (f : ResourceData -> X) (m : M W A) :
  preserves data m -> preserves (fun st => f (data st)) m.
Proof. intros H st. cbv beta. rewrite H. reflexivity. Qed.

Lemma redis_schema_declares (k : string) :
  In k (copiedKeys ++ ["redis_user_config"; "redis"]) ->
  is_Some (redisSchema !! k).
Proof.
  intros Hk.
  assert (E : forallb (fun k => bool_decide (is_Some (redisSchema !! k)))
                      (copiedKeys ++ ["redis_user_config"; "redis"]) = true)
    by (vm_compute; reflexivity).
  rewrite forallb_forall in E. specialize (E k Hk).
  apply bool_decide_eq_true in E. exact E.
Qed.

Section MoreFacts.

Context {W : Type}.
Variable client : Client W.
Variable toAPI : string -> string -> bool -> ResourceData -> value.
Variable toTerraform : string -> string -> value -> value.
Variable classify : string -> Service -> PollClass.
Variable pollInterval : Z.

#[local] Abbreviation copy :=
  (copyServicePropertiesFromAPIResponseToTerraform (W:=W) toTerraform).
#[local] Abbreviation Create :=
  (resourceServiceCreate client toAPI toTerraform classify pollInterval).
#[local] Abbreviation CreateWrapper :=
  (resourceServiceCreateWrapper client toAPI toTerraform classify pollInterval).
#[local] Abbreviation Read := (resourceServiceRead client toTerraform).
#[local] Abbreviation Update :=
  (resourceServiceUpdate client toAPI toTerraform classify pollInterval).
#[local] Abbreviation Delete := (resourceServiceDelete client).

Lemma copyConnectionInfo_preserves_id t ci :
  preserves (W:=W) idOf (copyConnectionInfoFromAPIResponseToTerraform t ci).
Proof. unfold copyConnectionInfoFromAPIResponseToTerraform. preserves_tac. Qed.

Lemma copy_preserves_id service project : preserves idOf (copy service project).
Proof.
  unfold copyServicePropertiesFromAPIResponseToTerraform.
  repeat first
    [ preserves_step
    | lazymatch goal with
      | |- preserves _ (copyConnectionInfoFromAPIResponseToTerraform _ _) =>
          apply copyConnectionInfo_preserves_id
      end ].
Qed.

Ltac keeps_id :=
  repeat first
    [ lazymatch goal with
      | |- preserves _ (copyServicePropertiesFromAPIResponseToTerraform _ _ _) =>
          apply copy_preserves_id
      | |- preserves _ (splitResourceID2 _) => apply splitResourceID2_preserves
      | |- preserves _ (vpcIDPointerOf _) => apply vpcIDPointerOf_preserves
      | |- preserves _ (remoteCall _ _) =>
          apply (preserves_of_data rd_id), preserves_remoteCall_data
      | |- preserves _ (resourceServiceWait _ _ _ _) =>
          apply (preserves_of_data rd_id), Wait_preserves_data
      | |- preserves _ (if ?b then _ else _) => destruct b
      | |- preserves _ (let '(_, _) := ?p in _) => destruct p
      end
    | preserves_step ].

(** X18: the identity of a record is stable: Update and Delete never
    change it, however they end; Read either keeps it or, when it returns
    without error after a not-found answer, clears it. *)
Theorem identity_is_stable (st : St W) :
  Id (data (snd (Update st))) = Id (data st)
  /\ Id (data (snd (Delete st))) = Id (data st)
  /\ (Id (data (snd (Read st))) = Id (data st)
      \/ (Id (data (snd (Read st))) = EmptyString /\ fst (Read st) = Ok tt)).
Proof.
  split; [|split].
  - assert (H : preserves idOf Update).
    { unfold resourceServiceUpdate. keeps_id. }
    exact (H st).
  - assert (H : preserves idOf Delete).
    { unfold resourceServiceDelete. keeps_id. }
    exact (H st).
  - assert (HR :
      Read st
      = match Identity.splitResourceID2 (Id (data st)) with
        | None => (Panic "MalformedIdentity", st)
        | Some (projectName, serviceName) =>
            let '(answer, w') :=
              Services_Get client projectName serviceName (world st) in
            let st1 := {| data := data st; world := w';
                          calls := calls st ++ [CallGet projectName serviceName] |} in
            match answer with
            | inl e =>
                if IsNotFound e
                then (Ok tt, {| data := withId (data st) EmptyString; world := w';
                                calls := calls st
                                         ++ [CallGet projectName serviceName] |})
                else (Err e, st1)
            | inr service => copy service projectName st1
            end
        end).
    { unfold resourceServiceRead, bind, getData, splitResourceID2.
      destruct (Identity.splitResourceID2 (Id (data st)))
        as [[projectName serviceName]|]; [|reflexivity].
      cbn [ret]. unfold remoteCall.
      destruct (Services_Get client projectName serviceName (world st))
        as [[e | service] w1]; [|reflexivity].
      unfold resourceReadHandleNotFound. destruct (IsNotFound e); reflexivity. }
    rewrite HR.
    destruct (Identity.splitResourceID2 (Id (data st)))
      as [[projectName serviceName]|]; [|left; reflexivity].
    destruct (Services_Get client projectName serviceName (world st))
      as [[e | service] w1]; cbv zeta.
    + destruct (IsNotFound e); [right; split; reflexivity | left; reflexivity].
    + left.
      match goal with
      | |- context [copy service projectName ?s] =>
          exact (copy_preserves_id service projectName s)
      end.
Qed.

(** X19: the PostgreSQL block.  On a record whose schema declares the
    ["pg"] block the projection succeeds, writes no other key, and leaves
    one element in the block, in which the replica URI is the remote's; the
    URI is the first of the remote's when it has any; database name, host,
    password, SSL mode and user are those of the first parameter set when
    there is one; and the port is the number the port of that set denotes
    when it is a decimal number that fits 32 bits. *)
Theorem pg_projection (ci : ConnectionInfo) (st : St W) :
  is_Some (rd_schema (data st) !! "pg") ->
  exists st' props,
    copyConnectionInfoFromAPIResponseToTerraform "pg" ci st = (Ok tt, st')
    /\ Get (data st') "pg" = VList [VMap props]
    /\ (forall k, k <> "pg" -> rd_attrs (data st') !! k = rd_attrs (data st) !! k)
    /\ mapIndex props "replica_uri" = VStr (PostgresReplicaURI ci)
    /\ match PostgresURIs ci with
       | u :: _ => mapIndex props "uri" = VStr u
       | [] => True
       end
    /\ match PostgresParamsList ci with
       | params :: _ =>
           mapIndex props "dbname" = VStr (pg_DatabaseName params)
           /\ mapIndex props "host" = VStr (pg_Host params)
           /\ mapIndex props "password" = VStr (pg_Password params)
           /\ mapIndex props "sslmode" = VStr (pg_SSLMode params)
           /\ mapIndex props "user" = VStr (pg_User params)
           /\ (forall port, Strconv.ParseInt32 (pg_Port params) = (port, true) ->
                            mapIndex props "port" = VInt port)
       | [] => True
       end.
Proof.
  intros Hk.
  destruct (connectionProps "pg" ci) as [props|] eqn:Ep.
  2: { unfold connectionProps in Ep. cbn in Ep. discriminate Ep. }
  exists (setAttr "pg" (VList [VMap props]) st), props. split.
  { rewrite copyConnectionInfo_eq, Ep.
    destruct (dSet_cases "pg" (VList [VMap props]) st) as [[Hn _] | [_ E]];
      [|exact E].
    rewrite Hn in Hk. destruct Hk as [? Hk]. discriminate Hk. }
  split.
  { apply Get_of_lookup. unfold setAttr. cbn [data withAttrs rd_attrs].
    apply lookup_insert_eq. }
  split.
  { intros k Hne. unfold setAttr. cbn [data withAttrs rd_attrs].
    apply lookup_insert_ne. congruence. }
  unfold connectionProps in Ep. cbn [String.eqb Ascii.eqb Bool.eqb] in Ep.
  injection Ep as <-.
  destruct (PostgresURIs ci) as [|u us];
    destruct (PostgresParamsList ci) as [|params ps];
    try (destruct (Strconv.ParseInt32 (pg_Port params)) as [port [|]]);
    cbn [app mapIndex String.eqb Ascii.eqb Bool.eqb fst snd];
    repeat split; try reflexivity;
    intros port' Hport; injection Hport as <-; try discriminate; reflexivity.
Qed.

(** X20: the Redis resource.  Its schema declares every key the wrapper
    and the field copy write for a Redis service, so on a record of that
    schema the wrapper cannot fail before Create: it is Create on the
    record with the service type set to redis and the redis block cleared;
    and the field copy of any remote representation, when the type it
    works with is redis, succeeds and leaves redis as the service type and
    exactly one element in the redis block. *)
Theorem redis_resource (st : St W) :
  rd_schema (data st) = redisSchema ->
  CreateWrapper ServiceTypeRedis st
  = Create {| data := withAttrs (data st)
                        (<[ServiceTypeRedis := emptyBlock]>
                           (<["service_type" := VStr ServiceTypeRedis]>
                              (rd_attrs (data st))));
              world := world st; calls := calls st |}
  /\ forall service project,
       resolvedType (data st) service = ServiceTypeRedis ->
       exists st' element,
         copy service project st = (Ok tt, st')
         /\ Get (data st') "service_type" = VStr ServiceTypeRedis
         /\ Get (data st') ServiceTypeRedis = VList [element].
Proof.
  intros Hs. destruct st as [[sch prior attrs id tc tu] w c].
  cbn [data rd_schema] in Hs. subst sch.
  set (d := {| rd_schema := redisSchema; rd_prior := prior;
               rd_attrs := attrs; rd_id := id;
               rd_timeoutCreate := tc; rd_timeoutUpdate := tu |}).
  change {| data := d; world := w; calls := c |} with (mkSt d attrs w c).
  cbn [data world calls rd_attrs mkSt withAttrs]. fold d.
  assert (Hdecl : forall k, In k (copiedKeys ++ ["redis_user_config"; "redis"]) ->
                            is_Some (rd_schema d !! k))
    by exact redis_schema_declares.
  split.
  - unfold resourceServiceCreateWrapper, ServiceTypeRedis.
    change (String.eqb "redis" "service") with false. cbv iota.
    change {| data := d; world := w; calls := c |} with (mkSt d attrs w c).
    unfold bind at 1.
    rewrite (returns_dSet_mk "service_type" (VStr "redis") d attrs w c)
      by (apply Hdecl; cbn [app copiedKeys In]; auto 30).
    unfold bind at 1.
    rewrite (returns_dSet_mk "redis" emptyBlock d _ w c)
      by (apply Hdecl; cbn [app copiedKeys In]; auto 30).
    reflexivity.
  - intros service project HT.
    change {| data := d; world := w; calls := c |} with (mkSt d attrs w c) in *.
    change (data (mkSt d attrs w c)) with (withAttrs d attrs) in HT.
    pose proof (copy_returns toTerraform service project d attrs w c []) as Hr.
    rewrite HT in Hr. unfold returns in Hr.
    eexists. exists (VMap []). split; [|split].
    + apply Hr; [reflexivity|].
      unfold keysDeclared. eapply Forall_impl; [apply copyWrites_keys|].
      intros kv Hkv. cbv beta in Hkv. apply Hdecl. exact Hkv.
    + apply Get_of_lookup. cbn [mkSt data withAttrs rd_attrs].
      apply copiedAttrs_service_type. unfold availableServiceTypes, In. auto 20.
    + apply Get_of_lookup. cbn [mkSt data withAttrs rd_attrs].
      apply copiedAttrs_block.
Qed.

End MoreFacts.

(** ** The further properties on the scripted remote *)

Lemma maintenance_window_pairing_witness :
  let win := Some {| DayOfWeek := "monday"; TimeOfDay := "10:00:00" |} in
  getMaintenanceWindow (data Fake.pgWindowed) = win
  /\ (exists req rest,
        newCalls Fake.pgWindowed
          (snd (resourceServiceCreate Fake.pgClient Fake.toAPI Fake.toTerraform
                  Fake.classify 10 Fake.pgWindowed))
        = CallCreate "prj" req :: rest
        /\ cr_MaintenanceWindow req = win)
  /\ (exists req rest,
        newCalls Fake.pgWindowed
          (snd (resourceServiceUpdate Fake.pgClient Fake.toAPI Fake.toTerraform
                  Fake.classify 10 Fake.pgWindowed))
        = CallUpdate "prj" "db1" req :: rest
        /\ ur_MaintenanceWindow req = win)
  /\ getMaintenanceWindow (data Fake.pgExisting) = None
  /\ (exists req rest,
        newCalls Fake.pgExisting
          (snd (resourceServiceUpdate Fake.pgClient Fake.toAPI Fake.toTerraform
                  Fake.classify 10 Fake.pgExisting))
        = CallUpdate "prj" "db1" req :: rest
        /\ ur_MaintenanceWindow req = None).
Proof.
  intros win.
  destruct (maintenance_window_pairing Fake.pgClient Fake.toAPI Fake.toTerraform
              Fake.classify 10 Fake.pgWindowed) as (H1 & _ & _ & _ & H5 & H6).
  destruct (maintenance_window_pairing Fake.pgClient Fake.toAPI Fake.toTerraform
              Fake.classify 10 Fake.pgExisting) as (_ & K2 & _ & _ & _ & K6).
  assert (E : getMaintenanceWindow (data Fake.pgWindowed) = win).
  { refine (eq_trans (H1 _) _); [|vm_compute; reflexivity].
    split; vm_compute; intros E; discriminate E. }
  assert (N : getMaintenanceWindow (data Fake.pgExisting) = None).
  { apply K2. right. vm_compute. reflexivity. }
  split; [exact E|]. split; [|split; [|split; [exact N|]]].
  - destruct (H5 None) as (req & rest & Hc & Hw); [vm_compute; reflexivity|].
    exists req, rest. split; [exact Hc|]. rewrite Hw. exact E.
  - destruct (H6 "prj" "db1" None) as (req & rest & Hc & Hw);
      [vm_compute; reflexivity | vm_compute; reflexivity | vm_compute; reflexivity|].
    exists req, rest. split; [exact Hc|]. rewrite Hw. exact E.
  - destruct (K6 "prj" "db1" None) as (req & rest & Hc & Hw);
      [vm_compute; reflexivity | vm_compute; reflexivity | vm_compute; reflexivity|].
    exists req, rest. split; [exact Hc|]. rewrite Hw. exact N.
Defined.

Lemma copy_success_requires_witness :
  let st1 := snd (copyServicePropertiesFromAPIResponseToTerraform Fake.toTerraform
                    (Fake.service "db1" "pg" "RUNNING") "prj" Fake.pgExisting) in
  rd_attrs (data st1) !! "service_integrations"
  = rd_attrs (data Fake.pgExisting) !! "service_integrations"
  /\ calls st1 = calls Fake.pgExisting.
Proof.
  intros st1.
  assert (H : copyServicePropertiesFromAPIResponseToTerraform Fake.toTerraform
                (Fake.service "db1" "pg" "RUNNING") "prj" Fake.pgExisting
              = (Ok tt, st1)) by (vm_compute; reflexivity).
  destruct (copy_success_requires Fake.toTerraform _ _ _ _ H)
    as (_ & _ & Hframe & _ & _ & _ & _ & Hcalls).
  split; [|exact Hcalls].
  apply Hframe. vm_compute. intros Hin.
  repeat match type of Hin with
         | _ \/ _ => destruct Hin as [Hin | Hin]
         end; try discriminate Hin; exact Hin.
Defined.

Lemma create_calls_shape_witness :
  createTrace (data Fake.pgInVpc) (Some "vpc1")
    (newCalls Fake.pgInVpc
       (snd (resourceServiceCreate Fake.pgClient Fake.toAPI Fake.toTerraform
               Fake.classify 10 Fake.pgInVpc))).
Proof.
  apply (create_calls_shape Fake.pgClient Fake.toAPI Fake.toTerraform Fake.classify 10
           Fake.pgInVpc (Some "vpc1")).
  vm_compute. reflexivity.
Defined.

Lemma update_calls_shape_witness :
  updateTrace (data Fake.pgInVpc) "prj" "db1" (Some "vpc1")
    (newCalls Fake.pgInVpc
       (snd (resourceServiceUpdate Fake.pgClient Fake.toAPI Fake.toTerraform
               Fake.classify 10 Fake.pgInVpc))).
Proof.
  apply (update_calls_shape Fake.pgClient Fake.toAPI Fake.toTerraform Fake.classify 10
           Fake.pgInVpc "prj" "db1" (Some "vpc1"));
    vm_compute; reflexivity.
Defined.

Lemma copy_idempotent_witness :
  let st1 := snd (copyServicePropertiesFromAPIResponseToTerraform Fake.toTerraform
                    (Fake.service "db1" "pg" "RUNNING") "prj" Fake.pgExisting) in
  copyServicePropertiesFromAPIResponseToTerraform Fake.toTerraform
    (Fake.service "db1" "pg" "RUNNING") "prj" st1
  = (Ok tt, st1).
Proof.
  intros st1.
  apply (copy_idempotent Fake.toTerraform (Fake.service "db1" "pg" "RUNNING") "prj"
           Fake.pgExisting st1).
  vm_compute. reflexivity.
Defined.

Lemma copy_records_type_witness :
  let st1 := snd (copyServicePropertiesFromAPIResponseToTerraform Fake.toTerraform
                    (Fake.service "db1" "kafka" "RUNNING") "prj" Fake.pgExisting) in
  Get (data st1) "service_type" = VStr "pg".
Proof.
  intros st1.
  assert (H : copyServicePropertiesFromAPIResponseToTerraform Fake.toTerraform
                (Fake.service "db1" "kafka" "RUNNING") "prj" Fake.pgExisting
              = (Ok tt, st1)) by (vm_compute; reflexivity).
  destruct (copy_records_type Fake.toTerraform _ _ _ _ H) as (_ & _ & E & _).
  refine (eq_trans E _). vm_compute. reflexivity.
Defined.

Lemma copy_uri_params_witness :
  let st1 := snd (copyServicePropertiesFromAPIResponseToTerraform Fake.toTerraform
                    (Fake.service "db1" "pg" "RUNNING") "prj" Fake.pgExisting) in
  rd_attrs (data st1) !! "service_password" = None
  /\ Get (data st1) "service_host" = VStr "db".
Proof.
  intros st1.
  assert (H : copyServicePropertiesFromAPIResponseToTerraform Fake.toTerraform
                (Fake.service "db1" "pg" "RUNNING") "prj" Fake.pgExisting
              = (Ok tt, st1)) by (vm_compute; reflexivity).
  destruct (copy_uri_params Fake.toTerraform _ _ _ _ H) as (E1 & _ & E2 & _).
  split.
  - refine (eq_trans E1 _). vm_compute. reflexivity.
  - refine (eq_trans E2 _). vm_compute. reflexivity.
Defined.

Lemma generic_schema_copy_witness :
  fst (copyServicePropertiesFromAPIResponseToTerraform Fake.toTerraform
         (Fake.service "db1" "pg" "RUNNING") "prj" Fake.pgExisting)
  = Ok tt.
Proof.
  destruct (generic_schema_copy Fake.toTerraform (Fake.service "db1" "pg" "RUNNING")
              "prj" Fake.pgExisting eq_refl) as [H _].
  apply H. vm_compute. auto 20.
Defined.

Lemma create_remote_failure_witness :
  exists req,
    cr_ProjectVPCID req = None
    /\ resourceServiceCreate (Fake.refusing (APIError 403 "forbidden"))
         Fake.toAPI Fake.toTerraform Fake.classify 10 Fake.pgPlanned
       = (Err (APIError 403 "forbidden"),
          {| data := data Fake.pgPlanned; world := 0%nat;
             calls := [CallCreate "prj" req] |}).
Proof.
  destruct (create_remote_failure (Fake.refusing (APIError 403 "forbidden"))
              Fake.toAPI Fake.toTerraform Fake.classify 10 Fake.pgPlanned None
              (APIError 403 "forbidden") 0%nat eq_refl (fun _ => eq_refl))
    as (req & Hv & Hc).
  exists req. split; [exact Hv|]. exact Hc.
Defined.

Lemma update_remote_failure_witness :
  exists req,
    resourceServiceUpdate (Fake.refusing (APIError 403 "forbidden"))
      Fake.toAPI Fake.toTerraform Fake.classify 10 Fake.pgExisting
    = (Err (APIError 403 "forbidden"),
       {| data := data Fake.pgExisting; world := 0%nat;
          calls := [CallUpdate "prj" "db1" req] |}).
Proof.
  exact (update_remote_failure (Fake.refusing (APIError 403 "forbidden"))
           Fake.toAPI Fake.toTerraform Fake.classify 10 Fake.pgExisting
           "prj" "db1" None (APIError 403 "forbidden") 0%nat
           eq_refl eq_refl eq_refl (fun _ => eq_refl)).
Defined.

Lemma import_rejects_other_shapes_witness :
  resourceServiceState Fake.steady Fake.toTerraform (Fake.imported "prj/db1/extra")
  = (Err (invalidIdentifier "prj/db1/extra"), Fake.imported "prj/db1/extra").
Proof.
  apply (import_rejects_other_shapes Fake.steady Fake.toTerraform
           (Fake.imported "prj/db1/extra")).
  vm_compute. intros E. discriminate E.
Defined.

Lemma import_propagates_read_errors_witness :
  resourceServiceState (Fake.client (fun _ => inl Fake.notFound) None)
    Fake.toTerraform (Fake.imported "prj/db1")
  = (Err Fake.notFound,
     {| data := data (Fake.imported "prj/db1"); world := 1%nat;
        calls := [CallGet "prj" "db1"] |}).
Proof.
  exact (import_propagates_read_errors
           (Fake.client (fun _ => inl Fake.notFound) None) Fake.toTerraform
           "prj" "db1" (Fake.imported "prj/db1") Fake.notFound 1%nat
           eq_refl eq_refl).
Defined.


Lemma create_assigns_identity_witness :
  let r := resourceServiceCreate Fake.pgClient Fake.toAPI Fake.toTerraform
             Fake.classify 10 Fake.pgPlanned in
  fst r = Ok tt /\ Id (data (snd r)) = "prj/db1".
Proof.
  intros r. split; [vm_compute; reflexivity|].
  assert (H : resourceServiceCreate Fake.pgClient Fake.toAPI Fake.toTerraform
                Fake.classify 10 Fake.pgPlanned = (Ok tt, snd r))
    by (vm_compute; reflexivity).
  destruct (create_assigns_identity Fake.pgClient Fake.toAPI Fake.toTerraform
              Fake.classify 10 Fake.pgPlanned (snd r) H) as (_ & E & _).
  refine (eq_trans E _). vm_compute. reflexivity.
Defined.


Lemma preseeding_matches_schema_witness :
  resourceServiceCreateWrapper Fake.pgClient Fake.toAPI Fake.toTerraform
    Fake.classify 10 "service" Fake.pgPlanned
  = resourceServiceCreate Fake.pgClient Fake.toAPI Fake.toTerraform Fake.classify 10
      {| data := withAttrs (data Fake.pgPlanned)
                   (preseeded (rd_attrs (data Fake.pgPlanned)));
         world := world Fake.pgPlanned; calls := calls Fake.pgPlanned |}.
Proof.
  destruct (preseeding_matches_schema Fake.pgClient Fake.toAPI Fake.toTerraform
              Fake.classify 10 Fake.pgPlanned) as [_ H].
  apply H. reflexivity.
Defined.

Lemma read_twice_is_stable_witness :
  let st1 := snd (resourceServiceRead Fake.steady Fake.toTerraform Fake.pgExisting) in
  exists st2,
    resourceServiceRead Fake.steady Fake.toTerraform st1 = (Ok tt, st2)
    /\ data st2 = data st1.
Proof.
  intros st1.
  refine (read_twice_is_stable Fake.steady Fake.toTerraform "prj" "db1"
            Fake.pgExisting st1 (Fake.service "db1" "pg" "RUNNING") 1%nat 2%nat
            _ _ _ _);
    vm_compute; reflexivity.
Defined.

Lemma pg_projection_witness :
  exists st' props,
    copyConnectionInfoFromAPIResponseToTerraform "pg" Fake.pgConnection
      Fake.pgExisting
    = (Ok tt, st')
    /\ Get (data st') "pg" = VList [VMap props]
    /\ mapIndex props "uri" = VStr "postgres://db:5432/defaultdb"
    /\ mapIndex props "user" = VStr "avnadmin"
    /\ mapIndex props "port" = VInt 5432.
Proof.
  destruct (pg_projection Fake.pgConnection Fake.pgExisting)
    as (st' & props & E & Hg & _ & _ & Hu & _ & _ & _ & _ & Hus & Hp).
  - vm_compute. eexists. reflexivity.
  - exists st', props. split; [exact E|]. split; [exact Hg|].
    split; [exact Hu|]. split; [exact Hus|].
    apply Hp. vm_compute. reflexivity.
Defined.

Lemma redis_resource_witness :
  exists st' element,
    copyServicePropertiesFromAPIResponseToTerraform Fake.toTerraform
      (Fake.service "db1" "redis" "RUNNING") "prj" Fake.redisPlanned
    = (Ok tt, st')
    /\ Get (data st') "service_type" = VStr ServiceTypeRedis
    /\ Get (data st') ServiceTypeRedis = VList [element].
Proof.
  destruct (redis_resource Fake.pgClient Fake.toAPI Fake.toTerraform Fake.classify 10
              Fake.redisPlanned eq_refl) as [_ H].
  apply H. vm_compute. reflexivity.
Defined.

(** The generic resource on a type its schema has no block for. *)
Example generic_schema_rejects_m3aggregator :
  fst (copyServicePropertiesFromAPIResponseToTerraform Fake.toTerraform
         (Fake.service "agg" "m3aggregator" "RUNNING") "prj"
         (Fake.imported "prj/agg"))
  = Err (Wrapped "cannot set `m3aggregator_user_config` : "
           (InvalidAddress "m3aggregator_user_config")).
Proof. vm_compute. reflexivity. Qed.
